(** * Real-time channel server: a shallow embedding of [server/websocket.ts]
    and of the storage methods it calls (class [MemStorage], exported as
    [storage]).

    The embedding keeps the shape of the source: one handler per [case] of
    the [switch (data.type)], the [close] handler, the [heartbeat] sweep, the
    [channels] map from channel id to an array of sockets, and [wss.clients].
    Socket objects are shared (the arrays in [channels] and the set
    [wss.clients] hold references to the same objects), so sockets live in a
    heap indexed by a handle and every other structure stores handles.

    Conventions.
    - A handler is a state transformer over the server that also logs, in
      program order, what it does to the outside world: frames written to
      sockets, pings, terminations, and calls that write to the store.
    - Every callback runs to completion before the next one starts; the
      [await]s on the store are not points where other callbacks interleave.
    - [new Date()] is the clock reading passed to the callback; timestamps
      are integers (milliseconds) and their ISO formatting is left out.
    - Frames are structured values; [JSON.stringify] / [JSON.parse] and the
      console output are left out. A property of an inbound frame that is
      absent is [None]; present properties have their declared type, except
      the [username] of a [join] frame, which is only printed and may also
      be [null].
    - [send] on a socket that is not open writes nothing. *)

From stdpp Require Import gmap strings list sorting pretty.

Open Scope Z_scope.

(** ** JavaScript values as the handlers use them *)

Module JS.

(** A property that may be absent is an [option]; [None] is [undefined],
    and it also stands for a JSON [null] where the code only tests the
    property or defaults it with [||], which treat the two alike. A template
    literal prints them differently, and its operand is a [value]. *)

Inductive value :=
| Undefined
| Null
| Text (s : string).

Definition of_option (o : option string) : value :=
  match o with
  | Some s => Text s
  | None => Undefined
  end.

(** Truthiness of a string-valued property: [undefined] and the empty string
    are falsy. *)
Definition truthy_str (o : option string) : bool :=
  match o with
  | Some s => negb (String.eqb s EmptyString)
  | None => false
  end.

(** Truthiness of a number-valued property: [undefined] and [0] are falsy. *)
Definition truthy_num (o : option Z) : bool :=
  match o with
  | Some n => negb (n =? 0)
  | None => false
  end.

(** [a || b] on optional strings. *)
Definition or_str (a b : option string) : option string :=
  if truthy_str a then a else b.

(** [a || 'lit'] where the right operand is a string literal. *)
Definition or_lit (a : option string) (lit : string) : string :=
  match a with
  | Some s => if String.eqb s EmptyString then lit else s
  | None => lit
  end.

(** [n || null] on optional numbers. *)
Definition num_or_null (a : option Z) : option Z :=
  if truthy_num a then a else None.

(** [Number.isSafeInteger(n)]: the integers that a double holds exactly. *)
Definition safe_integer (n : Z) : Prop := - 2 ^ 53 < n < 2 ^ 53.

(** [n.toString()] for a safe integer, which prints in decimal. A number
    beyond that range is held as a rounded double and printed otherwise;
    its print is not the one given here. *)
Definition toString (n : Z) : string := pretty n.

(** [`${x}`] in a template literal. *)
Definition template (v : value) : string :=
  match v with
  | Text s => s
  | Undefined => "undefined"
  | Null => "null"
  end.

(** A hex digit, in either case. *)
Definition is_hex (a : Ascii.ascii) : bool :=
  let n := Ascii.nat_of_ascii a in
  ((48 <=? n) && (n <=? 57) || (97 <=? n) && (n <=? 102)
   || (65 <=? n) && (n <=? 70))%nat.

Definition lower_hex (a : Ascii.ascii) : Ascii.ascii :=
  let n := Ascii.nat_of_ascii a in
  if ((65 <=? n) && (n <=? 70))%nat then Ascii.ascii_of_nat (n + 32) else a.

Fixpoint all_hex (s : string) : bool :=
  match s with
  | EmptyString => true
  | String a s' => is_hex a && all_hex s'
  end.

Fixpoint lower_case_hex (s : string) : string :=
  match s with
  | EmptyString => EmptyString
  | String a s' => String (lower_hex a) (lower_case_hex s')
  end.

(** [new ObjectId(id)] for a string: the key it denotes, as the driver
    prints it (24 hex digits in lower case), or [None] when the constructor
    throws, which it does unless the string is 24 hex digits. *)
Definition ObjectId (id : string) : option string :=
  if (String.length id =? 24)%nat && all_hex id
  then Some (lower_case_hex id)
  else None.

End JS.

#[warning="-uniform-inheritance"] Coercion JS.of_option : option >-> JS.value.

(** ** Data model *)

(** [interface IncomingAttachment] *)
Record IncomingAttachment := mkIncomingAttachment {
  in_type : option string;
  in_url : string;
  in_name : option string;
  in_size : option Z;
  in_mimeType : option string;
  in_thumbnailUrl : option string
}.

(** [interface Attachment] *)
Record Attachment := mkAttachment {
  att_type : string;
  att_url : string;
  att_name : string;
  att_size : option Z;
  att_mimeType : option string;
  att_thumbnailUrl : option string
}.

(** The object literal handed to [storage.addMessageToChannel]; its
    [createdAt] is overwritten by the store and is left out. *)
Record NewMessage := mkNewMessage {
  nm_type : string;
  nm_senderId : option string;
  nm_content : option string;
  nm_attachments : option (list Attachment)
}.

(** A document of the [messages] collection. *)
Record Message := mkMessage {
  msg_id : nat;
  msg_channelId : option string;
  msg_type : string;
  msg_senderId : option string;
  msg_content : option string;
  msg_attachments : option (list Attachment);
  msg_createdAt : Z
}.

(** The object literal handed to [storage.addStatusUpdate]. *)
Record NewStatusUpdate := mkNewStatusUpdate {
  nsu_patientId : option string;
  nsu_status : option string;
  nsu_createdBy : option string;
  nsu_location : option string;
  nsu_details : option string
}.

(** A document of the [statusUpdates] collection. *)
Record StatusUpdate := mkStatusUpdate {
  su_id : nat;
  su_patientId : option string;
  su_status : option string;
  su_createdBy : option string;
  su_location : option string;
  su_details : option string;
  su_createdAt : Z
}.

(** A document of the [patients] collection (only its key is consulted). *)
Record Patient := mkPatient {
  pat_id : string;
  pat_caseId : string
}.

(** A document of the [channels] collection. *)
Record ChannelDoc := mkChannelDoc {
  chan_id : string;
  chan_patientId : option string
}.

(** ** The persistence collaborator

    The document store is reached through the driver's collection methods,
    whose promises are rejected when the database cannot be reached;
    [available] says whether it can. ([getCollection] hands out the client
    made when the server starts and does not fail itself.) Every storage
    method wraps its body in [try { ... } catch { return null / [] }], and
    the [catch] sees only what is awaited inside the [try]. The methods that
    write await the driver ([await collection.insertOne(...)]) and return
    [null] when it fails. The methods that read return the driver's promise
    as it is ([return collection.find(...).sort(...).toArray()]), so a
    failure is not caught: it rejects the promise the caller awaits. A read
    is therefore an [option] whose [None] is that rejection. *)

Record Storage := mkStorage {
  available : bool;
  messages : list Message;
  statusUpdatesColl : list StatusUpdate;
  patients : list Patient;
  channelDocs : list ChannelDoc;
  nextObjectId : nat
}.

Module Store.

Definition created_asc (a b : Message) : Prop :=
  msg_createdAt a <= msg_createdAt b.

Definition created_desc (a b : StatusUpdate) : Prop :=
  su_createdAt b <= su_createdAt a.

#[global] Instance created_asc_dec a b : Decision (created_asc a b).
Proof. unfold created_asc. apply _. Defined.

#[global] Instance created_desc_dec a b : Decision (created_desc a b).
Proof. unfold created_desc. apply _. Defined.

(** [message.attachments && message.attachments.length > 0] *)
Definition hasAttachments (a : option (list Attachment)) : bool :=
  match a with
  | Some (_ :: _) => true
  | _ => false
  end.

(** [addMessageToChannel(channelId, message)]: the stored document, or
    [None] for the [null] returned from the [catch]. *)
Definition addMessageToChannel (now : Z) (cid : option string)
    (message : NewMessage) (st : Storage) : option Message * Storage :=
  if available st then
    let newMessage :=
      {| msg_id := nextObjectId st;
         msg_channelId := cid;
         msg_type := if hasAttachments (nm_attachments message)
                     then "attachment"
                     else JS.or_lit (Some (nm_type message)) "text";
         msg_senderId := nm_senderId message;
         msg_content := nm_content message;
         msg_attachments := nm_attachments message;
         msg_createdAt := now |} in
    (Some newMessage,
     {| available := available st;
        messages := messages st ++ [newMessage];
        statusUpdatesColl := statusUpdatesColl st;
        patients := patients st;
        channelDocs := channelDocs st;
        nextObjectId := S (nextObjectId st) |})
  else (None, st).

(** [getChannelMessages(channelId)]:
    [return find({ channelId }).sort({ createdAt: 1 }).toArray()].
    The database's sort is a sort of the matching documents on [createdAt];
    the order among equal keys is whatever the sort gives. *)
Definition getChannelMessages (cid : option string) (st : Storage)
    : option (list Message) :=
  if available st then
    Some (merge_sort created_asc
            (filter (fun m => msg_channelId m = cid) (messages st)))
  else None.

(** [getPatientById(id)]: [return findOne({ _id: new ObjectId(id) })].
    [new ObjectId] throws on a string that is not a key, inside the [try],
    so the method returns [null] without asking the database; for an absent
    id it makes a new key, which no document has. A key of a document is
    stored as the driver prints it. *)
Definition getPatientById (pid : option string) (st : Storage)
    : option (option Patient) :=
  match pid with
  | Some id =>
      match JS.ObjectId id with
      | Some key =>
          if available st
          then Some (list_find (fun x => pat_id x = key) (patients st)
                       ≫= (Some ∘ snd))
          else None
      | None => Some None
      end
  | None => if available st then Some None else None
  end.

(** [getStatusUpdates(patientId)]:
    [return find({ patientId }).sort({ createdAt: -1 }).toArray()]. *)
Definition getStatusUpdates (pid : option string) (st : Storage)
    : option (list StatusUpdate) :=
  if available st then
    Some (merge_sort created_desc
            (filter (fun u => su_patientId u = pid) (statusUpdatesColl st)))
  else None.

(** [addStatusUpdate(statusUpdate)] *)
Definition addStatusUpdate (now : Z) (u : NewStatusUpdate) (st : Storage)
    : option StatusUpdate * Storage :=
  if available st then
    let newStatusUpdate :=
      {| su_id := nextObjectId st;
         su_patientId := nsu_patientId u;
         su_status := nsu_status u;
         su_createdBy := nsu_createdBy u;
         su_location := nsu_location u;
         su_details := nsu_details u;
         su_createdAt := now |} in
    (Some newStatusUpdate,
     {| available := available st;
        messages := messages st;
        statusUpdatesColl := statusUpdatesColl st ++ [newStatusUpdate];
        patients := patients st;
        channelDocs := channelDocs st;
        nextObjectId := S (nextObjectId st) |})
  else (None, st).

(** [getChannelByPatientId(patientId)]: [return findOne({ patientId })] on
    the [channels] collection. Its one caller does nothing more once the
    promise is rejected or holds [null], so [None] is either. *)
Definition getChannelByPatientId (pid : option string) (st : Storage)
    : option ChannelDoc :=
  if available st then
    list_find (fun c => chan_patientId c = pid) (channelDocs st)
      ≫= (Some ∘ snd)
  else None.

End Store.


(** ** Sockets, frames and the server state *)

(** [ws.readyState]; a server-side socket is never [CONNECTING]. *)
Inductive ReadyState := OPEN | CLOSING | CLOSED.

#[global] Instance ReadyState_eq_dec : EqDecision ReadyState.
Proof. solve_decision. Defined.

(** [interface ExtendedWebSocket] *)
Record ExtendedWebSocket := mkSocket {
  userId : option Z;
  empId : option string;
  username : option string;
  channelId : option string;
  isAlive : bool;
  readyState : ReadyState
}.

(** The socket handed to the [connection] listener, after [ws.isAlive = true]. *)
Definition fresh_socket : ExtendedWebSocket :=
  {| userId := None; empId := None; username := None; channelId := None;
     isAlive := true; readyState := OPEN |}.

(** Assignments to the properties of a socket object. *)
Definition set_identity (emp : option string) (uid : option Z)
    (name : option string) (w : ExtendedWebSocket) : ExtendedWebSocket :=
  {| userId := uid; empId := emp; username := name;
     channelId := channelId w; isAlive := isAlive w;
     readyState := readyState w |}.

Definition set_channelId (cid : option string) (w : ExtendedWebSocket)
    : ExtendedWebSocket :=
  {| userId := userId w; empId := empId w; username := username w;
     channelId := cid; isAlive := isAlive w; readyState := readyState w |}.

Definition set_isAlive (b : bool) (w : ExtendedWebSocket) : ExtendedWebSocket :=
  {| userId := userId w; empId := empId w; username := username w;
     channelId := channelId w; isAlive := b; readyState := readyState w |}.

Definition set_readyState (r : ReadyState) (w : ExtendedWebSocket)
    : ExtendedWebSocket :=
  {| userId := userId w; empId := empId w; username := username w;
     channelId := channelId w; isAlive := isAlive w; readyState := r |}.

(** Outbound frames, one constructor per [type] written by the server. *)
Inductive Frame :=
| FWelcome (message : string) (timestamp : Z)
| FPong (timestamp : Z)
| FHistory (msgs : list Message)
| FStatusUpdates (updates : list StatusUpdate)
| FSystem (cid : option string) (content : string) (timestamp : Z)
| FChat (type : string) (cid : option string) (senderId senderName : string)
    (content : option string) (timestamp : Z)
    (attachments : option (list Attachment))
| FStatusUpdate (patientId status : option string)
    (createdBy createdByName : string) (location details : option string)
    (timestamp : Z)
| FUserStatus (emp : option string) (name : option string)
    (status : option string) (inCall : option bool) (timestamp : Z)
    (lastSeen : option Z)
| FCallInvitation (cid callType : option string)
    (inviterId inviterName : string) (timestamp : Z)
| FCallInvitationResponse (cid callType : option string)
    (responderId responderName : string) (response : option string)
    (timestamp : Z)
| FCallSignal (cid : option string) (callerId callerName : string)
    (callType action : option string).

(** Inbound frames after [JSON.parse], one constructor per [data.type]. *)
Inductive Inbound :=
| InPing
| InAuth (emp : option string) (uid : option Z) (name : option string)
| InJoin (cid patientId : option string) (name : JS.value)
| InMessage (cid content : option string)
    (attachments : option (list IncomingAttachment))
| InAttachment (cid content : option string)
    (attachments : option (list IncomingAttachment))
| InStatusUpdate (patientId status location details : option string)
| InCallInvitationResponse
    (cid callType inviterId responderId responderName response : option string)
| InCallInvitation
    (cid callType targetUserId inviterId inviterName : option string)
| InUserStatus (status : option string) (inCall : option bool)
    (timestamp : option Z)
| InCallSignal (cid callType action : option string)
    (targetUsers : option (list string))
| InOther.

(** What a handler does to the outside world, in program order. *)
Inductive Effect :=
| Send (to : nat) (f : Frame)
| PingSocket (to : nat)
| Terminate (sock : nat)
| StoreMessage (cid : option string) (m : NewMessage) (result : option Message)
| StoreStatus (u : NewStatusUpdate) (result : option StatusUpdate).

(** The closure of [setupWebsocket]: the socket objects, [wss.clients] in
    insertion order, the [channels] map, and the storage singleton. *)
Record Server := mkServer {
  sockets : gmap nat ExtendedWebSocket;
  clients : list nat;
  channels : gmap (option string) (list nat);
  storage : Storage;
  nextSocket : nat
}.

Definition set_sockets (f : gmap nat ExtendedWebSocket -> gmap nat ExtendedWebSocket)
    (s : Server) : Server :=
  {| sockets := f (sockets s); clients := clients s; channels := channels s;
     storage := storage s; nextSocket := nextSocket s |}.

Definition set_clients (f : list nat -> list nat) (s : Server) : Server :=
  {| sockets := sockets s; clients := f (clients s); channels := channels s;
     storage := storage s; nextSocket := nextSocket s |}.

Definition set_channels
    (f : gmap (option string) (list nat) -> gmap (option string) (list nat))
    (s : Server) : Server :=
  {| sockets := sockets s; clients := clients s; channels := f (channels s);
     storage := storage s; nextSocket := nextSocket s |}.

Definition set_storage (st : Storage) (s : Server) : Server :=
  {| sockets := sockets s; clients := clients s; channels := channels s;
     storage := st; nextSocket := nextSocket s |}.

Definition set_available (b : bool) (st : Storage) : Storage :=
  {| available := b; messages := messages st;
     statusUpdatesColl := statusUpdatesColl st; patients := patients st;
     channelDocs := channelDocs st; nextObjectId := nextObjectId st |}.

(** The state of the server with the database reachable or not. *)
Definition with_store (up : bool) (s : Server) : Server :=
  set_storage (set_available up (storage s)) s.

(** The server right after [setupWebsocket] over a given store. *)
Definition init (st : Storage) : Server :=
  {| sockets := ∅; clients := []; channels := ∅; storage := st;
     nextSocket := 0 |}.

(** ** Handlers as state transformers that log their effects *)

Definition M (A : Type) : Type := Server -> A * Server * list Effect.

#[global] Instance M_ret : MRet M := fun A a s => (a, s, []).

#[global] Instance M_bind : MBind M := fun A B k m s =>
  let '(a, s1, t1) := m s in
  let '(b, s2, t2) := k a s1 in
  (b, s2, t1 ++ t2).

Definition get : M Server := fun s => (s, s, []).
Definition modify (f : Server -> Server) : M unit := fun s => (tt, f s, []).
Definition emit (t : list Effect) : M unit := fun s => (tt, s, t).
Definition skip : M unit := mret tt.

Definition state_of {A} (r : A * Server * list Effect) : Server := snd (fst r).
Definition trace_of {A} (r : A * Server * list Effect) : list Effect := snd r.
Definition value_of {A} (r : A * Server * list Effect) : A := fst (fst r).

(** [list.forEach(body)] *)
Fixpoint forEach {A} (l : list A) (body : A -> M unit) : M unit :=
  match l with
  | [] => skip
  | x :: l' => body x ;; forEach l' body
  end.

(** The socket object behind a handle. *)
Definition socket_of (s : Server) (h : nat) : ExtendedWebSocket :=
  default fresh_socket (sockets s !! h).

Definition the_socket (h : nat) : M ExtendedWebSocket :=
  fun s => (socket_of s h, s, []).

(** Assignment to properties of the socket object [h]. *)
Definition assign (h : nat) (f : ExtendedWebSocket -> ExtendedWebSocket)
    (s : Server) : Server :=
  set_sockets (fun m => <[h := f (default fresh_socket (m !! h))]> m) s.

Definition update_socket (h : nat) (f : ExtendedWebSocket -> ExtendedWebSocket)
    : M unit :=
  modify (assign h f).

(** [client.readyState === WebSocket.OPEN] *)
Definition is_open (s : Server) (h : nat) : bool :=
  bool_decide (readyState (socket_of s h) = OPEN).

(** The frames that reach the wire when [f] is sent to each socket of [to]
    that is open, in order. *)
Definition deliver (s : Server) (f : Frame) (to : list nat) : list Effect :=
  (fun h => Send h f) <$> filter (fun h => is_open s h) to.

(** [ws.send(JSON.stringify(f))]: a socket that is not open sends nothing. *)
Definition send (h : nat) (f : Frame) : M unit :=
  fun s => (tt, s, deliver s f [h]).

(** [channels.get(channelId) || []] *)
Definition members (s : Server) (cid : option string) : list nat :=
  default [] (channels s !! cid).

(** [broadcast(channelId, data)] *)
Definition broadcast (cid : option string) (data : Frame) : M unit :=
  fun s => (tt, s, deliver s data (members s cid)).

(** [wss.clients.forEach(client => { if (client.readyState === OPEN)
    client.send(...) })] *)
Definition broadcast_all (data : Frame) : M unit :=
  fun s => (tt, s, deliver s data (clients s)).

(** [await storage.addMessageToChannel(channelId, message)] *)
Definition addMessageToChannel (now : Z) (cid : option string)
    (message : NewMessage) : M (option Message) :=
  fun s =>
    let r := Store.addMessageToChannel now cid message (storage s) in
    (fst r, set_storage (snd r) s, [StoreMessage cid message (fst r)]).

(** [await storage.addStatusUpdate(statusUpdate)] *)
Definition addStatusUpdate (now : Z) (u : NewStatusUpdate)
    : M (option StatusUpdate) :=
  fun s =>
    let r := Store.addStatusUpdate now u (storage s) in
    (fst r, set_storage (snd r) s, [StoreStatus u (fst r)]).

(** A read-only storage call. *)
Definition query {A} (q : Storage -> A) : M A :=
  fun s => (q (storage s), s, []).

(** [const x = await p; ...] in the body of the [message] listener: when the
    promise is rejected the rest of the callback is skipped (the listener's
    own [catch] logs the error). *)
Definition await {A} (p : M (option A)) (rest : A -> M unit) : M unit :=
  r ← p;
  match r with
  | Some x => rest x
  | None => skip
  end.

(** ** Identity of a socket *)

(** [ws.empId || (ws.userId ? ws.userId.toString() : '0')] *)
Definition identity (ws : ExtendedWebSocket) : string :=
  JS.or_lit (empId ws)
    (match userId ws with
     | Some n => if JS.truthy_num (Some n) then JS.toString n else "0"
     | None => "0"
     end).

(** [ws.empId || ws.userId?.toString()] *)
Definition stored_identity (ws : ExtendedWebSocket) : option string :=
  JS.or_str (empId ws) (JS.toString <$> userId ws).

(** [!ws.empId && !ws.userId] *)
Definition unidentified (ws : ExtendedWebSocket) : bool :=
  negb (JS.truthy_str (empId ws)) && negb (JS.truthy_num (userId ws)).

(** [ws.username || 'Unknown User'] *)
Definition display_name (ws : ExtendedWebSocket) : string :=
  JS.or_lit (username ws) "Unknown User".

(** The test inside the [wss.clients.forEach] scans of the two invitation
    handlers: the client is open and its [empId], or else its stringified
    [userId], is the wanted id. *)
Definition matches (s : Server) (wanted : string) (h : nat) : bool :=
  let client := socket_of s h in
  let clientEmpId := empId client in
  let clientIdStr := JS.toString <$> userId client in
  is_open s h
  && ((JS.truthy_str clientEmpId && bool_decide (clientEmpId = Some wanted))
      || (JS.truthy_str clientIdStr && bool_decide (clientIdStr = Some wanted))).

(** The scan assigns [targetClient = client] at every match, so the last
    matching client of [wss.clients] is the one kept. *)
Definition scan_clients (s : Server) (wanted : string) : option nat :=
  last (filter (fun h => matches s wanted h) (clients s)).

(** ** Attachments *)

(** The arrow function mapped over [attachments]. *)
Definition format_attachment (att : IncomingAttachment) : Attachment :=
  {| att_type := JS.or_lit (in_type att) "image";
     att_url := in_url att;
     att_name := JS.or_lit (in_name att) "file";
     att_size := in_size att;
     att_mimeType := in_mimeType att;
     att_thumbnailUrl := in_thumbnailUrl att |}.

(** [attachments && attachments.length > 0] *)
Definition nonempty {A} (l : option (list A)) : bool :=
  match l with
  | Some (_ :: _) => true
  | _ => false
  end.

(** [formattedAttachments] *)
Definition formattedAttachments (attachments : option (list IncomingAttachment))
    : option (list Attachment) :=
  if nonempty attachments
  then Some (format_attachment <$> default [] attachments)
  else None.

(** [isAttachment] *)
Definition isAttachment (data_type : string)
    (attachments : option (list IncomingAttachment)) : bool :=
  String.eqb data_type "attachment" || nonempty attachments.

(** ** The [message] listener, case by case *)

Section Handlers.

(** [new Date()] as read while the event is handled. *)
Variable now : Z.
(** The socket [ws] the listener is attached to. *)
Variable ws : nat.

(** [case 'auth'] *)
Definition handle_auth (emp : option string) (uid : option Z)
    (name : option string) : M unit :=
  update_socket ws (set_identity emp (JS.num_or_null uid) name) ;;
  w ← the_socket ws;
  if JS.truthy_str (empId w) then
    broadcast_all
      (FUserStatus (empId w) (username w) (Some "online") (Some false) now None)
  else skip.

(** [channels.has(id) || channels.set(id, [])], then [push(ws)] on the
    array stored there. *)
Definition push_member (cid : option string) (s : Server) : Server :=
  set_channels (fun ch => <[cid := default [] (ch !! cid) ++ [ws]]> ch) s.

Definition subscribe (cid : option string) : M unit :=
  modify (push_member cid).

(** The end of [case 'join']: the system message is broadcast and then
    handed to the store. *)
Definition announce_join (cid : option string) (name : JS.value) : M unit :=
  broadcast cid
    (FSystem cid (JS.template name +:+ " has joined the channel") now) ;;
  w ← the_socket ws;
  addMessageToChannel now cid
    {| nm_type := "system";
       nm_senderId := stored_identity w;
       nm_content := Some (JS.template name +:+ " has joined the channel");
       nm_attachments := None |} ;;
  skip.

(** [case 'join'] *)
Definition handle_join (cid patientId : option string) (name : JS.value)
    : M unit :=
  update_socket ws (set_channelId cid) ;;
  subscribe cid ;;
  await (query (Store.getChannelMessages cid)) (fun msgs =>
    send ws (FHistory msgs) ;;
    await (query (Store.getPatientById patientId)) (fun patient =>
      match patient with
      | Some _ =>
          await (query (Store.getStatusUpdates patientId)) (fun updates =>
            send ws (FStatusUpdates updates) ;;
            announce_join cid name)
      | None => announce_join cid name
      end)).

(** [case 'message': case 'attachment'] *)
Definition handle_chat (data_type : string) (cid content : option string)
    (attachments : option (list IncomingAttachment)) : M unit :=
  w ← the_socket ws;
  if unidentified w || negb (JS.truthy_str cid) then skip
  else
    let chatMessage :=
      FChat (if isAttachment data_type attachments
             then "attachment" else "message")
        cid (identity w) (display_name w) content now
        (formattedAttachments attachments) in
    savedMessage ← addMessageToChannel now cid
      {| nm_type := if isAttachment data_type attachments
                    then "attachment" else "text";
         nm_senderId := stored_identity w;
         nm_content := content;
         nm_attachments := formattedAttachments attachments |};
    broadcast cid chatMessage.

(** [case 'statusUpdate'] *)
Definition handle_statusUpdate (patientId status location details : option string)
    : M unit :=
  w ← the_socket ws;
  if unidentified w || negb (JS.truthy_str patientId) then skip
  else
    statusUpdate ← addStatusUpdate now
      {| nsu_patientId := patientId; nsu_status := status;
         nsu_createdBy := stored_identity w;
         nsu_location := location; nsu_details := details |};
    channel ← query (Store.getChannelByPatientId patientId);
    match channel with
    | Some c =>
        broadcast (Some (chan_id c))
          (FStatusUpdate patientId status (identity w) (display_name w)
             location details now)
    | None => skip
    end.

(** [case 'callInvitationResponse'] *)
Definition handle_callInvitationResponse
    (cid callType inviterId responderId responderName response : option string)
    : M unit :=
  if negb (JS.truthy_str inviterId) then skip
  else
    w ← the_socket ws;
    s ← get;
    match scan_clients s (default EmptyString inviterId) with
    | Some inviterClient =>
        send inviterClient
          (FCallInvitationResponse cid callType (identity w)
             (JS.or_lit (JS.or_str (username w) responderName) "Unknown User")
             response now)
    | None => skip
    end.

(** [case 'callInvitation'] *)
Definition handle_callInvitation
    (cid callType targetUserId inviterId inviterName : option string)
    : M unit :=
  w ← the_socket ws;
  let senderEmpId := JS.or_lit inviterId (identity w) in
  let senderName := JS.or_str inviterName (username w) in
  if negb (JS.truthy_str (Some senderEmpId))
     || negb (JS.truthy_str cid) || negb (JS.truthy_str targetUserId)
  then skip
  else
    s ← get;
    match scan_clients s (default EmptyString targetUserId) with
    | Some targetClient =>
        send targetClient
          (FCallInvitation cid callType senderEmpId
             (JS.or_lit senderName "Unknown User") now)
    | None => skip
    end.

(** [case 'userStatus'] *)
Definition handle_userStatus (status : option string) (inCall : option bool)
    (timestamp : option Z) : M unit :=
  w ← the_socket ws;
  if unidentified w then skip
  else
    broadcast_all
      (FUserStatus (Some (identity w)) (Some (display_name w)) status inCall
         (if JS.truthy_num timestamp then default now timestamp else now)
         (if bool_decide (status = Some "offline") then Some now else None)).

(** [client.empId || (client.userId ? client.userId.toString() : null)],
    tested for truthiness and membership in [targetUsers]. *)
Definition targeted (s : Server) (targetUsers : list string) (h : nat) : bool :=
  let client := socket_of s h in
  let clientId :=
    JS.or_str (empId client)
      (if JS.truthy_num (userId client)
       then JS.toString <$> userId client else None) in
  is_open s h && JS.truthy_str clientId
  && bool_decide (default EmptyString clientId ∈ targetUsers).

(** [case 'callSignal'] *)
Definition handle_callSignal (cid callType action : option string)
    (targetUsers : option (list string)) : M unit :=
  w ← the_socket ws;
  if unidentified w || negb (JS.truthy_str cid) then skip
  else
    let callMessage :=
      FCallSignal cid (identity w) (display_name w) callType action in
    if nonempty targetUsers then
      s ← get;
      emit ((fun h => Send h callMessage)
              <$> filter (fun h => targeted s (default [] targetUsers) h)
                    (members s cid))
    else broadcast cid callMessage.

(** The test listener registered first: it answers [ping] and nothing else. *)
Definition handle_test (data : Inbound) : M unit :=
  match data with
  | InPing => send ws (FPong now)
  | _ => skip
  end.

(** [switch (data.type)] *)
Definition handle_message (data : Inbound) : M unit :=
  match data with
  | InAuth emp uid name => handle_auth emp uid name
  | InJoin cid patientId name => handle_join cid patientId name
  | InMessage cid content attachments =>
      handle_chat "message" cid content attachments
  | InAttachment cid content attachments =>
      handle_chat "attachment" cid content attachments
  | InStatusUpdate patientId status location details =>
      handle_statusUpdate patientId status location details
  | InCallInvitationResponse cid callType inviterId responderId responderName
      response =>
      handle_callInvitationResponse cid callType inviterId responderId
        responderName response
  | InCallInvitation cid callType targetUserId inviterId inviterName =>
      handle_callInvitation cid callType targetUserId inviterId inviterName
  | InUserStatus status inCall timestamp =>
      handle_userStatus status inCall timestamp
  | InCallSignal cid callType action targetUsers =>
      handle_callSignal cid callType action targetUsers
  | InPing | InOther => skip
  end.

(** [ws.on('pong')] *)
Definition handle_pong : M unit :=
  update_socket ws (set_isAlive true).

(** [clients.indexOf(ws)] *)
Fixpoint indexOf (l : list nat) : option nat :=
  match l with
  | [] => None
  | x :: l' => if decide (x = ws) then Some 0%nat else S <$> indexOf l'
  end.

(** [if (index !== -1) clients.splice(index, 1)] *)
Definition unsubscribe (l : list nat) : list nat :=
  match indexOf l with
  | Some index => delete index l
  | None => l
  end.

(** The array stored under [cid], if any, loses the first entry equal to
    [ws]. *)
Definition drop_member (cid : option string) (s : Server) : Server :=
  set_channels (fun ch =>
    match ch !! cid with
    | Some l => <[cid := unsubscribe l]> ch
    | None => ch
    end) s.

(** [ws.on('close')]. The last store call is not awaited in the source; it
    is the last thing the callback starts, so it is run last here. *)
Definition handle_close : M unit :=
  w ← the_socket ws;
  (if JS.truthy_str (empId w) || JS.truthy_num (userId w) then
     broadcast_all
       (FUserStatus (Some (identity w)) (Some (display_name w))
          (Some "offline") (Some false) now (Some now))
   else skip) ;;
  if JS.truthy_str (channelId w) && JS.truthy_str (username w) then
    modify (drop_member (channelId w)) ;;
    broadcast (channelId w)
      (FSystem (channelId w)
         (JS.template (username w) +:+ " has left the channel") now) ;;
    addMessageToChannel now (channelId w)
      {| nm_type := "system";
         nm_senderId := stored_identity w;
         nm_content :=
           Some (JS.template (username w) +:+ " has left the channel");
         nm_attachments := None |} ;;
    skip
  else skip.

(** The body of the [forEach] in [heartbeat]. *)
Definition heartbeat_one : M unit :=
  w ← the_socket ws;
  if negb (isAlive w) then
    update_socket ws (set_readyState CLOSING) ;;
    emit [Terminate ws]
  else
    update_socket ws (set_isAlive false) ;;
    emit [PingSocket ws].

End Handlers.

(** ** The event loop *)

(** What the runtime delivers to the server, one callback at a time. *)
Inductive Event :=
| Connection                              (* wss 'connection' *)
| MessageEvent (h : nat) (data : Inbound) (* ws 'message' *)
| PongEvent (h : nat)                     (* ws 'pong' *)
| CloseEvent (h : nat)                    (* ws 'close' *)
| HeartbeatTick                           (* the setInterval callback *)
| StorageOutage (down : bool).            (* the database goes away or returns *)

(** [setInterval(heartbeat, 30000)]: the period of the sweep in milliseconds. *)
Definition heartbeat_interval : Z := 30000.

(** The two [connection] listeners: the library has added the socket to
    [wss.clients]; the first listener sends the welcome frame, the second
    sets [isAlive]. *)
Definition accept (s : Server) : Server :=
  {| sockets := <[nextSocket s := fresh_socket]> (sockets s);
     clients := clients s ++ [nextSocket s];
     channels := channels s;
     storage := storage s;
     nextSocket := S (nextSocket s) |}.

Definition on_connection (now : Z) : M unit :=
  fun s =>
    (tt, accept s,
     [Send (nextSocket s) (FWelcome "Connected to WebSocket server" now)]).

(** [heartbeat] *)
Definition heartbeat : M unit :=
  s ← get;
  forEach (clients s) heartbeat_one.

(** The socket is closed: the library marks it [CLOSED] and deletes it from
    [wss.clients] (its own [close] listener was registered first), then the
    server's [close] listener runs. *)
Definition on_close (now : Z) (h : nat) : M unit :=
  update_socket h (set_readyState CLOSED) ;;
  modify (set_clients (filter (fun c => c ≠ h))) ;;
  handle_close now h.

Definition registered (s : Server) (h : nat) : bool :=
  bool_decide (h ∈ clients s).

(** One callback. Callbacks of a socket that is not in [wss.clients] do not
    occur. *)
Definition step (now : Z) (ev : Event) : M unit :=
  match ev with
  | Connection => on_connection now
  | MessageEvent h data =>
      s ← get;
      if registered s h
      then handle_test now h data ;; handle_message now h data
      else skip
  | PongEvent h =>
      s ← get;
      if registered s h then handle_pong h else skip
  | CloseEvent h =>
      s ← get;
      if registered s h then on_close now h else skip
  | HeartbeatTick => heartbeat
  | StorageOutage down => modify (with_store (negb down))
  end.

(** A run of the server: each callback with the clock reading at that time. *)
Fixpoint run (evs : list (Z * Event)) : M unit :=
  match evs with
  | [] => skip
  | (now, ev) :: evs' => step now ev ;; run evs'
  end.

(** ** The sweep timer *)

(** [const interval = setInterval(heartbeat, 30000)] is executed once, at
    time [t0], when the server is set up; the runtime then runs [heartbeat]
    at [t0 + heartbeat_interval], [t0 + 2 * heartbeat_interval], and so on,
    until the server closes. Below [due] is the time of the next sweep. The
    timer is taken to be exact: no sweep runs late, and a sweep that is due
    when a socket callback arrives runs before that callback. *)

(** [n] consecutive sweeps, the first of them at [due]. *)
Fixpoint sweeps (n : nat) (due : Z) : list (Z * Event) :=
  match n with
  | O => []
  | S n' => (due, HeartbeatTick) :: sweeps n' (due + heartbeat_interval)
  end.

(** The number of sweeps that are due at time [t]. *)
Definition due_by (due t : Z) : nat :=
  if due <=? t then S (Z.to_nat ((t - due) / heartbeat_interval)) else O.

(** The time of the next sweep once those due at [t] have run. *)
Definition next_due (due t : Z) : Z :=
  due + Z.of_nat (due_by due t) * heartbeat_interval.

(** The callbacks the server runs up to time [stop], when [evs] are the
    callbacks of the sockets with their times: before each of them the
    sweeps that are due, and at the end the sweeps due by [stop]. *)
Fixpoint timeline (due : Z) (evs : list (Z * Event)) (stop : Z)
    : list (Z * Event) :=
  match evs with
  | [] => sweeps (due_by due stop) due
  | (t, ev) :: rest =>
      sweeps (due_by due t) due ++ (t, ev) :: timeline (next_due due t) rest stop
  end.

(** The time of the next sweep after the callbacks [evs]. *)
Fixpoint due_after (due : Z) (evs : list (Z * Event)) : Z :=
  match evs with
  | [] => due
  | (t, _) :: rest => due_after (next_due due t) rest
  end.

(** ** Observations used in the statements *)

(** The frames that reach socket [h], in order. *)
Definition received (h : nat) (t : list Effect) : list Frame :=
  omap (fun e =>
          match e with
          | Send to f => if decide (to = h) then Some f else None
          | _ => None
          end) t.



(** An inbound chat frame of either type. *)
Definition chat_event (att : bool) (cid content : option string)
    (attachments : option (list IncomingAttachment)) : Inbound :=
  if att then InAttachment cid content attachments
  else InMessage cid content attachments.

(** [wss.clients] is a set, and handles are handed out in increasing order. *)
Definition wf (s : Server) : Prop :=
  NoDup (clients s) ∧ ∀ h, h ∈ clients s → (h < nextSocket s)%nat.

(** An empty, reachable store holding one patient. *)
Definition demo_store : Storage :=
  {| available := true; messages := []; statusUpdatesColl := [];
     patients := [mkPatient "64b7f0c2a1d3e4f5a6b7c8d9" "CASE1"];
     channelDocs := []; nextObjectId := 0 |}.

(** Two sockets connect; socket 0 binds "e1" and joins "CASE1". *)
Definition demo_server : Server :=
  state_of
    (run [(1, Connection); (2, Connection);
          (3, MessageEvent 0%nat (InAuth (Some "e1") None (Some "Dr. Smith")));
          (4, MessageEvent 0%nat
                (InJoin (Some "CASE1") (Some "64b7f0c2a1d3e4f5a6b7c8d9")
                   (Some "Dr. Smith")))]
       (init demo_store)).

(** A registered connection that is open and whose identity is [wanted]:
    its [empId], or else its stringified legacy [userId]. *)
Definition matching (s : Server) (wanted : string) (h : nat) : Prop :=
  h ∈ clients s
  ∧ readyState (socket_of s h) = OPEN
  ∧ (empId (socket_of s h) = Some wanted
     ∨ JS.toString <$> userId (socket_of s h) = Some wanted).

(** Sockets 0 ("e1") and 1 ("n1234") connect and bind; socket 1 misses a
    pong, so the second sweep has terminated it, and its [close] event has
    not been delivered yet: it is still in [wss.clients], and [CLOSING]. *)
Definition closing_server : Server :=
  state_of
    (run [(1, Connection); (2, Connection);
          (3, MessageEvent 0%nat (InAuth (Some "e1") None (Some "Dr. Smith")));
          (4, MessageEvent 1%nat (InAuth (Some "n1234") None (Some "Nurse Lee")));
          (30000, HeartbeatTick); (30010, PongEvent 0%nat);
          (60000, HeartbeatTick)]
       (init demo_store)).

(** What one sweep does to a socket object: a socket that has not answered
    is terminated, the others have their flag cleared. *)
Definition swept (w : ExtendedWebSocket) : ExtendedWebSocket :=
  if isAlive w then set_isAlive false w else set_readyState CLOSING w.

(** What one sweep does with socket [h]: [ws.ping()] or [ws.terminate()]. *)
Definition sweep_effect (s : Server) (h : nat) : Effect :=
  if isAlive (socket_of s h) then PingSocket h else Terminate h.

(** A stretch of the run in which socket [h] neither answers a ping nor
    closes, and no sweep happens. *)
Definition unanswered (h : nat) (evs : list (Z * Event)) : Prop :=
  Forall (fun e => e.2 ≠ PongEvent h ∧ e.2 ≠ CloseEvent h ∧ e.2 ≠ HeartbeatTick)
    evs.

(** The presence frame announced when an identified socket closes. *)
Definition offline_frame (now : Z) (w : ExtendedWebSocket) : Frame :=
  FUserStatus (Some (identity w)) (Some (display_name w)) (Some "offline")
    (Some false) now (Some now).

Definition is_presence (e : Effect) : Prop :=
  match e with
  | Send _ (FUserStatus _ _ _ _ _ _) => True
  | _ => False
  end.

(** Sockets 0 ("e1") and 1 (never identified) connect; socket 1 misses a
    pong and the second sweep terminates it. *)
Definition anonymous_terminated : Server :=
  state_of
    (run [(1, Connection); (2, Connection);
          (3, MessageEvent 0%nat (InAuth (Some "e1") None (Some "Dr. Smith")));
          (30000, HeartbeatTick); (30010, PongEvent 0%nat);
          (60000, HeartbeatTick)]
       (init demo_store)).

(** Sockets 0 ("e1") and 1 ("n1234") connect, bind and join "CASE1". *)
Definition two_users : Server :=
  state_of
    (run [(1, Connection); (2, Connection);
          (3, MessageEvent 0%nat (InAuth (Some "e1") None (Some "Dr. Smith")));
          (4, MessageEvent 1%nat (InAuth (Some "n1234") None (Some "Nurse Lee")));
          (5, MessageEvent 0%nat (InJoin (Some "CASE1") None (Some "Dr. Smith")));
          (6, MessageEvent 1%nat (InJoin (Some "CASE1") None (Some "Nurse Lee")))]
       (init demo_store)).

(** Socket 0 ("e1") binds and joins "CASE1"; socket 1 joins "CASE1" without
    ever sending an [auth] frame. *)
Definition anonymous_member : Server :=
  state_of
    (run [(1, Connection); (2, Connection);
          (3, MessageEvent 0%nat (InAuth (Some "e1") None (Some "Dr. Smith")));
          (4, MessageEvent 0%nat (InJoin (Some "CASE1") None (Some "Dr. Smith")));
          (5, MessageEvent 1%nat (InJoin (Some "CASE1") None (Some "Guest")))]
       (init demo_store)).

(** How many entries of a member list are the socket [h]. *)
Definition entries (h : nat) (l : list nat) : nat :=
  length (filter (fun c => c = h) l).

(** The invariant: socket [ws] has an entry in the list of channel [A], and a
    second one whenever a close of [ws] could remove one. *)
Definition holds_entry (ws : nat) (A : option string) (s : Server) : Prop :=
  (1 + (if registered s ws && JS.truthy_str A
           && bool_decide (channelId (socket_of s ws) = A)
        then 1 else 0)
   <= entries ws (members s A))%nat.


(** ** Scenarios for the further properties *)



(** The inbound frames whose handler returns at once unless the socket has a
    bound identity. *)
Definition needs_identity (data : Inbound) : bool :=
  match data with
  | InMessage _ _ _ | InAttachment _ _ _ | InStatusUpdate _ _ _ _
  | InUserStatus _ _ _ | InCallSignal _ _ _ _ => true
  | _ => false
  end.

(** Who a [callSignal] is for: every open member of the channel, or, when the
    frame lists target users, the open members with a bound identity that is
    in the list. *)
Definition signal_recipient (s : Server) (targetUsers : option (list string))
    (h : nat) : Prop :=
  is_open s h = true
  ∧ (nonempty targetUsers = true →
     unidentified (socket_of s h) = false
     ∧ identity (socket_of s h) ∈ default [] targetUsers).

#[global] Instance signal_recipient_dec s targetUsers h :
  Decision (signal_recipient s targetUsers h).
Proof. unfold signal_recipient. apply _. Defined.

(** A stretch of the run in which socket [h] does not close. *)
Definition stays_connected (h : nat) (evs : list (Z * Event)) : Prop :=
  Forall (fun e => e.2 ≠ CloseEvent h) evs.

(** A stretch of the run without a sweep. *)
Definition no_sweep (evs : list (Z * Event)) : Prop :=
  Forall (fun e => e.2 ≠ HeartbeatTick) evs.

(** The bookkeeping of handles: besides [wf], every handle in a member list
    has been handed out, and a handle that has been handed out and is no
    longer in [wss.clients] belongs to a closed socket. *)
Definition tidy (s : Server) : Prop :=
  wf s
  ∧ (∀ cid h, h ∈ members s cid → (h < nextSocket s)%nat)
  ∧ (∀ h, (h < nextSocket s)%nat → h ∉ clients s →
          readyState (socket_of s h) = CLOSED).

(** Effect [e] writes no frame, or writes it to a socket of [wss.clients]. *)
Definition to_registered (s : Server) (e : Effect) : Prop :=
  match e with
  | Send h _ => h ∈ clients s
  | _ => True
  end.

(** Both users of [two_users]; socket 1 then also joins "WARD7", which leaves
    its entry in the member list of "CASE1" behind. *)
Definition moved_on : list (Z * Event) :=
  [(1, Connection); (2, Connection);
   (3, MessageEvent 0%nat (InAuth (Some "e1") None (Some "Dr. Smith")));
   (4, MessageEvent 1%nat (InAuth (Some "n1234") None (Some "Nurse Lee")));
   (5, MessageEvent 0%nat (InJoin (Some "CASE1") None (Some "Dr. Smith")));
   (6, MessageEvent 1%nat (InJoin (Some "CASE1") None (Some "Nurse Lee")));
   (7, MessageEvent 1%nat (InJoin (Some "WARD7") None (Some "Nurse Lee")))].

(* ===================================================================== *)
(** * Accounts and channel membership over HTTP

    The rest of the server: the collections of [server/db.ts] that hold the
    staff and the member lists of the chat channels, the methods of
    [MemStorage] that work on them and on the in-memory user table, the
    login strategy and the registration route of [server/auth.ts], and the
    membership routes of [server/routes.ts].

    Conventions, beside the ones above.
    - A function of [db.ts] throws when the database cannot be reached; it
      returns an [option] whose [None] is the exception. A method of
      [MemStorage] catches what it awaits inside its [try] and returns
      [null] or [[]]. [getChannelById] and [getChannelByCaseId] return the
      driver's promise as it is: their [None] is [null] or the failure,
      which the methods that call them await inside their own [try].
    - Every method and every route handler runs to completion before the
      next one starts.
    - [scrypt] is not modelled: [hashPassword] and [comparePasswords] are
      parameters, and what a theorem needs of them is a hypothesis. The
      salt of [randomBytes] and the [ObjectId] the driver gives an inserted
      document are arguments, like the clock.
    - A document key is the 24-digit string the driver prints, and a
      channel is looked up under the [channelId] as it is sent. That is what
      the code does for a [channelId] that is the key of a document as
      printed, and for one that names no document, whether [new ObjectId]
      throws on it or the query comes back empty. [new ObjectId] also
      reads a key spelled with capital hex digits ([JS.ObjectId]): a lookup
      under such a spelling of an existing key is outside these
      definitions, and a statement about a channel that is found, or that
      does not exist, says so of the key as printed. *)

Module Db.

(** A document of the [physicians] collection. *)
Record Physician := mkPhysician {
  ph_empId : string;
  ph_name : option string;
  ph_speciality : option string
}.

(** A document of the [nurses] collection. *)
Record Nurse := mkNurse {
  nu_empId : string;
  nu_name : option string;
  nu_nurseType : option string
}.

(** An element of a channel's [members] array. *)
Record Member := mkMember {
  mem_empId : string;
  mem_userType : string;
  mem_joinedAt : Z
}.

#[global] Instance Member_eq_dec : EqDecision Member.
Proof. solve_decision. Defined.

(** A document of the [channels] collection, with its member list. A
    document written when channels went by patient has a [patientId] and
    may have no [caseId] and no [members]. *)
Record Channel := mkChannel {
  ch_id : string;
  ch_caseId : option string;
  ch_patientId : option string;
  ch_createdAt : Z;
  ch_members : option (list Member)
}.

Record Database := mkDatabase {
  reachable : bool;
  physicians : list Physician;
  nurses : list Nurse;
  channelsColl : list Channel
}.

Definition set_channelsColl (f : list Channel -> list Channel)
    (db : Database) : Database :=
  {| reachable := reachable db; physicians := physicians db;
     nurses := nurses db; channelsColl := f (channelsColl db) |}.

(** [collection.findOne(query)]: the first document that matches. *)
Definition findOne {A : Type} (P : A -> Prop) `{!∀ x, Decision (P x)}
    (coll : list A) : option A :=
  snd <$> list_find P coll.

(** [collection.updateOne(query, update)]: the first document that matches
    is replaced by its update. *)
Fixpoint updateOne {A : Type} (P : A -> Prop) `{!∀ x, Decision (P x)}
    (f : A -> A) (coll : list A) : list A :=
  match coll with
  | [] => []
  | x :: rest => if decide (P x) then f x :: rest
                 else x :: updateOne P f rest
  end.

(** [{ $addToSet: { members: m } }]: the array gains [m] at its end unless
    it holds an equal element; a document without the array gets one. *)
Definition addToSet (m : Member) (c : Channel) : Channel :=
  {| ch_id := ch_id c; ch_caseId := ch_caseId c;
     ch_patientId := ch_patientId c; ch_createdAt := ch_createdAt c;
     ch_members :=
       match ch_members c with
       | Some ms => Some (if decide (m ∈ ms) then ms else ms ++ [m])
       | None => Some [m]
       end |}.

(** [getPhysicianByEmpId(empId)] *)
Definition getPhysicianByEmpId (empId : string) (db : Database)
    : option (option Physician) :=
  if reachable db
  then Some (findOne (fun p => ph_empId p = empId) (physicians db))
  else None.

(** [getNurseByEmpId(empId)] *)
Definition getNurseByEmpId (empId : string) (db : Database)
    : option (option Nurse) :=
  if reachable db
  then Some (findOne (fun n => nu_empId n = empId) (nurses db))
  else None.

End Db.

Module MemStorage.

Import Db.

(** The row handed to [createUser]: the columns of [InsertUser] that the
    server names. The password is always the output of [hashPassword]. *)
Record InsertUser := mkInsertUser {
  iu_username : option string;
  iu_password : string;
  iu_name : option string;
  iu_role : option string;
  iu_empId : option string;
  iu_specialty : option string;
  iu_profileImage : option string
}.

Record User := mkUser {
  u_id : Z;
  u_active : bool;
  u_username : option string;
  u_password : string;
  u_name : option string;
  u_role : option string;
  u_empId : option string;
  u_specialty : option string;
  u_profileImage : option string
}.

(** The fields [users] and [currentId]. A [Map] iterates in insertion
    order, so the table is a list of entries, oldest first. *)
Record Table := mkTable {
  users : list (Z * User);
  currentId : Z
}.

(** [new MemStorage()] *)
Definition constructor : Table := {| users := []; currentId := 1 |}.

(** [Map.prototype.set]: the value under an existing key is replaced where
    it stands; a new key goes to the end. *)
Fixpoint Map_set (id : Z) (u : User) (m : list (Z * User))
    : list (Z * User) :=
  match m with
  | [] => [(id, u)]
  | (k, v) :: rest => if decide (k = id) then (id, u) :: rest
                      else (k, v) :: Map_set id u rest
  end.

(** [getUser(id)] *)
Definition getUser (id : Z) (t : Table) : option User :=
  (snd ∘ snd) <$> list_find (fun kv => kv.1 = id) (users t).

(** [getUserByUsername(username)]:
    [Array.from(this.users.values()).find(user => user.username === username)] *)
Definition getUserByUsername (username : option string) (t : Table)
    : option User :=
  (snd ∘ snd) <$> list_find (fun kv => u_username kv.2 = username) (users t).

(** [createUser(insertUser)] *)
Definition createUser (insertUser : InsertUser) (t : Table) : User * Table :=
  let id := currentId t in
  let user :=
    {| u_id := id;
       u_active := true;
       u_username := iu_username insertUser;
       u_password := iu_password insertUser;
       u_name := iu_name insertUser;
       u_role := iu_role insertUser;
       u_empId := iu_empId insertUser;
       u_specialty := JS.or_str (iu_specialty insertUser) None;
       u_profileImage := JS.or_str (iu_profileImage insertUser) None |} in
  (user, {| users := Map_set id user (users t); currentId := id + 1 |}).

(** [getChannelByCaseId(caseId)] *)
Definition getChannelByCaseId (caseId : string) (db : Database)
    : option Channel :=
  if reachable db
  then findOne (fun c => ch_caseId c = Some caseId) (channelsColl db)
  else None.

(** [getChannelById(channelId)], for a [channelId] that is a key as printed
    or names no document. *)
Definition getChannelById (channelId : string) (db : Database)
    : option Channel :=
  if reachable db
  then findOne (fun c => ch_id c = channelId) (channelsColl db)
  else None.

(** [createChannel(caseId)]; [fresh] is the key of the inserted document. *)
Definition createChannel (now : Z) (fresh : string) (caseId : string)
    (db : Database) : option Channel * Database :=
  if reachable db then
    match getChannelByCaseId caseId db with
    | Some existingChannel => (Some existingChannel, db)
    | None =>
        let newChannel :=
          {| ch_id := fresh; ch_caseId := Some caseId; ch_patientId := None;
             ch_createdAt := now; ch_members := Some [] |} in
        (Some newChannel, set_channelsColl (fun l => l ++ [newChannel]) db)
    end
  else (None, db).

(** [addUserToChannel(channelId, empId, userType)], for a [channelId] that
    is a key as printed or names no document. *)
Definition addUserToChannel (now : Z) (channelId empId userType : string)
    (db : Database) : option Channel * Database :=
  if reachable db then
    let db' :=
      set_channelsColl
        (updateOne (fun c => ch_id c = channelId)
           (addToSet (mkMember empId userType now))) db in
    (getChannelById channelId db', db')
  else (None, db).

(** What [getChannelMembers] lists for a member: the staff document with
    the member's [userType] and [joinedAt]. *)
Record ListedMember := mkListedMember {
  lm_userData : Physician + Nurse;
  lm_userType : string;
  lm_joinedAt : Z
}.

(** The body of the loop of [getChannelMembers]: the entry pushed for one
    member, if any. *)
Definition listed (db : Database) (member : Member) : option ListedMember :=
  let userData : option (Physician + Nurse) :=
    if decide (mem_userType member = "physician")
    then inl <$> findOne (fun p => ph_empId p = mem_empId member)
                   (physicians db)
    else if decide (mem_userType member = "nurse")
    then inr <$> findOne (fun n => nu_empId n = mem_empId member) (nurses db)
    else None in
  (fun d => mkListedMember d (mem_userType member) (mem_joinedAt member))
    <$> userData.

(** [getChannelMembers(channelId)] *)
Definition getChannelMembers (channelId : string) (db : Database)
    : list ListedMember :=
  match getChannelById channelId db with
  | Some channel =>
      match ch_members channel with
      | Some ms => omap (listed db) ms
      | None => []
      end
  | None => []
  end.

End MemStorage.

Module Auth.

Import Db MemStorage.

(** What the strategy hands to [done]: a user, [false], or an error. *)
Inductive Verdict :=
| Authenticated (user : User)
| Refused
| Failed.

Section Passwords.

(** [hashPassword(password)] with the salt it draws, and
    [comparePasswords(supplied, stored)], which throws ([None]) when the
    stored value does not hold a digest of the right length. *)
Variable hashPassword : string -> string -> string.
Variable comparePasswords : string -> string -> option bool.

(** The rows the strategy hands to [createUser]. *)
Definition from_physician (salt username password : string)
    (physician : Physician) : InsertUser :=
  {| iu_username := Some username;
     iu_password := hashPassword password salt;
     iu_name := Some (JS.or_lit (ph_name physician) "Unknown Physician");
     iu_role := Some "physician";
     iu_empId := Some (ph_empId physician);
     iu_specialty := Some (JS.or_lit (ph_speciality physician) EmptyString);
     iu_profileImage :=
       Some "https://randomuser.me/api/portraits/men/44.jpg" |}.

Definition from_nurse (salt username password : string) (nurse : Nurse)
    : InsertUser :=
  {| iu_username := Some username;
     iu_password := hashPassword password salt;
     iu_name := Some (JS.or_lit (nu_name nurse) "Unknown Nurse");
     iu_role := Some "nurse";
     iu_empId := Some (nu_empId nurse);
     iu_specialty := Some (JS.or_lit (nu_nurseType nurse) EmptyString);
     iu_profileImage :=
       Some "https://randomuser.me/api/portraits/women/44.jpg" |}.

(** [done(null, await storage.createUser(row))] *)
Definition done_created (row : InsertUser) (t : Table) : Verdict * Table :=
  let (newUser, t') := createUser row t in (Authenticated newUser, t').

(** The strategy from [getNurseByEmpId] on. *)
Definition nurse_login (salt username password : string) (db : Database)
    (t : Table) : Verdict * Table :=
  match getNurseByEmpId username db with
  | None => (Failed, t)
  | Some (Some nurse) =>
      if decide (password = "password")
      then done_created (from_nurse salt username password nurse) t
      else (Refused, t)
  | Some None => (Refused, t)
  end.

(** The strategy from [getPhysicianByEmpId] on: the user is made from the
    staff document found under the username, physicians first. *)
Definition staff_login (salt username password : string) (db : Database)
    (t : Table) : Verdict * Table :=
  match getPhysicianByEmpId username db with
  | None => (Failed, t)
  | Some (Some physician) =>
      if decide (password = "password")
      then done_created (from_physician salt username password physician) t
      else nurse_login salt username password db t
  | Some None => nurse_login salt username password db t
  end.

(** The callback of [new LocalStrategy(...)]; the library calls it with a
    username and a password that are both present. *)
Definition verify (salt username password : string) (db : Database)
    (t : Table) : Verdict * Table :=
  match getUserByUsername (Some username) t with
  | Some user =>
      match comparePasswords password (u_password user) with
      | None => (Failed, t)
      | Some true => (Authenticated user, t)
      | Some false => staff_login salt username password db t
      end
  | None => staff_login salt username password db t
  end.

(** The body of a registration request; a property is a string or is
    absent. *)
Record Registration := mkRegistration {
  rb_username : option string;
  rb_password : option string;
  rb_name : option string;
  rb_role : option string;
  rb_empId : option string;
  rb_specialty : option string;
  rb_profileImage : option string
}.

(** The answer to [POST /api/register]: [201] with the user, who is then
    logged in, [400], or the error passed to [next]. *)
Inductive Registered :=
| Created (user : User)
| UsernameExists
| RegistrationError.

(** [{ ...req.body, password: await hashPassword(req.body.password) }] *)
Definition from_body (salt password : string) (body : Registration)
    : InsertUser :=
  {| iu_username := rb_username body;
     iu_password := hashPassword password salt;
     iu_name := rb_name body;
     iu_role := rb_role body;
     iu_empId := rb_empId body;
     iu_specialty := rb_specialty body;
     iu_profileImage := rb_profileImage body |}.

(** [app.post("/api/register", ...)]; hashing a password that is absent
    throws. *)
Definition register (salt : string) (body : Registration) (t : Table)
    : Registered * Table :=
  match getUserByUsername (rb_username body) t with
  | Some existingUser => (UsernameExists, t)
  | None =>
      match rb_password body with
      | None => (RegistrationError, t)
      | Some password =>
          let (user, t') := createUser (from_body salt password body) t in
          (Created user, t')
      end
  end.

(** What a client may ask of the account table. *)
Inductive Request :=
| LogIn (salt username password : string)
| SignUp (salt : string) (body : Registration).

Definition serve (db : Database) (r : Request) (t : Table) : Table :=
  match r with
  | LogIn salt username password => (verify salt username password db t).2
  | SignUp salt body => (register salt body t).2
  end.

Definition serve_all (db : Database) (rs : list Request) (t : Table) : Table :=
  foldl (fun t r => serve db r t) t rs.

End Passwords.

(** [passport.serializeUser] and [passport.deserializeUser]: the session
    keeps the id, and a request carries the user found under it. *)
Definition serializeUser (user : User) : Z := u_id user.

Definition deserializeUser (id : Z) (t : Table) : option User := getUser id t.

End Auth.

Module Routes.

Import Db MemStorage.

Inductive Body :=
| Notice (message : string)
| ChannelBody (channel : option Channel)
| MembersBody (members : list ListedMember)
| MemberAdded (channelId empId userType : string).

Record Response := mkResponse {
  status : Z;
  body : Body
}.

(** [app.post("/api/channels/:channelId/join", ...)]; [user] is [req.user],
    present exactly when the request is authenticated. *)
Definition post_join (now : Z) (user : option User) (channelId : string)
    (db : Database) : Response * Database :=
  match user with
  | None => (mkResponse 401 (Notice "Not authenticated"), db)
  | Some u =>
      match u_empId u, u_role u with
      | Some empId, Some userType =>
          if JS.truthy_str (Some empId) && JS.truthy_str (Some userType) then
            let (channel, db') :=
              addUserToChannel now channelId empId userType db in
            (mkResponse 200 (ChannelBody channel), db')
          else
            (mkResponse 400 (Notice "Invalid user data or missing empId"), db)
      | _, _ =>
          (mkResponse 400 (Notice "Invalid user data or missing empId"), db)
      end
  end.

(** [app.post("/api/channels/:channelId/members", ...)] *)
Definition post_members (now : Z) (user : option User) (channelId : string)
    (empId userType : option string) (db : Database) : Response * Database :=
  match user with
  | None => (mkResponse 401 (Notice "Not authenticated"), db)
  | Some _ =>
      match empId, userType with
      | Some e, Some ty =>
          if JS.truthy_str (Some e) && JS.truthy_str (Some ty) then
            if decide (ty ≠ "physician" ∧ ty ≠ "nurse") then
              (mkResponse 400
                 (Notice "User type must be either 'physician' or 'nurse'"),
               db)
            else
              let (result, db') := addUserToChannel now channelId e ty db in
              match result with
              | Some _ =>
                  (mkResponse 201 (MemberAdded channelId e ty), db')
              | None =>
                  (mkResponse 500 (Notice "Failed to add member to channel"),
                   db')
              end
          else
            (mkResponse 400
               (Notice "Employee ID (empId) and user type are required"), db)
      | _, _ =>
          (mkResponse 400
             (Notice "Employee ID (empId) and user type are required"), db)
      end
  end.

(** [app.get("/api/channels/:channelId/members", ...)] *)
Definition get_members (user : option User) (channelId : string)
    (db : Database) : Response :=
  match user with
  | None => mkResponse 401 (Notice "Not authenticated")
  | Some _ => mkResponse 200 (MembersBody (getChannelMembers channelId db))
  end.

End Routes.
(** ** Observations on accounts and membership *)

(** The keys of the user table are the ids of their users, lie between [1]
    and [currentId], and are pairwise different; every user is active. *)
Definition table_ok (t : MemStorage.Table) : Prop :=
  1 <= MemStorage.currentId t
  ∧ (∀ k u, (k, u) ∈ MemStorage.users t →
            1 <= k < MemStorage.currentId t ∧ MemStorage.u_id u = k
            ∧ MemStorage.u_active u = true)
  ∧ NoDup (MemStorage.users t).*1.

(** Stand-ins for the password functions in examples: the stored value is
    the password itself, whatever the salt, and the check compares strings. *)
Definition plain_hash (password salt : string) : string := password.

Definition plain_compare (supplied stored : string) : option bool :=
  Some (String.eqb supplied stored).

(** One physician, one nurse, and the channel of case "CASE1", empty. *)
Definition staff_db : Db.Database :=
  {| Db.reachable := true;
     Db.physicians :=
       [Db.mkPhysician "P100" (Some "Dr. Smith") (Some "Cardiology")];
     Db.nurses := [Db.mkNurse "N200" (Some "Nurse Lee") None];
     Db.channelsColl :=
       [Db.mkChannel "65c1a2b3c4d5e6f708192a3b" (Some "CASE1") None 0 (Some [])] |}.

(** A table in which "P100" was registered with a password of its own. *)
Definition shadowed_table : MemStorage.Table :=
  (Auth.register plain_hash "a1"
     (Auth.mkRegistration (Some "P100") (Some "secret") (Some "Pat")
        (Some "admin") (Some "P100") None None)
     MemStorage.constructor).2.

(** [Storage] and [Db.Database] are two views of the one database: the
    first has what the socket handlers read and write, the second what the
    HTTP routes do. The [channels] collection is in both; this is a
    channel document as the socket handlers see it. *)
Definition doc_of (c : Db.Channel) : ChannelDoc :=
  {| chan_id := Db.ch_id c; chan_patientId := Db.ch_patientId c |}.

(** A call of one of the two methods of [MemStorage] that write to the
    [channels] collection. *)
Inductive ChannelWrite :=
| CreateChannel (now : Z) (fresh caseId : string)
| AddUserToChannel (now : Z) (channelId empId userType : string).

Definition write (w : ChannelWrite) (db : Db.Database) : Db.Database :=
  match w with
  | CreateChannel now fresh caseId =>
      (MemStorage.createChannel now fresh caseId db).2
  | AddUserToChannel now channelId empId userType =>
      (MemStorage.addUserToChannel now channelId empId userType db).2
  end.

Definition write_all (ws : list ChannelWrite) (db : Db.Database)
    : Db.Database :=
  foldl (fun db w => write w db) db ws.

(** A database in which the channel of case "CASE1" was made by
    [createChannel], and a server on it: two connections, the first bound
    to "e1", both joined to that channel. *)
Definition created_db : Db.Database :=
  write_all [CreateChannel 1 "65c1a2b3c4d5e6f708192a3b" "CASE1"]
    (Db.mkDatabase true [] [] []).

Definition created_server : Server :=
  state_of
    (run [(2, Connection); (3, Connection);
          (4, MessageEvent 0%nat (InAuth (Some "e1") None (Some "Dr. Smith")));
          (5, MessageEvent 0%nat
                (InJoin (Some "65c1a2b3c4d5e6f708192a3b")
                   (Some "64b7f0c2a1d3e4f5a6b7c8d9") (Some "Dr. Smith")));
          (6, MessageEvent 1%nat
                (InJoin (Some "65c1a2b3c4d5e6f708192a3b")
                   (Some "64b7f0c2a1d3e4f5a6b7c8d9") (Some "Nurse Lee")))]
       (init
          {| available := true; messages := []; statusUpdatesColl := [];
             patients := [mkPatient "64b7f0c2a1d3e4f5a6b7c8d9" "CASE1"];
             channelDocs := doc_of <$> Db.channelsColl created_db;
             nextObjectId := 0 |})).

(* ===================================================================== *)
(** * Properties *)

(** ** Running the handler monad *)

Arguments set_sockets : simpl never.
Arguments set_clients : simpl never.
Arguments set_channels : simpl never.
Arguments set_storage : simpl never.
Arguments with_store : simpl never.
Arguments assign : simpl never.
Arguments push_member : simpl never.
Arguments drop_member : simpl never.
Arguments accept : simpl never.
Arguments socket_of : simpl never.
Arguments identity : simpl never.
Arguments stored_identity : simpl never.
Arguments display_name : simpl never.
Arguments unidentified : simpl never.
Arguments is_open : simpl never.
Arguments deliver : simpl never.
Arguments members : simpl never.
Arguments Store.addMessageToChannel : simpl never.
Arguments Store.addStatusUpdate : simpl never.
Arguments Store.getChannelMessages : simpl never.
Arguments Store.getStatusUpdates : simpl never.
Arguments Store.getPatientById : simpl never.
Arguments Store.getChannelByPatientId : simpl never.

Lemma bind_run {A B} (m : M A) (k : A -> M B) (s : Server) :
  (m ≫= k) s =
  (value_of (k (value_of (m s)) (state_of (m s))),
   state_of (k (value_of (m s)) (state_of (m s))),
   trace_of (m s) ++ trace_of (k (value_of (m s)) (state_of (m s)))).
Proof.
  unfold mbind, M_bind, value_of, state_of, trace_of.
  destruct (m s) as [[a s1] t1]; simpl.
  destruct (k a s1) as [[b s2] t2]; reflexivity.
Qed.

Lemma state_of_bind {A B} (m : M A) (k : A -> M B) (s : Server) :
  state_of ((m ≫= k) s) = state_of (k (value_of (m s)) (state_of (m s))).
Proof. rewrite bind_run. reflexivity. Qed.

Lemma trace_of_bind {A B} (m : M A) (k : A -> M B) (s : Server) :
  trace_of ((m ≫= k) s) =
  trace_of (m s) ++ trace_of (k (value_of (m s)) (state_of (m s))).
Proof. rewrite bind_run. reflexivity. Qed.

(** Unfold one handler down to tuples. *)
Ltac run_handler :=
  unfold await, announce_join;
  unfold skip, update_socket, subscribe;
  unfold mbind, M_bind, mret, M_ret, modify, query, send, broadcast,
    broadcast_all, the_socket, get, emit, addMessageToChannel,
    addStatusUpdate;
  cbn.

Lemma step_message (now : Z) (ws : nat) (data : Inbound) (s : Server) :
  registered s ws = true ->
  step now (MessageEvent ws data) s =
  (handle_test now ws data ;; handle_message now ws data) s.
Proof.
  intros Hreg. unfold step. rewrite bind_run. cbn. rewrite Hreg.
  destruct ((handle_test now ws data ;; handle_message now ws data) s)
    as [[[] s'] t]; reflexivity.
Qed.

(** ** Delivery *)

Lemma received_app (h : nat) (t1 t2 : list Effect) :
  received h (t1 ++ t2) = received h t1 ++ received h t2.
Proof. unfold received. apply omap_app. Qed.

Lemma received_deliver (s : Server) (f : Frame) (h : nat) (l : list nat) :
  received h (deliver s f l) =
  replicate (length (filter (fun c => c = h) (filter (fun c => is_open s c) l))) f.
Proof.
  unfold deliver.
  induction (filter (fun c => is_open s c) l) as [|c l' IH]; [reflexivity|].
  rewrite fmap_cons, filter_cons. cbn.
  destruct (decide (c = h)); cbn; rewrite <- IH; reflexivity.
Qed.

Lemma deliver_app (s : Server) (f : Frame) (l1 l2 : list nat) :
  deliver s f (l1 ++ l2) = deliver s f l1 ++ deliver s f l2.
Proof. unfold deliver. rewrite filter_app, fmap_app. reflexivity. Qed.

Lemma deliver_open (s : Server) (f : Frame) (h : nat) :
  is_open s h = true -> deliver s f [h] = [Send h f].
Proof.
  intros Ho. unfold deliver. rewrite filter_cons, Ho. reflexivity.
Qed.

(** ** The store orders what it lists *)

#[global] Instance created_asc_total : Total Store.created_asc.
Proof. intros a b. unfold Store.created_asc. lia. Qed.

#[global] Instance created_desc_total : Total Store.created_desc.
Proof. intros a b. unfold Store.created_desc. lia. Qed.

Lemma getChannelMessages_sorted (cid : option string) (st : Storage)
    (msgs : list Message) :
  Store.getChannelMessages cid st = Some msgs ->
  Sorted Store.created_asc msgs.
Proof.
  unfold Store.getChannelMessages. destruct (available st); [|discriminate].
  intros [= <-]. apply Sorted_merge_sort, _.
Qed.

Lemma getStatusUpdates_sorted (pid : option string) (st : Storage)
    (updates : list StatusUpdate) :
  Store.getStatusUpdates pid st = Some updates ->
  Sorted Store.created_desc updates.
Proof.
  unfold Store.getStatusUpdates. destruct (available st); [|discriminate].
  intros [= <-]. apply Sorted_merge_sort, _.
Qed.

(** ** Chat: persist, then broadcast *)

(** C1. For every [message] or [attachment] event from a registered connection
    with a bound identity and a channelId, the callback first calls
    [storage.addMessageToChannel] and then broadcasts the chat frame to the
    open members of the channel. While the store can be reached the call
    stores the message: the document returned is the message with the
    channel, the sender's bound identity, the content, the normalized
    attachments and the clock reading; it is appended to the collection,
    nothing else in the server changes, and the channel's history lists it
    from then on. The broadcast is the same whether or not the store can be
    reached: when it cannot, the call returns [null], nothing is stored, and
    the frame still goes out. *)
Theorem chat_persists_then_broadcasts (now : Z) (ws : nat) (s : Server)
    (att up : bool) (cid content : option string)
    (attachments : option (list IncomingAttachment)) :
  registered s ws = true ->
  unidentified (socket_of s ws) = false ->
  JS.truthy_str cid = true ->
  let w := socket_of s ws in
  let type_is_attachment :=
    isAttachment (if att then "attachment" else "message") attachments in
  let message :=
    {| nm_type := if type_is_attachment then "attachment" else "text";
       nm_senderId := stored_identity w;
       nm_content := content;
       nm_attachments := formattedAttachments attachments |} in
  let chatMessage :=
    FChat (if type_is_attachment then "attachment" else "message") cid
      (identity w) (display_name w) content now
      (formattedAttachments attachments) in
  let stored :=
    {| msg_id := nextObjectId (storage s);
       msg_channelId := cid;
       msg_type := if type_is_attachment then "attachment" else "text";
       msg_senderId := stored_identity w;
       msg_content := content;
       msg_attachments := formattedAttachments attachments;
       msg_createdAt := now |} in
  let r := step now (MessageEvent ws (chat_event att cid content attachments))
             (with_store up s) in
  ∃ savedMessage,
    trace_of r
    = StoreMessage cid message savedMessage
      :: deliver s chatMessage (members s cid)
    ∧ (if up then is_Some savedMessage else savedMessage = None)
    ∧ (if up
       then ∃ doc, savedMessage = Some doc
                   ∧ messages (storage (state_of r))
                     = messages (storage s) ++ [doc]
       else state_of r = with_store false s)
    ∧ (up = true →
       savedMessage = Some stored
       ∧ state_of r
         = set_storage
             {| available := true;
                messages := messages (storage s) ++ [stored];
                statusUpdatesColl := statusUpdatesColl (storage s);
                patients := patients (storage s);
                channelDocs := channelDocs (storage s);
                nextObjectId := S (nextObjectId (storage s)) |} s
       ∧ ∃ msgs,
           Store.getChannelMessages cid (storage (state_of r)) = Some msgs
           ∧ stored ∈ msgs).
Proof.
  intros Hreg Hid Hcid w tia message chatMessage stored r.
  subst r. rewrite step_message by exact Hreg.
  assert (Hchat :
    (handle_test now ws (chat_event att cid content attachments) ;;
     handle_message now ws (chat_event att cid content attachments))
      (with_store up s)
    = (handle_chat now ws (if att then "attachment" else "message") cid
         content attachments) (with_store up s)).
  { destruct att; cbn; unfold mbind, M_bind, skip, mret, M_ret; cbn;
      match goal with |- context [handle_chat ?a ?b ?c ?d ?e ?f ?g] =>
        destruct (handle_chat a b c d e f g) as [[[] ?] ?] end; reflexivity. }
  rewrite Hchat. clear Hchat.
  assert (Htype : (if Store.hasAttachments (formattedAttachments attachments)
                   then "attachment"
                   else JS.or_lit
                          (Some (if tia then "attachment" else "text")) "text")
                  = (if tia then "attachment" else "text")).
  { subst tia. unfold isAttachment, formattedAttachments.
    destruct attachments as [[|a l]|]; cbn; rewrite ?orb_true_r, ?orb_false_r;
      try reflexivity;
      destruct (String.eqb _ "attachment"); reflexivity. }
  unfold handle_chat. run_handler.
  subst w message chatMessage stored.
  change (socket_of (with_store up s) ws) with (socket_of s ws).
  rewrite Hid, Hcid. cbn.
  unfold Store.addMessageToChannel. cbn.
  destruct up; cbn.
  - eexists. split; [reflexivity|]. split; [eexists; reflexivity|].
    split; [eexists; split; reflexivity|].
    intros _. fold tia. cbn in Htype.
    unfold with_store, set_storage, set_available,
      Store.getChannelMessages, state_of. cbn.
    rewrite !Htype.
    split; [reflexivity|]. split; [reflexivity|].
    eexists. split; [reflexivity|].
    rewrite merge_sort_Permutation. apply list_elem_of_filter.
    split; [reflexivity|]. apply elem_of_app. right. left.
  - eexists. split; [reflexivity|]. split; [reflexivity|].
    split; [reflexivity|]. intros; discriminate.
Qed.

Lemma chat_persists_then_broadcasts_witness :
  registered demo_server 0%nat = true
  ∧ unidentified (socket_of demo_server 0%nat) = false
  ∧ JS.truthy_str (Some "CASE1") = true
  ∧ (let r :=
       step 5 (MessageEvent 0%nat (InMessage (Some "CASE1") (Some "hello") None))
         (with_store true demo_server) in
     trace_of r
     = [StoreMessage (Some "CASE1")
          {| nm_type := "text"; nm_senderId := Some "e1";
             nm_content := Some "hello"; nm_attachments := None |}
          (Some {| msg_id := 1; msg_channelId := Some "CASE1";
                   msg_type := "text"; msg_senderId := Some "e1";
                   msg_content := Some "hello"; msg_attachments := None;
                   msg_createdAt := 5 |});
        Send 0%nat
          (FChat "message" (Some "CASE1") "e1" "Dr. Smith" (Some "hello") 5
             None)]
     ∧ messages (storage (state_of r))
       = messages (storage demo_server)
         ++ [{| msg_id := 1; msg_channelId := Some "CASE1";
                msg_type := "text"; msg_senderId := Some "e1";
                msg_content := Some "hello"; msg_attachments := None;
                msg_createdAt := 5 |}])
  ∧ trace_of
      (step 5 (MessageEvent 0%nat (InMessage (Some "CASE1") (Some "hello") None))
         (with_store false demo_server))
    = [StoreMessage (Some "CASE1")
         {| nm_type := "text"; nm_senderId := Some "e1";
            nm_content := Some "hello"; nm_attachments := None |} None;
       Send 0%nat
         (FChat "message" (Some "CASE1") "e1" "Dr. Smith" (Some "hello") 5
            None)].
Proof.
  assert (H1 : registered demo_server 0%nat = true) by (vm_compute; reflexivity).
  assert (H2 : unidentified (socket_of demo_server 0%nat) = false)
    by (vm_compute; reflexivity).
  assert (H3 : JS.truthy_str (Some "CASE1") = true) by reflexivity.
  split; [exact H1|]. split; [exact H2|]. split; [exact H3|].
  split.
  - destruct (chat_persists_then_broadcasts 5 0%nat demo_server false true
                (Some "CASE1") (Some "hello") None H1 H2 H3)
      as (saved & Ht & _ & _ & Hup).
    destruct (Hup eq_refl) as (Hsaved & Hstate & _).
    unfold chat_event in Ht, Hstate. cbn zeta.
    rewrite Ht, Hstate, Hsaved. split; vm_compute; reflexivity.
  - destruct (chat_persists_then_broadcasts 5 0%nat demo_server false false
                (Some "CASE1") (Some "hello") None H1 H2 H3)
      as (saved & Ht & Hnone & _).
    cbn in Hnone. subst saved. unfold chat_event in Ht. rewrite Ht.
    vm_compute. reflexivity.
Defined.

Lemma step_handle_message (now : Z) (ws : nat) (data : Inbound) (s : Server) :
  registered s ws = true ->
  data ≠ InPing ->
  step now (MessageEvent ws data) s = handle_message now ws data s.
Proof.
  intros Hreg Hping. rewrite step_message by exact Hreg.
  destruct data; try congruence; cbn [handle_test];
    unfold mbind, M_bind, skip, mret, M_ret;
    match goal with |- context [handle_message ?a ?b ?c ?d] =>
      destruct (handle_message a b c d) as [[[] ?] ?] end; reflexivity.
Qed.

(** ** Sockets and member lists after an assignment *)

Lemma socket_of_assign (s : Server) (h c : nat)
    (g : ExtendedWebSocket -> ExtendedWebSocket) :
  socket_of (assign h g s) c
  = if decide (c = h) then g (socket_of s h) else socket_of s c.
Proof.
  unfold socket_of, assign, set_sockets. cbn.
  destruct (decide (c = h)) as [->|Hne].
  - rewrite lookup_insert_eq. reflexivity.
  - rewrite lookup_insert_ne by congruence. reflexivity.
Qed.

Lemma readyState_assign (s : Server) (h c : nat)
    (g : ExtendedWebSocket -> ExtendedWebSocket) :
  (∀ w, readyState (g w) = readyState w) ->
  readyState (socket_of (assign h g s) c) = readyState (socket_of s c).
Proof.
  intros Hg. rewrite socket_of_assign. destruct (decide (c = h)) as [->|];
    [apply Hg | reflexivity].
Qed.

Lemma members_push_member (s : Server) (ws : nat) (cid c : option string) :
  members (push_member ws cid s) c
  = if decide (c = cid) then members s cid ++ [ws] else members s c.
Proof.
  unfold members, push_member, set_channels. cbn.
  destruct (decide (c = cid)) as [->|Hne].
  - rewrite lookup_insert_eq. reflexivity.
  - rewrite lookup_insert_ne by congruence. reflexivity.
Qed.

Lemma deliver_ext (s s' : Server) (f : Frame) (l : list nat) :
  (∀ h, readyState (socket_of s' h) = readyState (socket_of s h)) ->
  deliver s' f l = deliver s f l.
Proof.
  intros Hrs. unfold deliver. f_equal.
  apply list_filter_iff. intros h. unfold is_open. rewrite Hrs. reflexivity.
Qed.

Lemma getChannelMessages_lists (cid : option string) (st : Storage) :
  if available st
  then ∃ msgs, Store.getChannelMessages cid st = Some msgs
               ∧ msgs ≡ₚ filter (fun m => msg_channelId m = cid) (messages st)
  else Store.getChannelMessages cid st = None.
Proof.
  unfold Store.getChannelMessages. destruct (available st); [|reflexivity].
  eexists. split; [reflexivity|]. apply merge_sort_Permutation.
Qed.

Lemma getStatusUpdates_lists (pid : option string) (st : Storage) :
  if available st
  then ∃ updates,
         Store.getStatusUpdates pid st = Some updates
         ∧ updates
           ≡ₚ filter (fun u => su_patientId u = pid) (statusUpdatesColl st)
  else Store.getStatusUpdates pid st = None.
Proof.
  unfold Store.getStatusUpdates. destruct (available st); [|reflexivity].
  eexists. split; [reflexivity|]. apply merge_sort_Permutation.
Qed.

(** What [getPatientById] finds while the store can be reached: a patient
    is found exactly when the id is a string that denotes a key and that
    key is the key of a stored patient. *)
Lemma getPatientById_resolves (pid : option string) (st : Storage) :
  available st = true ->
  ∃ patient,
    Store.getPatientById pid st = Some patient
    ∧ (is_Some patient
       ↔ ∃ id key, pid = Some id ∧ JS.ObjectId id = Some key
                   ∧ key ∈ pat_id <$> patients st)
    ∧ ∀ p, patient = Some p → p ∈ patients st ∧ Some (pat_id p) = pid ≫= JS.ObjectId.
Proof.
  intros Hav. unfold Store.getPatientById. rewrite Hav.
  destruct pid as [id|].
  - destruct (JS.ObjectId id) as [key|] eqn:Hkey.
    + eexists. split; [reflexivity|].
      destruct (list_find (fun x => pat_id x = key) (patients st))
        as [[i p]|] eqn:Hf; cbn.
      * apply list_find_Some in Hf as (Hl & Hp & _).
        apply list_elem_of_lookup_2 in Hl.
        split; [split; [intros _|eauto]|].
        -- exists id, key. split; [reflexivity|]. split; [exact Hkey|].
           apply list_elem_of_fmap. exists p. auto.
        -- intros q [= <-]. rewrite Hkey. cbn. split; [exact Hl | congruence].
      * split; [|intros q; discriminate].
        split; [intros [? ?]; discriminate|].
        intros (id' & key' & [= <-] & Hk' & Hin). exfalso.
        rewrite Hkey in Hk'. injection Hk' as <-.
        apply list_elem_of_fmap in Hin as (p & Hp & Hin).
        apply list_find_None in Hf. rewrite Forall_forall in Hf.
        exact (Hf p Hin (eq_sym Hp)).
    + exists None. split; [reflexivity|]. split; [|intros q; discriminate].
      split; [intros [? ?]; discriminate|].
      intros (id' & key' & [= <-] & Hk' & _). congruence.
  - exists None. split; [reflexivity|]. split; [|intros q; discriminate].
    split; [intros [? ?]; discriminate|].
    intros (id' & key' & Hd & _). discriminate.
Qed.

(** ** Join: history, status updates, then the system message *)

(** C2. At the explicit input of a [join] handled while the database cannot
    be reached. [getChannelMessages], [getPatientById] and
    [getStatusUpdates] return the driver's promise without awaiting it, so
    their [catch], which would answer [[]] or [null], does not see the
    rejection: the [await] in the [join] case is rejected and the callback
    ends there. The connection has been filed under the channel, but the
    system message is not broadcast (the other member of the channel, which
    is open, receives nothing, and the joining connection receives no system
    message) and nothing is handed to the store. *)
Lemma join_during_outage_is_not_announced :
  let s := with_store false demo_server in
  let r := step 5 (MessageEvent 1%nat
                     (InJoin (Some "CASE1") (Some "64b7f0c2a1d3e4f5a6b7c8d9")
                        (Some "Nurse Lee"))) s in
  registered s 1%nat = true
  ∧ is_open s 1%nat = true
  ∧ members s (Some "CASE1") = [0%nat]
  ∧ is_open s 0%nat = true
  ∧ members (state_of r) (Some "CASE1") = [0%nat; 1%nat]
  ∧ received 0%nat (trace_of r) = []
  ∧ (FSystem (Some "CASE1") "Nurse Lee has joined the channel" 5
     ∉ received 1%nat (trace_of r))
  ∧ (∀ c m saved, StoreMessage c m saved ∉ trace_of r)
  ∧ storage (state_of r) = storage s.
Proof.
  repeat split; try (vm_compute; reflexivity).
  - vm_compute. intros H. inversion H.
  - intros c m saved. vm_compute. intros H. inversion H.
Qed.

(** X28. A [join] from a registered, open connection handled while the
    store can be reached: the connection is filed under the channel, and the
    callback sends to the joining connection first one [history] batch,
    then, when [patientId] is the key of a patient (in either case of its
    hex digits), one [statusUpdates] batch, and then broadcasts the [system]
    message "<username> has joined the channel" to the open members of the
    channel, the joining connection included; the message is handed to the
    store last. <username> is the [username] property of the join frame as a
    template literal prints it ([undefined] when absent, [null] when null).
    The history is what the store holds for the channel, ordered by
    ascending [createdAt]; the status updates are what it holds under the
    [patientId] as sent, ordered by descending [createdAt]. *)
Theorem join_replays_in_order (now : Z) (ws : nat) (s : Server)
    (cid patientId : option string) (name : JS.value) :
  registered s ws = true ->
  is_open s ws = true ->
  available (storage s) = true ->
  let content := JS.template name +:+ " has joined the channel" in
  let joined := FSystem cid content now in
  let systemMessage :=
    {| nm_type := "system";
       nm_senderId := stored_identity (socket_of s ws);
       nm_content := Some content;
       nm_attachments := None |} in
  let r := step now (MessageEvent ws (InJoin cid patientId name)) s in
  let t := trace_of r in
  members (state_of r) cid = members s cid ++ [ws]
  ∧ channelId (socket_of (state_of r) ws) = cid
  ∧ ∃ msgs patient updates,
      Store.getChannelMessages cid (storage s) = Some msgs
      ∧ Store.getPatientById patientId (storage s) = Some patient
      ∧ Store.getStatusUpdates patientId (storage s) = Some updates
      ∧ (is_Some patient
         ↔ ∃ id key, patientId = Some id ∧ JS.ObjectId id = Some key
                     ∧ key ∈ pat_id <$> patients (storage s))
      ∧ (let batch :=
           match patient with
           | Some _ => [FStatusUpdates updates]
           | None => []
           end in
         t = Send ws (FHistory msgs) :: (Send ws <$> batch)
             ++ deliver s joined (members s cid ++ [ws])
             ++ [StoreMessage cid systemMessage
                   (Store.addMessageToChannel now cid systemMessage
                      (storage s)).1]
         ∧ ∃ n, received ws t
                = FHistory msgs :: batch ++ replicate (S n) joined)
      ∧ Sorted Store.created_asc msgs
      ∧ msgs ≡ₚ filter (fun m => msg_channelId m = cid) (messages (storage s))
      ∧ Sorted Store.created_desc updates
      ∧ updates ≡ₚ filter (fun u => su_patientId u = patientId)
                     (statusUpdatesColl (storage s))
      ∧ storage (state_of r)
        = (Store.addMessageToChannel now cid systemMessage (storage s)).2.
Proof.
  intros Hreg Hopen Hav content joined systemMessage r t.
  assert (Hr : r = handle_join now ws cid patientId name s).
  { subst r. rewrite step_handle_message by (exact Hreg || discriminate).
    reflexivity. }
  set (s1 := push_member ws cid (assign ws (set_channelId cid) s)).
  assert (Hrs : ∀ h, readyState (socket_of s1 h) = readyState (socket_of s h)).
  { intros h. subst s1.
    change (socket_of (push_member ws cid ?x) h) with (socket_of x h).
    apply readyState_assign. reflexivity. }
  assert (Hmem : members s1 cid = members s cid ++ [ws]).
  { subst s1. rewrite members_push_member.
    destruct (decide (cid = cid)); [reflexivity | congruence]. }
  assert (Hid : stored_identity (socket_of s1 ws)
                = stored_identity (socket_of s ws)).
  { subst s1.
    change (socket_of (push_member ws cid ?x) ws) with (socket_of x ws).
    rewrite socket_of_assign.
    destruct (decide (ws = ws)); [reflexivity | congruence]. }
  assert (Hch : channelId (socket_of s1 ws) = cid).
  { subst s1.
    change (socket_of (push_member ws cid ?x) ws) with (socket_of x ws).
    rewrite socket_of_assign.
    destruct (decide (ws = ws)); [reflexivity | congruence]. }
  pose proof (getChannelMessages_lists cid (storage s)) as Hm.
  pose proof (getStatusUpdates_lists patientId (storage s)) as Hu.
  assert (Hstate : members (state_of r) cid = members s cid ++ [ws]
                   ∧ channelId (socket_of (state_of r) ws) = cid).
  { rewrite Hr. unfold handle_join. run_handler. fold s1.
    change (storage s1) with (storage s).
    destruct (Store.getChannelMessages cid (storage s)); cbn;
      [|split; assumption].
    change (storage s1) with (storage s).
    destruct (Store.getPatientById patientId (storage s)) as [[p|]|]; cbn;
      change (storage s1) with (storage s);
      try destruct (Store.getStatusUpdates patientId (storage s)); cbn;
      (split; [exact Hmem | exact Hch]). }
  split; [apply Hstate|]. split; [apply Hstate|]. clear Hstate.
  rewrite Hav in Hm, Hu.
  destruct Hm as (msgs & Hmsgs & Hmp). destruct Hu as (updates & Hupd & Hup).
    destruct (getPatientById_resolves patientId (storage s) Hav)
      as (patient & Hpat & Hres & _).
    exists msgs, patient, updates.
    split; [exact Hmsgs|]. split; [exact Hpat|]. split; [exact Hupd|].
    split; [exact Hres|].
    assert (Hrun : r = (tt,
              set_storage
                (Store.addMessageToChannel now cid systemMessage (storage s)).2
                s1,
              Send ws (FHistory msgs)
              :: (Send ws <$> match patient with
                              | Some _ => [FStatusUpdates updates]
                              | None => []
                              end)
              ++ deliver s joined (members s cid ++ [ws])
              ++ [StoreMessage cid systemMessage
                    (Store.addMessageToChannel now cid systemMessage
                       (storage s)).1])).
    { rewrite Hr. subst systemMessage joined content.
      unfold handle_join. run_handler. fold s1.
      change (storage s1) with (storage s). rewrite Hmsgs. cbn.
      change (storage s1) with (storage s). rewrite Hpat. cbn.
      destruct patient as [p|]; cbn;
        change (storage s1) with (storage s); rewrite ?Hupd; cbn;
        rewrite Hid; rewrite !(deliver_ext s s1) by exact Hrs; rewrite Hmem;
        rewrite !(deliver_open s _ ws Hopen); cbn; reflexivity. }
    split.
    { cbn zeta. subst t. rewrite Hrun. unfold trace_of. cbn [snd].
      split; [reflexivity|].
      set (batch := match patient with
                    | Some _ => [FStatusUpdates updates]
                    | None => []
                    end).
      rewrite deliver_app, (deliver_open s _ ws Hopen).
      change (Send ws (FHistory msgs) :: ?x)
        with ([Send ws (FHistory msgs)] ++ x).
      rewrite !received_app, received_deliver.
      exists (length (filter (fun c => c = ws)
                        (filter (fun c => is_open s c) (members s cid)))).
      assert (Hb : received ws (Send ws <$> batch) = batch).
      { clear. induction batch as [|b l IH]; [reflexivity|].
        cbn. destruct (decide (ws = ws)); [|congruence]. cbn in IH.
        unfold received in IH. rewrite IH. reflexivity. }
      rewrite Hb. cbn. destruct (decide (ws = ws)); [|congruence].
      cbn. f_equal. f_equal. rewrite app_nil_r.
      change [joined] with (replicate 1 joined).
      rewrite <- replicate_add, Nat.add_1_r. reflexivity. }
    split; [eapply getChannelMessages_sorted; exact Hmsgs|].
    split; [exact Hmp|].
    split; [eapply getStatusUpdates_sorted; exact Hupd|].
    split; [exact Hup|].
    rewrite Hrun. reflexivity.
Qed.

Lemma join_replays_in_order_witness :
  registered demo_server 1%nat = true
  ∧ is_open demo_server 1%nat = true
  ∧ available (storage demo_server) = true
  ∧ trace_of
      (step 5 (MessageEvent 1%nat
                 (InJoin (Some "CASE1") (Some "64B7F0C2A1D3E4F5A6B7C8D9")
                    JS.Null))
         demo_server)
    = [Send 1%nat
         (FHistory
            [{| msg_id := 0; msg_channelId := Some "CASE1";
                msg_type := "system"; msg_senderId := Some "e1";
                msg_content := Some "Dr. Smith has joined the channel";
                msg_attachments := None; msg_createdAt := 4 |}]);
       Send 1%nat (FStatusUpdates []);
       Send 0%nat (FSystem (Some "CASE1") "null has joined the channel" 5);
       Send 1%nat (FSystem (Some "CASE1") "null has joined the channel" 5);
       StoreMessage (Some "CASE1")
         {| nm_type := "system"; nm_senderId := None;
            nm_content := Some "null has joined the channel";
            nm_attachments := None |}
         (Some {| msg_id := 1; msg_channelId := Some "CASE1";
                  msg_type := "system"; msg_senderId := None;
                  msg_content := Some "null has joined the channel";
                  msg_attachments := None; msg_createdAt := 5 |})].
Proof.
  assert (H1 : registered demo_server 1%nat = true) by (vm_compute; reflexivity).
  assert (H2 : is_open demo_server 1%nat = true) by (vm_compute; reflexivity).
  assert (H3 : available (storage demo_server) = true) by reflexivity.
  split; [exact H1|]. split; [exact H2|]. split; [exact H3|].
  destruct (join_replays_in_order 5 1%nat demo_server (Some "CASE1")
              (Some "64B7F0C2A1D3E4F5A6B7C8D9") JS.Null H1 H2 H3)
    as (_ & _ & msgs & patient & updates & Hm & Hp & Hu & _ & [Ht _] & _).
  rewrite Ht.
  assert (Hm' : Store.getChannelMessages (Some "CASE1") (storage demo_server)
                = Some [{| msg_id := 0; msg_channelId := Some "CASE1";
                           msg_type := "system"; msg_senderId := Some "e1";
                           msg_content :=
                             Some "Dr. Smith has joined the channel";
                           msg_attachments := None; msg_createdAt := 4 |}])
    by (vm_compute; reflexivity).
  assert (Hp' : Store.getPatientById (Some "64B7F0C2A1D3E4F5A6B7C8D9")
                  (storage demo_server)
                = Some (Some (mkPatient "64b7f0c2a1d3e4f5a6b7c8d9" "CASE1")))
    by (vm_compute; reflexivity).
  assert (Hu' : Store.getStatusUpdates (Some "64B7F0C2A1D3E4F5A6B7C8D9")
                  (storage demo_server) = Some [])
    by (vm_compute; reflexivity).
  rewrite Hm' in Hm. rewrite Hp' in Hp. rewrite Hu' in Hu.
  injection Hm as <-. injection Hp as <-. injection Hu as <-.
  vm_compute. reflexivity.
Defined.

(** ** Chat: attachments and the type of the message *)

Lemma step_chat (now : Z) (ws : nat) (s : Server) (att : bool)
    (cid content : option string)
    (attachments : option (list IncomingAttachment)) :
  registered s ws = true ->
  step now (MessageEvent ws (chat_event att cid content attachments)) s
  = handle_chat now ws (if att then "attachment" else "message") cid content
      attachments s.
Proof.
  intros Hreg. rewrite step_handle_message;
    [destruct att; reflexivity | exact Hreg | destruct att; discriminate].
Qed.

Lemma format_attachment_defaults (a : IncomingAttachment) :
  att_type (format_attachment a)
  = match in_type a with
    | Some t => if String.eqb t EmptyString then "image" else t
    | None => "image"
    end
  ∧ att_name (format_attachment a)
    = match in_name a with
      | Some n => if String.eqb n EmptyString then "file" else n
      | None => "file"
      end
  ∧ att_url (format_attachment a) = in_url a
  ∧ att_size (format_attachment a) = in_size a
  ∧ att_mimeType (format_attachment a) = in_mimeType a
  ∧ att_thumbnailUrl (format_attachment a) = in_thumbnailUrl a.
Proof. repeat split. Qed.

(** At the explicit input of an [attachment] frame that carries no
    attachments, the normalized sequence is empty and yet both the stored
    document and the outbound frame have type [attachment]. *)
Lemma attachment_type_without_attachments :
  formattedAttachments None = None
  ∧ trace_of
      (step 5 (MessageEvent 0%nat (InAttachment (Some "CASE1") (Some "x") None))
         demo_server)
    = [StoreMessage (Some "CASE1")
         {| nm_type := "attachment"; nm_senderId := Some "e1";
            nm_content := Some "x"; nm_attachments := None |}
         (Some {| msg_id := 1; msg_channelId := Some "CASE1";
                  msg_type := "attachment"; msg_senderId := Some "e1";
                  msg_content := Some "x"; msg_attachments := None;
                  msg_createdAt := 5 |});
       Send 0%nat
         (FChat "attachment" (Some "CASE1") "e1" "Dr. Smith" (Some "x") 5 None)].
Proof. split; vm_compute; reflexivity. Qed.

(** C3 (amended). For every inbound chat event from a registered connection
    with a bound identity and a channelId: the attachment sequence is
    normalized item by item, a missing (or empty) type becoming [image] and a
    missing (or empty) name becoming [file], and an absent or empty sequence
    becoming [undefined]; the outbound frame has type [attachment] exactly
    when the inbound frame's own type is [attachment] or the normalized
    sequence is non-empty, and type [message] otherwise; the stored document
    has type [attachment] under the same condition and [text] otherwise. *)
Theorem chat_type_classification (now : Z) (ws : nat) (s : Server) (att : bool)
    (cid content : option string)
    (attachments : option (list IncomingAttachment)) :
  registered s ws = true ->
  unidentified (socket_of s ws) = false ->
  JS.truthy_str cid = true ->
  let normalized := formattedAttachments attachments in
  let as_attachment := att || nonempty normalized in
  let r := step now (MessageEvent ws (chat_event att cid content attachments)) s in
  default [] normalized = format_attachment <$> default [] attachments
  ∧ (normalized = None ↔ default [] attachments = [])
  ∧ (∀ a, a ∈ default [] attachments →
       (in_type a = None → att_type (format_attachment a) = "image")
       ∧ (in_name a = None → att_name (format_attachment a) = "file")
       ∧ (∀ t, in_type a = Some t → t ≠ EmptyString →
            att_type (format_attachment a) = t)
       ∧ (∀ n, in_name a = Some n → n ≠ EmptyString →
            att_name (format_attachment a) = n)
       ∧ (in_type a = Some EmptyString →
            att_type (format_attachment a) = "image")
       ∧ (in_name a = Some EmptyString →
            att_name (format_attachment a) = "file"))
  ∧ ∃ saved,
      trace_of r
      = StoreMessage cid
          {| nm_type := if as_attachment then "attachment" else "text";
             nm_senderId := stored_identity (socket_of s ws);
             nm_content := content;
             nm_attachments := normalized |} saved
        :: deliver s
             (FChat (if as_attachment then "attachment" else "message") cid
                (identity (socket_of s ws)) (display_name (socket_of s ws))
                content now normalized)
             (members s cid)
      ∧ (∀ doc, saved = Some doc →
           msg_type doc = (if as_attachment then "attachment" else "text")
           ∧ msg_attachments doc = normalized
           ∧ doc ∈ messages (storage (state_of r))).
Proof.
  intros Hreg Hid Hcid normalized as_attachment r.
  assert (Hne : nonempty normalized = nonempty attachments).
  { subst normalized. unfold formattedAttachments.
    destruct attachments as [[|a l]|]; reflexivity. }
  split.
  { subst normalized. unfold formattedAttachments.
    destruct attachments as [[|a l]|]; reflexivity. }
  split.
  { subst normalized. unfold formattedAttachments.
    destruct attachments as [[|a l]|]; cbn; split; congruence. }
  split.
  { intros a _. pose proof (format_attachment_defaults a) as (Ht & Hn & _).
    rewrite Ht, Hn. repeat split.
    - intros ->. reflexivity.
    - intros ->. reflexivity.
    - intros t -> Hne'. destruct (String.eqb_spec t EmptyString); congruence.
    - intros n -> Hne'. destruct (String.eqb_spec n EmptyString); congruence.
    - intros ->. reflexivity.
    - intros ->. reflexivity. }
  subst r. rewrite step_chat by exact Hreg.
  unfold handle_chat. run_handler. rewrite Hid, Hcid. cbn.
  assert (Hcls : isAttachment (if att then "attachment" else "message")
                   attachments = as_attachment).
  { subst as_attachment. rewrite Hne. unfold isAttachment.
    destruct att; reflexivity. }
  rewrite Hcls. fold normalized.
  eexists. split; [reflexivity|].
  intros doc Hdoc. unfold Store.addMessageToChannel in *. cbn in *.
  destruct (available (storage s)); cbn in *; [|discriminate].
  injection Hdoc as <-. cbn.
  split.
  { unfold Store.hasAttachments. fold (nonempty normalized).
    subst as_attachment.
    destruct (nonempty normalized); [rewrite orb_true_r; reflexivity|].
    rewrite orb_false_r. destruct att; reflexivity. }
  split; [reflexivity|].
  unfold set_storage. cbn. apply elem_of_app. right. apply list_elem_of_singleton.
  reflexivity.
Qed.

Lemma chat_type_classification_witness :
  registered demo_server 0%nat = true
  ∧ unidentified (socket_of demo_server 0%nat) = false
  ∧ JS.truthy_str (Some "CASE1") = true
  ∧ ∃ saved,
      trace_of
        (step 5
           (MessageEvent 0%nat
              (InMessage (Some "CASE1") None
                 (Some [mkIncomingAttachment None "/uploads/ecg.png" None
                          None None None;
                        mkIncomingAttachment (Some EmptyString)
                          "/uploads/note.pdf" (Some EmptyString) None None
                          None])))
           demo_server)
      = [StoreMessage (Some "CASE1")
           {| nm_type := "attachment"; nm_senderId := Some "e1";
              nm_content := None;
              nm_attachments :=
                Some [mkAttachment "image" "/uploads/ecg.png" "file" None None
                        None;
                      mkAttachment "image" "/uploads/note.pdf" "file" None
                        None None] |} saved;
         Send 0%nat
           (FChat "attachment" (Some "CASE1") "e1" "Dr. Smith" None 5
              (Some [mkAttachment "image" "/uploads/ecg.png" "file" None None
                       None;
                     mkAttachment "image" "/uploads/note.pdf" "file" None
                       None None]))].
Proof.
  assert (H1 : registered demo_server 0%nat = true) by (vm_compute; reflexivity).
  assert (H2 : unidentified (socket_of demo_server 0%nat) = false)
    by (vm_compute; reflexivity).
  assert (H3 : JS.truthy_str (Some "CASE1") = true) by reflexivity.
  split; [exact H1|]. split; [exact H2|]. split; [exact H3|].
  destruct (chat_type_classification 5 0%nat demo_server false (Some "CASE1")
              None
              (Some [mkIncomingAttachment None "/uploads/ecg.png" None None
                       None None;
                     mkIncomingAttachment (Some EmptyString)
                       "/uploads/note.pdf" (Some EmptyString) None None None])
              H1 H2 H3)
    as (_ & _ & _ & saved & Ht & _).
  exists saved. unfold chat_event in Ht. rewrite Ht. vm_compute. reflexivity.
Defined.

(** ** Events that lack a required field *)

(** The handlers that test their required fields return at once when one is
    missing: nothing is sent and the state is unchanged. *)
Lemma guarded_events_are_noops (now : Z) (ws : nat) (s : Server)
    (data : Inbound) :
  registered s ws = true ->
  (∃ att content attachments,
     data = chat_event att None content attachments)
  ∨ (∃ status location details,
       data = InStatusUpdate None status location details)
  ∨ (∃ cid callType responderId responderName response,
       data = InCallInvitationResponse cid callType None responderId
                responderName response)
  ∨ (∃ callType targetUserId inviterId inviterName,
       data = InCallInvitation None callType targetUserId inviterId inviterName)
  ∨ (∃ cid callType inviterId inviterName,
       data = InCallInvitation cid callType None inviterId inviterName)
  ∨ (∃ callType action targetUsers,
       data = InCallSignal None callType action targetUsers) ->
  step now (MessageEvent ws data) s = (tt, s, []).
Proof.
  intros Hreg H.
  destruct H as [(att & c & a & ->)|[(st & l & d & ->)|[(c & ct & r1 & r2 & r3 & ->)
    |[(ct & t & i & n & ->)|[(c & ct & i & n & ->)|(ct & a & t & ->)]]]]].
  - rewrite step_chat by exact Hreg. unfold handle_chat. run_handler.
    rewrite orb_true_r. reflexivity.
  - rewrite step_handle_message by (exact Hreg || discriminate).
    cbn [handle_message]. unfold handle_statusUpdate. run_handler.
    rewrite orb_true_r. reflexivity.
  - rewrite step_handle_message by (exact Hreg || discriminate). reflexivity.
  - rewrite step_handle_message by (exact Hreg || discriminate).
    cbn [handle_message]. unfold handle_callInvitation. run_handler.
    rewrite orb_true_r. reflexivity.
  - rewrite step_handle_message by (exact Hreg || discriminate).
    cbn [handle_message]. unfold handle_callInvitation. run_handler.
    rewrite !orb_true_r. reflexivity.
  - rewrite step_handle_message by (exact Hreg || discriminate).
    cbn [handle_message]. unfold handle_callSignal. run_handler.
    rewrite orb_true_r. reflexivity.
Qed.

(** C4. A [join] frame without a channelId is not a no-op: the [join] case
    has no test of its required field, so the connection is filed under the
    [undefined] key of [channels], it is sent a [history] frame and the
    system message "undefined has joined the channel", and that message is
    stored with no channel. *)
Theorem join_without_channelId_acts :
  let r := step 5 (MessageEvent 1%nat (InJoin None None None)) demo_server in
  members demo_server None = []
  ∧ members (state_of r) None = [1%nat]
  ∧ trace_of r
    = [Send 1%nat (FHistory []);
       Send 1%nat (FSystem None "undefined has joined the channel" 5);
       StoreMessage None
         {| nm_type := "system"; nm_senderId := None;
            nm_content := Some "undefined has joined the channel";
            nm_attachments := None |}
         (Some {| msg_id := 1; msg_channelId := None; msg_type := "system";
                  msg_senderId := None;
                  msg_content := Some "undefined has joined the channel";
                  msg_attachments := None; msg_createdAt := 5 |})]
  ∧ length (messages (storage (state_of r)))
    = S (length (messages (storage demo_server))).
Proof. repeat split; vm_compute; reflexivity. Qed.

(** ** Call invitations *)

Lemma last_filter_Some {A} (P : A -> Prop) `{∀ x, Decision (P x)}
    (l : list A) (x : A) :
  last (filter P l) = Some x ->
  P x ∧ ∃ l1 l2, l = l1 ++ x :: l2 ∧ Forall (fun y => ¬ P y) l2.
Proof.
  induction l as [|a l IH]; [discriminate|].
  intros Hlast. destruct (last (filter P l)) as [y|] eqn:Hl.
  - assert (Hy : last (filter P (a :: l)) = Some y).
    { rewrite filter_cons. destruct (decide (P a)); [|exact Hl].
      destruct (filter P l); [discriminate | exact Hl]. }
    rewrite Hy in Hlast. injection Hlast as ->.
    destruct (IH eq_refl) as (Hx & l1 & l2 & -> & Hall).
    split; [exact Hx|]. exists (a :: l1), l2. split; [reflexivity | exact Hall].
  - apply last_None in Hl.
    rewrite filter_cons, Hl in Hlast. destruct (decide (P a)); [|discriminate].
    injection Hlast as ->. split; [assumption|].
    exists [], l. split; [reflexivity|].
    apply Forall_forall. intros y Hy HP.
    assert (Hin : y ∈ filter P l) by (apply list_elem_of_filter; auto).
    rewrite Hl in Hin. inversion Hin.
Qed.

Lemma last_filter_None {A} (P : A -> Prop) `{∀ x, Decision (P x)}
    (l : list A) :
  last (filter P l) = None -> ∀ x, x ∈ l -> ¬ P x.
Proof.
  intros Hl x Hx HP. apply last_None in Hl.
  assert (Hin : x ∈ filter P l) by (apply list_elem_of_filter; auto).
  rewrite Hl in Hin. inversion Hin.
Qed.

Lemma truthy_str_Some (t : string) :
  JS.truthy_str (Some t) = true ↔ t ≠ EmptyString.
Proof.
  cbn. destruct (String.eqb_spec t EmptyString); cbn; split; congruence.
Qed.

Lemma matches_matching (s : Server) (wanted : string) (h : nat) :
  wanted ≠ EmptyString ->
  h ∈ clients s ->
  matches s wanted h = true ↔ matching s wanted h.
Proof.
  intros Hw Hin. unfold matches, matching, is_open.
  rewrite andb_true_iff, orb_true_iff, !andb_true_iff, !bool_decide_eq_true.
  split.
  - intros (Ho & [[_ He]|[_ Hu]]); auto.
  - intros (_ & Ho & [He|Hu]); (split; [exact Ho|]).
    + left. rewrite He. split; [apply truthy_str_Some; exact Hw | reflexivity].
    + right. rewrite Hu. split; [apply truthy_str_Some; exact Hw | reflexivity].
Qed.

(** [n.toString()] is never the empty string. *)
Lemma pretty_N_go_length (x : N) (acc : string) :
  (String.length acc <= String.length (pretty_N_go x acc))%nat.
Proof.
  revert acc. induction (N.lt_wf_0 x) as [x _ IH]; intros acc.
  destruct (decide (x = 0%N)) as [->|Hx].
  - rewrite pretty_N_go_0. reflexivity.
  - rewrite pretty_N_go_step by lia.
    etransitivity; [|apply IH, N.div_lt; lia]. cbn. lia.
Qed.

Lemma toString_nonempty (n : Z) : JS.toString n ≠ EmptyString.
Proof.
  assert (Hpos : ∀ p, pretty (N.pos p) ≠ EmptyString).
  { intros p Hp. unfold pretty, pretty_N in Hp.
    destruct (decide (N.pos p = 0%N)); [discriminate|].
    rewrite pretty_N_go_step in Hp by lia.
    pose proof (pretty_N_go_length (N.pos p `div` 10)
                  (String (pretty_N_char (N.pos p `mod` 10)) EmptyString)) as Hlen.
    rewrite Hp in Hlen. cbn in Hlen. lia. }
  unfold JS.toString, pretty, pretty_Z. destruct n as [|p|p].
  - discriminate.
  - apply Hpos.
  - discriminate.
Qed.

Lemma identity_nonempty (w : ExtendedWebSocket) : identity w ≠ EmptyString.
Proof.
  unfold identity, JS.or_lit.
  assert (Hf : (match userId w with
                | Some n => if JS.truthy_num (Some n) then JS.toString n else "0"
                | None => "0"
                end) ≠ EmptyString).
  { destruct (userId w) as [n|]; [|discriminate].
    destruct (JS.truthy_num (Some n)); [apply toString_nonempty | discriminate]. }
  destruct (empId w) as [e|]; [|exact Hf].
  destruct (String.eqb_spec e EmptyString); [exact Hf | assumption].
Qed.

Lemma or_lit_nonempty (a : option string) (lit : string) :
  lit ≠ EmptyString -> JS.or_lit a lit ≠ EmptyString.
Proof.
  intros Hl. unfold JS.or_lit. destruct a as [x|]; [|exact Hl].
  destruct (String.eqb_spec x EmptyString); assumption.
Qed.

(** At the explicit input of an invitation for "n1234" while the registered
    connection bound to "n1234" is closing, no frame is sent at all. *)
Lemma invitation_to_closing_target_dropped :
  registered closing_server 1%nat = true
  ∧ empId (socket_of closing_server 1%nat) = Some "n1234"
  ∧ readyState (socket_of closing_server 1%nat) = CLOSING
  ∧ trace_of
      (step 60005
         (MessageEvent 0%nat
            (InCallInvitation (Some "C1") (Some "voice") (Some "n1234")
               (Some "e1") (Some "Dr. Smith")))
         closing_server)
    = [].
Proof. repeat split; vm_compute; reflexivity. Qed.

(** C5 (amended). For every [callInvitation] event from a registered
    connection carrying a channelId and a targetUserId: if some registered
    connection that is open has the target as its identity (its [empId], or
    its stringified legacy numeric id), exactly one [callInvitation] frame
    [{channelId, callType, inviterId, inviterName, timestamp}] is sent, to the
    last such connection in registration order, and nothing to any other
    connection; if no registered open connection matches, no frame is sent to
    anyone, the inviter included. The server state is unchanged either way. *)
Theorem callInvitation_reaches_last_open_match (now : Z) (ws : nat)
    (s : Server) (cid callType inviterId inviterName : option string)
    (target : string) :
  registered s ws = true ->
  JS.truthy_str cid = true ->
  target ≠ EmptyString ->
  let w := socket_of s ws in
  let invitationMessage :=
    FCallInvitation cid callType (JS.or_lit inviterId (identity w))
      (JS.or_lit (JS.or_str inviterName (username w)) "Unknown User") now in
  let r :=
    step now
      (MessageEvent ws
         (InCallInvitation cid callType (Some target) inviterId inviterName))
      s in
  state_of r = s
  ∧ ((∃ h, matching s target h) →
     ∃ h l1 l2,
       matching s target h
       ∧ clients s = l1 ++ h :: l2
       ∧ Forall (fun c => ¬ matching s target c) l2
       ∧ trace_of r = [Send h invitationMessage])
  ∧ ((∀ h, ¬ matching s target h) → trace_of r = []).
Proof.
  intros Hreg Hcid Htarget w invitationMessage r.
  assert (Hsender : JS.truthy_str (Some (JS.or_lit inviterId (identity w))) = true).
  { apply truthy_str_Some, or_lit_nonempty, identity_nonempty. }
  assert (Hrun : r = (tt, s,
            match scan_clients s target with
            | Some h => deliver s invitationMessage [h]
            | None => []
            end)).
  { subst r. rewrite step_handle_message by (exact Hreg || discriminate).
    cbn [handle_message]. unfold handle_callInvitation. run_handler.
    fold w.
    assert (Ht : JS.truthy_str (Some target) = true)
      by (apply truthy_str_Some; exact Htarget).
    cbn in Hsender, Ht. rewrite Hsender, Hcid, Ht. cbn.
    destruct (scan_clients s target); reflexivity. }
  rewrite Hrun. cbn [state_of trace_of fst snd].
  split; [reflexivity|].
  unfold scan_clients.
  split.
  - intros (h0 & Hm0).
    destruct (last (filter (fun h => matches s target h) (clients s)))
      as [h|] eqn:Hlast.
    + apply last_filter_Some in Hlast as (Hm & l1 & l2 & Hcl & Hall).
      assert (Hin : h ∈ clients s).
      { rewrite Hcl. apply elem_of_app. right. left. }
      apply Is_true_true, (matches_matching s target h Htarget Hin) in Hm.
      exists h, l1, l2. split; [exact Hm|]. split; [exact Hcl|].
      split.
      * apply Forall_forall. intros c Hc Hmc.
        rewrite Forall_forall in Hall. apply (Hall c Hc).
        apply Is_true_true, matches_matching; [exact Htarget| |exact Hmc].
        destruct Hmc as (? & _). assumption.
      * rewrite deliver_open; [reflexivity|].
        destruct Hm as (_ & Ho & _). unfold is_open. rewrite Ho. reflexivity.
    + exfalso. pose proof Hm0 as (Hin0 & _).
      apply (last_filter_None _ _ Hlast h0 Hin0).
      apply Is_true_true, matches_matching; assumption.
  - intros Hnone.
    destruct (last (filter (fun h => matches s target h) (clients s)))
      as [h|] eqn:Hlast; [|reflexivity].
    exfalso. apply last_filter_Some in Hlast as (Hm & l1 & l2 & Hcl & Hall).
    apply (Hnone h). apply matches_matching; [exact Htarget| |].
    + rewrite Hcl. apply elem_of_app. right. left.
    + apply Is_true_true. exact Hm.
Qed.

Lemma callInvitation_reaches_last_open_match_witness :
  registered demo_server 1%nat = true
  ∧ JS.truthy_str (Some "CASE1") = true
  ∧ "e1" ≠ EmptyString
  ∧ ∃ h,
      matching demo_server "e1" h
      ∧ trace_of
          (step 5
             (MessageEvent 1%nat
                (InCallInvitation (Some "CASE1") (Some "voice") (Some "e1")
                   (Some "n1234") (Some "Nurse Lee")))
             demo_server)
        = [Send h
             (FCallInvitation (Some "CASE1") (Some "voice") "n1234"
                "Nurse Lee" 5)].
Proof.
  assert (H1 : registered demo_server 1%nat = true) by (vm_compute; reflexivity).
  assert (H2 : JS.truthy_str (Some "CASE1") = true) by reflexivity.
  assert (H3 : "e1" ≠ EmptyString) by discriminate.
  split; [exact H1|]. split; [exact H2|]. split; [exact H3|].
  destruct (callInvitation_reaches_last_open_match 5 1%nat demo_server
              (Some "CASE1") (Some "voice") (Some "n1234") (Some "Nurse Lee")
              "e1" H1 H2 H3) as (_ & Hsome & _).
  destruct Hsome as (h & l1 & l2 & Hm & _ & _ & Ht).
  - exists 0%nat. split; [|split; [|left]]; vm_compute;
      [constructor | reflexivity | reflexivity].
  - exists h. split; [exact Hm | exact Ht].
Defined.

(** ** What an event can change *)

Ltac unfold_handlers :=
  unfold on_close, on_connection;
  unfold handle_auth, handle_join, handle_chat, handle_statusUpdate,
    handle_callInvitationResponse, handle_callInvitation, handle_userStatus,
    handle_callSignal, handle_pong, handle_close, heartbeat_one.

Ltac handler_cases :=
  unfold_handlers; run_handler; repeat case_match; simplify_eq/=;
  unfold state_of, trace_of, value_of; cbn [fst snd].

Lemma socket_of_set_storage st s h : socket_of (set_storage st s) h = socket_of s h.
Proof. reflexivity. Qed.
Lemma socket_of_with_store b s h : socket_of (with_store b s) h = socket_of s h.
Proof. reflexivity. Qed.
Lemma socket_of_push_member ws cid s h :
  socket_of (push_member ws cid s) h = socket_of s h.
Proof. reflexivity. Qed.
Lemma socket_of_drop_member ws cid s h :
  socket_of (drop_member ws cid s) h = socket_of s h.
Proof. reflexivity. Qed.
Lemma socket_of_set_clients f s h : socket_of (set_clients f s) h = socket_of s h.
Proof. reflexivity. Qed.

Lemma socket_of_accept (s : Server) (h : nat) :
  socket_of (accept s) h
  = if decide (h = nextSocket s) then fresh_socket else socket_of s h.
Proof.
  unfold socket_of, accept. cbn. destruct (decide (h = nextSocket s)) as [->|Hne].
  - rewrite lookup_insert_eq. reflexivity.
  - rewrite lookup_insert_ne by congruence. reflexivity.
Qed.

Ltac sockets_after :=
  rewrite ?socket_of_set_storage, ?socket_of_with_store, ?socket_of_push_member,
    ?socket_of_drop_member, ?socket_of_set_clients, ?socket_of_assign.

Lemma message_clients (now : Z) (ws : nat) (data : Inbound) (s : Server) :
  clients (state_of (handle_message now ws data s)) = clients s
  ∧ nextSocket (state_of (handle_message now ws data s)) = nextSocket s.
Proof.
  destruct data; cbn [handle_message]; handler_cases; split; reflexivity.
Qed.

Lemma message_liveness (now : Z) (ws : nat) (data : Inbound) (s : Server)
    (h : nat) :
  isAlive (socket_of (state_of (handle_message now ws data s)) h)
  = isAlive (socket_of s h)
  ∧ readyState (socket_of (state_of (handle_message now ws data s)) h)
    = readyState (socket_of s h).
Proof.
  destruct data; cbn [handle_message]; handler_cases; sockets_after;
    repeat case_decide; subst; split; reflexivity.
Qed.

Lemma test_listener_state (now : Z) (ws : nat) (data : Inbound) (s : Server) :
  state_of (handle_test now ws data s) = s.
Proof. destruct data; reflexivity. Qed.


(** ** The liveness sweep *)

Lemma assign_ext (h : nat) (g g' : ExtendedWebSocket -> ExtendedWebSocket)
    (s : Server) :
  g (socket_of s h) = g' (socket_of s h) -> assign h g s = assign h g' s.
Proof.
  unfold socket_of, assign, set_sockets. intros Hg. rewrite Hg. reflexivity.
Qed.

Lemma heartbeat_one_run (h : nat) (s : Server) :
  heartbeat_one h s = (tt, assign h swept s, [sweep_effect s h]).
Proof.
  unfold heartbeat_one, sweep_effect. run_handler.
  destruct (isAlive (socket_of s h)) eqn:Ha; cbn; f_equal; f_equal;
    apply assign_ext; unfold swept; rewrite Ha; reflexivity.
Qed.

Lemma sweep_effect_assign_ne (s : Server) (a h : nat)
    (g : ExtendedWebSocket -> ExtendedWebSocket) :
  h ≠ a -> sweep_effect (assign a g s) h = sweep_effect s h.
Proof.
  intros Hne. unfold sweep_effect. rewrite socket_of_assign.
  destruct (decide (h = a)); [congruence | reflexivity].
Qed.

Lemma forEach_heartbeat (l : list nat) (s : Server) :
  NoDup l ->
  forEach l heartbeat_one s
  = (tt, foldl (fun s' h => assign h swept s') s l, sweep_effect s <$> l).
Proof.
  revert s. induction l as [|a l IH]; intros s Hnd; [reflexivity|].
  apply NoDup_cons in Hnd as [Ha Hnd].
  cbn [forEach]. rewrite bind_run, heartbeat_one_run.
  unfold value_of, state_of, trace_of. cbn [fst snd].
  rewrite IH by exact Hnd. cbn. f_equal.
  f_equal. apply list_fmap_ext. intros i h Hh.
  apply sweep_effect_assign_ne. intros ->.
  apply Ha. eapply list_elem_of_lookup_2. exact Hh.
Qed.

Lemma sweep_frame (l : list nat) (s : Server) :
  clients (foldl (fun s' h => assign h swept s') s l) = clients s
  ∧ nextSocket (foldl (fun s' h => assign h swept s') s l) = nextSocket s
  ∧ channels (foldl (fun s' h => assign h swept s') s l) = channels s
  ∧ storage (foldl (fun s' h => assign h swept s') s l) = storage s.
Proof.
  revert s. induction l as [|a l IH]; intros s; [repeat split|].
  cbn [foldl]. destruct (IH (assign a swept s)) as (H1 & H2 & H3 & H4).
  rewrite H1, H2, H3, H4. repeat split.
Qed.

Lemma sweep_socket (l : list nat) (s : Server) (h : nat) :
  NoDup l ->
  socket_of (foldl (fun s' h => assign h swept s') s l) h
  = if decide (h ∈ l) then swept (socket_of s h) else socket_of s h.
Proof.
  revert s. induction l as [|a l IH]; intros s Hnd.
  - cbn. destruct (decide (h ∈ [])) as [Hin|]; [inversion Hin | reflexivity].
  - apply NoDup_cons in Hnd as [Ha Hnd].
    cbn [foldl]. rewrite IH by exact Hnd. rewrite socket_of_assign.
    destruct (decide (h = a)) as [->|Hne].
    + destruct (decide (a ∈ l)); [contradiction|].
      destruct (decide (a ∈ a :: l)) as [|Hn]; [reflexivity|].
      exfalso. apply Hn. left.
    + destruct (decide (h ∈ l)) as [Hin|Hnin].
      * destruct (decide (h ∈ a :: l)) as [|Hn]; [reflexivity|].
        exfalso. apply Hn. right. exact Hin.
      * destruct (decide (h ∈ a :: l)) as [Hin|]; [|reflexivity].
        exfalso. apply elem_of_cons in Hin as [?|?]; contradiction.
Qed.

Lemma heartbeat_run (s : Server) :
  NoDup (clients s) ->
  heartbeat s
  = (tt, foldl (fun s' h => assign h swept s') s (clients s),
     sweep_effect s <$> clients s).
Proof.
  intros Hnd. unfold heartbeat. rewrite bind_run.
  unfold value_of, state_of, trace_of, get. cbn [fst snd].
  rewrite forEach_heartbeat by exact Hnd. reflexivity.
Qed.

(** ** Closing a socket *)

Lemma on_close_registry (now : Z) (h : nat) (s : Server) :
  clients (state_of (on_close now h s)) = filter (fun c => c ≠ h) (clients s)
  ∧ nextSocket (state_of (on_close now h s)) = nextSocket s
  ∧ ∀ c, socket_of (state_of (on_close now h s)) c
         = if decide (c = h) then set_readyState CLOSED (socket_of s h)
           else socket_of s c.
Proof.
  handler_cases; (split; [reflexivity|]); (split; [reflexivity|]);
    intros c; sockets_after; reflexivity.
Qed.

Lemma members_drop_member (s : Server) (h : nat) (cid c : option string) :
  members (drop_member h cid s) c
  = if decide (c = cid) then unsubscribe h (members s cid) else members s c.
Proof.
  unfold members, drop_member, set_channels. cbn.
  destruct (channels s !! cid) as [l|] eqn:Hl.
  - destruct (decide (c = cid)) as [->|Hne].
    + rewrite lookup_insert_eq. reflexivity.
    + rewrite lookup_insert_ne by congruence. reflexivity.
  - destruct (decide (c = cid)) as [->|Hne]; [|reflexivity].
    rewrite Hl. reflexivity.
Qed.

(** The [close] callback in one equation. *)
Lemma on_close_run (now : Z) (h : nat) (s : Server) :
  let w := socket_of s h in
  let s1 := set_clients (filter (fun c => c ≠ h))
              (assign h (set_readyState CLOSED) s) in
  let s2 := drop_member h (channelId w) s1 in
  let leave :=
    {| nm_type := "system"; nm_senderId := stored_identity w;
       nm_content := Some (JS.template (username w) +:+ " has left the channel");
       nm_attachments := None |} in
  let saved := Store.addMessageToChannel now (channelId w) leave (storage s) in
  on_close now h s
  = (tt,
     (if JS.truthy_str (channelId w) && JS.truthy_str (username w)
      then set_storage saved.2 s2 else s1),
     (if JS.truthy_str (empId w) || JS.truthy_num (userId w)
      then deliver s1 (offline_frame now w) (clients s1) else [])
     ++ (if JS.truthy_str (channelId w) && JS.truthy_str (username w)
         then deliver s2
                (FSystem (channelId w)
                   (JS.template (username w) +:+ " has left the channel") now)
                (members s2 (channelId w))
              ++ [StoreMessage (channelId w) leave saved.1]
         else [])).
Proof.
  unfold on_close, handle_close. run_handler.
  rewrite socket_of_set_clients, socket_of_assign.
  destruct (decide (h = h)); [|congruence]. cbn.
  destruct (JS.truthy_str (empId (socket_of s h))
            || JS.truthy_num (userId (socket_of s h)));
    destruct (JS.truthy_str (channelId (socket_of s h))
              && JS.truthy_str (username (socket_of s h)));
    cbn; rewrite ?app_nil_r; reflexivity.
Qed.

Lemma on_close_members (now : Z) (h : nat) (s : Server) (c : option string) :
  members (state_of (on_close now h s)) c
  = if JS.truthy_str (channelId (socket_of s h))
       && JS.truthy_str (username (socket_of s h))
       && bool_decide (c = channelId (socket_of s h))
    then unsubscribe h (members s c)
    else members s c.
Proof.
  rewrite on_close_run. unfold state_of. cbn [fst snd].
  destruct (JS.truthy_str (channelId (socket_of s h))
            && JS.truthy_str (username (socket_of s h))); cbn [andb];
    [|reflexivity].
  change (members (set_storage ?st ?x) c) with (members x c).
  rewrite members_drop_member.
  destruct (decide (c = channelId (socket_of s h))) as [->|Hne].
  - rewrite bool_decide_eq_true_2 by reflexivity. reflexivity.
  - rewrite bool_decide_eq_false_2 by exact Hne. reflexivity.
Qed.

(** ** The state after one callback *)

Lemma step_state (now : Z) (ev : Event) (s : Server) :
  state_of (step now ev s)
  = match ev with
    | Connection => accept s
    | MessageEvent h data =>
        if registered s h then state_of (handle_message now h data s) else s
    | PongEvent h => if registered s h then assign h (set_isAlive true) s else s
    | CloseEvent h => if registered s h then state_of (on_close now h s) else s
    | HeartbeatTick => state_of (heartbeat s)
    | StorageOutage down => with_store (negb down) s
    end.
Proof.
  destruct ev; cbn [step]; try reflexivity;
    rewrite state_of_bind; unfold get, value_of, state_of at 2; cbn [fst snd];
    destruct (registered s h); try reflexivity.
  rewrite state_of_bind, test_listener_state. reflexivity.
Qed.

Lemma state_of_run_app (evs1 evs2 : list (Z * Event)) (s : Server) :
  state_of (run (evs1 ++ evs2) s) = state_of (run evs2 (state_of (run evs1 s))).
Proof.
  revert s. induction evs1 as [|[now ev] evs1 IH]; intros s; [reflexivity|].
  cbn [run app]. rewrite !state_of_bind. apply IH.
Qed.

Lemma trace_of_run_app (evs1 evs2 : list (Z * Event)) (s : Server) :
  trace_of (run (evs1 ++ evs2) s)
  = trace_of (run evs1 s) ++ trace_of (run evs2 (state_of (run evs1 s))).
Proof.
  revert s. induction evs1 as [|[now ev] evs1 IH]; intros s; [reflexivity|].
  cbn [run app]. rewrite !trace_of_bind, !state_of_bind, IH, app_assoc.
  reflexivity.
Qed.

Lemma run_one (now : Z) (ev : Event) (s : Server) :
  state_of (run [(now, ev)] s) = state_of (step now ev s)
  ∧ trace_of (run [(now, ev)] s) = trace_of (step now ev s).
Proof.
  cbn [run]. rewrite state_of_bind, trace_of_bind. split; [reflexivity|].
  apply app_nil_r.
Qed.

(** [wss.clients] stays a set of handles below the next one. *)
Lemma step_wf (now : Z) (ev : Event) (s : Server) :
  wf s -> wf (state_of (step now ev s)).
Proof.
  intros [Hnd Hlt]. rewrite step_state. destruct ev.
  - split.
    + unfold accept. cbn. apply NoDup_app. split; [exact Hnd|].
      split; [|apply NoDup_singleton].
      intros h Hh Hin. apply list_elem_of_singleton in Hin. subst h.
      apply Hlt in Hh. lia.
    + unfold accept. cbn. intros h Hh. apply elem_of_app in Hh as [Hh|Hh].
      * apply Hlt in Hh. lia.
      * apply list_elem_of_singleton in Hh. subst h. lia.
  - destruct (registered s h); [|split; assumption].
    destruct (message_clients now h data s) as [Hc Hn].
    unfold wf. rewrite Hc, Hn. split; assumption.
  - destruct (registered s h); split; assumption.
  - destruct (registered s h); [|split; assumption].
    destruct (on_close_registry now h s) as (Hc & Hn & _).
    unfold wf. rewrite Hc, Hn. split.
    + apply NoDup_filter. exact Hnd.
    + intros c Hin. apply list_elem_of_filter in Hin as [_ Hin]. auto.
  - rewrite heartbeat_run by exact Hnd. unfold state_of. cbn [fst snd].
    destruct (sweep_frame (clients s) s) as (Hc & Hn & _).
    unfold wf. rewrite Hc, Hn. split; assumption.
  - split; assumption.
Qed.

Lemma run_wf (evs : list (Z * Event)) (s : Server) :
  wf s -> wf (state_of (run evs s)).
Proof.
  revert s. induction evs as [|[now ev] evs IH]; intros s Hwf; [exact Hwf|].
  cbn [run]. rewrite state_of_bind. apply IH, step_wf, Hwf.
Qed.

Lemma init_wf (st : Storage) : wf (init st).
Proof. split; [constructor | intros h Hh; inversion Hh]. Qed.

(** A socket whose flag is down stays registered, with its flag down, until
    it answers, closes, or is swept. *)
Lemma step_keeps_unanswered (now : Z) (ev : Event) (s : Server) (h : nat) :
  wf s ->
  h ∈ clients s ->
  isAlive (socket_of s h) = false ->
  ev ≠ PongEvent h -> ev ≠ CloseEvent h -> ev ≠ HeartbeatTick ->
  h ∈ clients (state_of (step now ev s))
  ∧ isAlive (socket_of (state_of (step now ev s)) h) = false.
Proof.
  intros [Hnd Hlt] Hin Hdead Hp Hc Hb. rewrite step_state.
  destruct ev as [|h' data|h'|h'| |down]; try congruence.
  - split; [unfold accept; cbn; apply elem_of_app; left; exact Hin|].
    rewrite socket_of_accept. destruct (decide (h = nextSocket s)) as [->|];
      [apply Hlt in Hin; lia | exact Hdead].
  - destruct (registered s h'); [|split; assumption].
    destruct (message_clients now h' data s) as [Hcl _].
    destruct (message_liveness now h' data s h) as [Ha _].
    rewrite Hcl, Ha. split; assumption.
  - destruct (registered s h'); [|split; assumption].
    split; [exact Hin|]. rewrite socket_of_assign.
    destruct (decide (h = h')); [congruence | exact Hdead].
  - destruct (registered s h'); [|split; assumption].
    destruct (on_close_registry now h' s) as (Hcl & _ & Hs).
    rewrite Hcl, Hs. split.
    + apply list_elem_of_filter. split; [congruence | exact Hin].
    + destruct (decide (h = h')); [congruence | exact Hdead].
  - split; assumption.
Qed.

Lemma run_keeps_unanswered (evs : list (Z * Event)) (s : Server) (h : nat) :
  wf s ->
  h ∈ clients s ->
  isAlive (socket_of s h) = false ->
  unanswered h evs ->
  h ∈ clients (state_of (run evs s))
  ∧ isAlive (socket_of (state_of (run evs s)) h) = false.
Proof.
  revert s. induction evs as [|[now ev] evs IH]; intros s Hwf Hin Hdead Hun;
    [split; assumption|].
  apply Forall_cons in Hun as [(Hp & Hc & Hb) Hun]. cbn in Hp, Hc, Hb.
  cbn [run]. rewrite state_of_bind.
  destruct (step_keeps_unanswered now ev s h Hwf Hin Hdead Hp Hc Hb) as [Hin' Hd'].
  apply IH; [apply step_wf, Hwf | exact Hin' | exact Hd' | exact Hun].
Qed.

(** ** Liveness: sweep, pong, termination, offline announcement *)

Lemma swept_not_alive (w : ExtendedWebSocket) : isAlive (swept w) = false.
Proof. unfold swept. destruct (isAlive w) eqn:Ha; [reflexivity | exact Ha]. Qed.

Lemma deliver_not_presence_system (s : Server) (cid : option string)
    (content : string) (now : Z) (l : list nat) :
  Forall (fun e => ¬ is_presence e) (deliver s (FSystem cid content now) l).
Proof.
  unfold deliver. apply Forall_fmap, Forall_forall. intros c _ H. exact H.
Qed.

(** The offline announcement made by the [close] callback. *)
Lemma close_announces (now : Z) (h : nat) (s : Server) :
  registered s h = true ->
  let w := socket_of s h in
  let t := trace_of (step now (CloseEvent h) s) in
  if JS.truthy_str (empId w) || JS.truthy_num (userId w)
  then ∃ rest,
         t = deliver s (offline_frame now w)
               (filter (fun c => c ≠ h) (clients s)) ++ rest
         ∧ Forall (fun e => ¬ is_presence e) rest
  else Forall (fun e => ¬ is_presence e) t.
Proof.
  intros Hreg w t. subst t. cbn [step]. rewrite trace_of_bind.
  unfold get, value_of, state_of, trace_of at 1. cbn [fst snd].
  rewrite Hreg, on_close_run. unfold trace_of. cbn [fst snd app].
  fold w.
  set (s1 := set_clients _ _).
  assert (Hrest : Forall (fun e => ¬ is_presence e)
    (if JS.truthy_str (channelId w) && JS.truthy_str (username w)
     then deliver (drop_member h (channelId w) s1)
            (FSystem (channelId w)
               (JS.template (username w) +:+ " has left the channel") now)
            (members (drop_member h (channelId w) s1) (channelId w))
          ++ [StoreMessage (channelId w)
                {| nm_type := "system"; nm_senderId := stored_identity w;
                   nm_content :=
                     Some (JS.template (username w) +:+ " has left the channel");
                   nm_attachments := None |}
                (Store.addMessageToChannel now (channelId w)
                   {| nm_type := "system"; nm_senderId := stored_identity w;
                      nm_content :=
                        Some (JS.template (username w)
                              +:+ " has left the channel");
                      nm_attachments := None |} (storage s)).1]
     else [])).
  { destruct (JS.truthy_str (channelId w) && JS.truthy_str (username w));
      [|constructor].
    apply Forall_app. split; [apply deliver_not_presence_system|].
    constructor; [|constructor]. intros H. exact H. }
  destruct (JS.truthy_str (empId w) || JS.truthy_num (userId w)).
  - eexists. split; [|exact Hrest]. f_equal.
    unfold deliver. f_equal. subst s1.
    change (clients (set_clients (filter (fun c => c ≠ h))
                       (assign h (set_readyState CLOSED) s)))
      with (filter (fun c => c ≠ h) (clients s)).
    rewrite !list_filter_filter. apply list_filter_iff. intros c.
    unfold is_open. rewrite socket_of_set_clients, socket_of_assign.
    destruct (decide (c = h)); [|reflexivity]. split; intros [_ ?]; contradiction.
  - exact Hrest.
Qed.

(** At the explicit input of a connection that never identified itself and
    is terminated by the sweep, the [close] callback announces nothing: the
    other, open connection receives no frame. *)
Lemma anonymous_termination_is_silent :
  registered anonymous_terminated 1%nat = true
  ∧ readyState (socket_of anonymous_terminated 1%nat) = CLOSING
  ∧ registered anonymous_terminated 0%nat = true
  ∧ is_open anonymous_terminated 0%nat = true
  ∧ trace_of (step 60001 (CloseEvent 1%nat) anonymous_terminated) = [].
Proof. repeat split; vm_compute; reflexivity. Qed.

(** ** Member lists *)

Lemma members_set_storage st s c : members (set_storage st s) c = members s c.
Proof. reflexivity. Qed.
Lemma members_assign h g s c : members (assign h g s) c = members s c.
Proof. reflexivity. Qed.
Lemma members_set_clients f s c : members (set_clients f s) c = members s c.
Proof. reflexivity. Qed.

Lemma message_members (now : Z) (ws : nat) (data : Inbound) (s : Server)
    (c : option string) :
  members (state_of (handle_message now ws data s)) c
  = match data with
    | InJoin cid _ _ =>
        if decide (c = cid) then members s cid ++ [ws] else members s c
    | _ => members s c
    end.
Proof.
  destruct data; cbn [handle_message]; handler_cases;
    rewrite ?members_set_storage, ?members_push_member, ?members_assign;
    repeat case_decide; (congruence || reflexivity).
Qed.

Lemma message_channelId (now : Z) (ws : nat) (data : Inbound) (s : Server)
    (h : nat) :
  channelId (socket_of (state_of (handle_message now ws data s)) h)
  = match data with
    | InJoin cid _ _ =>
        if decide (h = ws) then cid else channelId (socket_of s h)
    | _ => channelId (socket_of s h)
    end.
Proof.
  destruct data; cbn [handle_message]; handler_cases; sockets_after;
    repeat case_decide; subst; first [reflexivity | congruence].
Qed.

Lemma entries_app (h : nat) (l1 l2 : list nat) :
  entries h (l1 ++ l2) = (entries h l1 + entries h l2)%nat.
Proof. unfold entries. rewrite filter_app, length_app. reflexivity. Qed.

Lemma entries_elem_of (h : nat) (l : list nat) :
  (0 < entries h l)%nat ↔ h ∈ l.
Proof.
  unfold entries. split.
  - intros Hlen. destruct (filter (fun c => c = h) l) as [|x l'] eqn:Hf;
      [cbn in Hlen; lia|].
    assert (Hx : x ∈ filter (fun c => c = h) l) by (rewrite Hf; left).
    apply list_elem_of_filter in Hx as [-> Hx]. exact Hx.
  - intros Hin.
    assert (Hx : h ∈ filter (fun c => c = h) l)
      by (apply list_elem_of_filter; auto).
    destruct (filter (fun c => c = h) l); [inversion Hx | cbn; lia].
Qed.

(** ** Joining twice *)

(** C8. Joining is not idempotent: for every registered, open connection and
    every channel, two [join] events for the same channel in a row append two
    entries for the connection to that channel's member list, so a broadcast
    to the channel afterwards delivers the same frame to that connection two
    more times than before the joins (twice when it was not a member). *)
Theorem join_is_not_idempotent (t1 t2 : Z) (ws : nat) (s : Server)
    (cid p1 n1 p2 n2 : option string) :
  registered s ws = true ->
  is_open s ws = true ->
  let s2 :=
    state_of
      (run [(t1, MessageEvent ws (InJoin cid p1 n1));
            (t2, MessageEvent ws (InJoin cid p2 n2))] s) in
  members s2 cid = members s cid ++ [ws; ws]
  ∧ ∀ data,
      received ws (trace_of (broadcast cid data s2))
      = replicate
          (entries ws (filter (fun c => is_open s c) (members s cid)) + 2) data.
Proof.
  intros Hreg Hopen s2.
  set (s1 := state_of (step t1 (MessageEvent ws (InJoin cid p1 n1)) s)).
  assert (Hs2 : s2 = state_of (step t2 (MessageEvent ws (InJoin cid p2 n2)) s1)).
  { subst s2 s1. cbn [run]. rewrite !state_of_bind. reflexivity. }
  assert (Hs1 : s1 = state_of (handle_message t1 ws (InJoin cid p1 n1) s)).
  { subst s1. rewrite step_state, Hreg. reflexivity. }
  assert (Hreg1 : registered s1 ws = true).
  { unfold registered. rewrite Hs1.
    destruct (message_clients t1 ws (InJoin cid p1 n1) s) as [-> _]. exact Hreg. }
  assert (Hs2' : s2 = state_of (handle_message t2 ws (InJoin cid p2 n2) s1)).
  { rewrite Hs2, step_state, Hreg1. reflexivity. }
  assert (Hmem : members s2 cid = members s cid ++ [ws; ws]).
  { rewrite Hs2', message_members. destruct (decide (cid = cid)); [|congruence].
    rewrite Hs1, message_members. destruct (decide (cid = cid)); [|congruence].
    rewrite <- app_assoc. reflexivity. }
  split; [exact Hmem|].
  intros data. unfold broadcast, trace_of. cbn [snd].
  rewrite received_deliver, Hmem.
  assert (Hopen2 : ∀ c, is_open s2 c = is_open s c).
  { intros c. unfold is_open. rewrite Hs2'.
    destruct (message_liveness t2 ws (InJoin cid p2 n2) s1 c) as [_ ->].
    rewrite Hs1.
    destruct (message_liveness t1 ws (InJoin cid p1 n1) s c) as [_ ->].
    reflexivity. }
  f_equal. fold (entries ws (filter (fun c => is_open s2 c) (members s cid ++ [ws; ws]))).
  rewrite (list_filter_iff (fun c => is_open s2 c) (fun c => is_open s c))
    by (intros c; rewrite Hopen2; reflexivity).
  rewrite filter_app, entries_app. f_equal.
  assert (Hf : filter (fun c => is_open s c) [ws; ws] = [ws; ws]).
  { rewrite !filter_cons, Hopen. reflexivity. }
  rewrite Hf. unfold entries. rewrite !filter_cons_True by reflexivity.
  reflexivity.
Qed.

Lemma join_is_not_idempotent_witness :
  registered demo_server 1%nat = true
  ∧ is_open demo_server 1%nat = true
  ∧ ∀ data,
      received 1%nat
        (trace_of
           (broadcast (Some "WARD7") data
              (state_of
                 (run [(5, MessageEvent 1%nat (InJoin (Some "WARD7") None None));
                       (6, MessageEvent 1%nat (InJoin (Some "WARD7") None None))]
                    demo_server))))
      = [data; data].
Proof.
  assert (H1 : registered demo_server 1%nat = true) by (vm_compute; reflexivity).
  assert (H2 : is_open demo_server 1%nat = true) by (vm_compute; reflexivity).
  split; [exact H1|]. split; [exact H2|].
  intros data.
  destruct (join_is_not_idempotent 5 6 1%nat demo_server (Some "WARD7") None
              None None None H1 H2) as [_ Hrecv].
  rewrite Hrecv. reflexivity.
Defined.


(** ** Leaving a member list *)

Lemma unsubscribe_cons (h x : nat) (l : list nat) :
  unsubscribe h (x :: l) = if decide (x = h) then l else x :: unsubscribe h l.
Proof.
  unfold unsubscribe. cbn [indexOf]. destruct (decide (x = h)); [reflexivity|].
  destruct (indexOf h l); reflexivity.
Qed.

Lemma entries_cons (h x : nat) (l : list nat) :
  entries h (x :: l) = ((if decide (x = h) then 1 else 0) + entries h l)%nat.
Proof.
  unfold entries. rewrite filter_cons. destruct (decide (x = h)); reflexivity.
Qed.

(** [splice(index, 1)] removes one entry of the closing socket, the first,
    and no entry of any other socket. *)
Lemma entries_unsubscribe (h c : nat) (l : list nat) :
  entries c (unsubscribe h l)
  = if decide (c = h) then pred (entries h l) else entries c l.
Proof.
  induction l as [|x l IH].
  - cbn. destruct (decide (c = h)); reflexivity.
  - rewrite unsubscribe_cons. destruct (decide (x = h)) as [->|Hx].
    + rewrite !entries_cons. destruct (decide (c = h)) as [->|Hc].
      * destruct (decide (h = h)); [reflexivity | congruence].
      * destruct (decide (h = c)); [congruence | reflexivity].
    + rewrite !entries_cons, IH. destruct (decide (c = h)) as [->|Hc].
      * destruct (decide (x = h)); [congruence | reflexivity].
      * reflexivity.
Qed.

Lemma unsubscribe_others (h : nat) (l : list nat) :
  filter (fun c => c ≠ h) (unsubscribe h l) = filter (fun c => c ≠ h) l.
Proof.
  induction l as [|x l IH]; [reflexivity|].
  rewrite unsubscribe_cons. destruct (decide (x = h)) as [->|Hx].
  - rewrite filter_cons_False by (intros Hn; apply Hn; reflexivity). reflexivity.
  - rewrite !filter_cons_True by exact Hx. rewrite IH. reflexivity.
Qed.

(** ** A first channel is never left *)

Lemma forEach_heartbeat_state (l : list nat) (s : Server) :
  state_of (forEach l heartbeat_one s)
  = foldl (fun s' h => assign h swept s') s l.
Proof.
  revert s. induction l as [|a l IH]; intros s; [reflexivity|].
  cbn [forEach foldl]. rewrite state_of_bind, heartbeat_one_run.
  unfold state_of at 2. cbn [fst snd]. apply IH.
Qed.

Lemma heartbeat_state (s : Server) :
  state_of (heartbeat s) = foldl (fun s' h => assign h swept s') s (clients s).
Proof.
  unfold heartbeat. rewrite state_of_bind. apply forEach_heartbeat_state.
Qed.

Lemma sweep_channelId (l : list nat) (s : Server) (h : nat) :
  channelId (socket_of (foldl (fun s' c => assign c swept s') s l) h)
  = channelId (socket_of s h).
Proof.
  revert s. induction l as [|a l IH]; intros s; [reflexivity|].
  cbn [foldl]. rewrite IH, socket_of_assign.
  destruct (decide (h = a)) as [->|]; [|reflexivity].
  unfold swept. destruct (isAlive (socket_of s a)); reflexivity.
Qed.

Lemma step_holds_entry (now : Z) (ev : Event) (ws : nat) (A : option string)
    (s : Server) :
  holds_entry ws A s -> holds_entry ws A (state_of (step now ev s)).
Proof.
  unfold holds_entry. intros Hinv. rewrite step_state.
  destruct ev as [|h data|h|h| |down].
  - (* a new socket: were it [ws], it has no channel *)
    change (members (accept s) A) with (members s A).
    rewrite socket_of_accept.
    destruct (decide (ws = nextSocket s)) as [Heq|Hne].
    + destruct (JS.truthy_str A) eqn:HA; [|rewrite andb_false_r; cbn; lia].
      assert (HnA : fresh_socket.(channelId) ≠ A).
      { intros <-. discriminate. }
      rewrite (bool_decide_eq_false_2 _ HnA), andb_false_r.
      destruct (registered s ws && true && _); lia.
    + assert (Hr : registered (accept s) ws = registered s ws).
      { unfold registered, accept. cbn. apply bool_decide_ext.
        rewrite elem_of_app, list_elem_of_singleton. intuition congruence. }
      rewrite Hr. exact Hinv.
  - destruct (registered s h) eqn:Hreg; [|exact Hinv].
    assert (Hr : registered (state_of (handle_message now h data s)) ws
                 = registered s ws).
    { unfold registered.
      destruct (message_clients now h data s) as [-> _]. reflexivity. }
    rewrite Hr, message_members, message_channelId.
    destruct data; try exact Hinv.
    destruct (decide (A = cid)) as [->|HA].
    + rewrite entries_app. unfold entries at 2. rewrite filter_cons.
      destruct (decide (h = ws)) as [->|Hh].
      * destruct (decide (ws = ws)); [|congruence]. cbn [length].
        destruct (registered s ws && JS.truthy_str cid && _);
          destruct (registered s ws && JS.truthy_str cid && _); lia.
      * destruct (decide (ws = h)); [congruence|]. cbn [length filter].
        rewrite Nat.add_0_r. exact Hinv.
    + destruct (decide (ws = h)) as [->|Hh]; [|exact Hinv].
      rewrite (bool_decide_eq_false_2 (cid = A)) by congruence.
      rewrite andb_false_r.
      destruct (registered s h && JS.truthy_str A && _); lia.
  - destruct (registered s h); [|exact Hinv].
    rewrite members_assign, socket_of_assign.
    assert (Hr : registered (assign h (set_isAlive true) s) ws = registered s ws)
      by reflexivity.
    rewrite Hr. destruct (decide (ws = h)) as [->|]; exact Hinv.
  - destruct (registered s h) eqn:Hreg; [|exact Hinv].
    destruct (on_close_registry now h s) as (Hcl & _ & Hsock).
    rewrite on_close_members, Hsock.
    unfold registered at 1. rewrite Hcl.
    destruct (decide (ws = h)) as [->|Hne].
    + (* the socket itself closes: it is no longer registered *)
      rewrite (bool_decide_eq_false_2 (h ∈ filter (fun c => c ≠ h) (clients s)))
        by (intros Hin; apply list_elem_of_filter in Hin as [Hn _]; congruence).
      cbn [andb].
      rewrite Hreg in Hinv. cbn [andb] in Hinv.
      destruct (JS.truthy_str (channelId (socket_of s h))
                && JS.truthy_str (username (socket_of s h))
                && bool_decide (A = channelId (socket_of s h))) eqn:Hdrop.
      * apply andb_true_iff in Hdrop as [Hdrop HA].
        apply andb_true_iff in Hdrop as [Hc _].
        apply bool_decide_eq_true in HA. subst A.
        rewrite Hc, bool_decide_eq_true_2 in Hinv by reflexivity.
        rewrite entries_unsubscribe. cbn [andb] in *.
        destruct (decide (h = h)); [lia | congruence].
      * destruct (JS.truthy_str A && _); lia.
    + (* another socket closes: the entries of [ws] are not touched *)
      assert (Hr : bool_decide (ws ∈ filter (fun c => c ≠ h) (clients s))
                   = registered s ws).
      { unfold registered. apply bool_decide_ext.
        rewrite list_elem_of_filter. intuition. }
      rewrite Hr.
      destruct (JS.truthy_str (channelId (socket_of s h))
                && JS.truthy_str (username (socket_of s h))
                && bool_decide (A = channelId (socket_of s h))); [|exact Hinv].
      rewrite entries_unsubscribe.
      destruct (decide (ws = h)); [congruence | exact Hinv].
  - rewrite heartbeat_state.
    destruct (sweep_frame (clients s) s) as (Hcl & _ & Hch & _).
    unfold members, registered. rewrite Hcl, Hch, sweep_channelId. exact Hinv.
  - exact Hinv.
Qed.

Lemma run_holds_entry (evs : list (Z * Event)) (ws : nat) (A : option string)
    (s : Server) :
  holds_entry ws A s -> holds_entry ws A (state_of (run evs s)).
Proof.
  revert s. induction evs as [|[now ev] evs IH]; intros s Hinv; [exact Hinv|].
  cbn [run]. rewrite state_of_bind. apply IH, step_holds_entry, Hinv.
Qed.

(** C10. A connection has one [channelId] property; joining a second channel
    overwrites it and leaves the connection's entry in the first channel's
    member list. On disconnect only the list of the channel joined last can
    lose an entry. So for every registered connection that joins channel A
    and then another channel B, A's member list keeps an entry for it after
    every later run of events, its own close included, and every broadcast
    to A made while the socket is open sends it the frame. *)
Theorem first_channel_entry_persists (t1 t2 : Z) (ws : nat) (s : Server)
    (A B p1 n1 p2 n2 : option string) :
  registered s ws = true ->
  A ≠ B ->
  let s2 :=
    state_of
      (run [(t1, MessageEvent ws (InJoin A p1 n1));
            (t2, MessageEvent ws (InJoin B p2 n2))] s) in
  channelId (socket_of s2 ws) = B
  ∧ members s2 A = members s A ++ [ws]
  ∧ (∀ now,
       members (state_of (step now (CloseEvent ws) s2)) A = members s2 A
       ∧ members (state_of (step now (CloseEvent ws) s2)) B
         = if JS.truthy_str B && JS.truthy_str (username (socket_of s2 ws))
           then unsubscribe ws (members s2 B)
           else members s2 B)
  ∧ (∀ evs, ws ∈ members (state_of (run evs s2)) A)
  ∧ (∀ evs data,
       is_open (state_of (run evs s2)) ws = true →
       Send ws data ∈ trace_of (broadcast A data (state_of (run evs s2)))).
Proof.
  intros Hreg HAB s2.
  set (s1 := state_of (handle_message t1 ws (InJoin A p1 n1) s)).
  assert (Hreg1 : registered s1 ws = true).
  { unfold registered. subst s1.
    destruct (message_clients t1 ws (InJoin A p1 n1) s) as [-> _]. exact Hreg. }
  assert (Hs2 : s2 = state_of (handle_message t2 ws (InJoin B p2 n2) s1)).
  { subst s2. cbn [run]. rewrite !state_of_bind.
    unfold skip, mret, M_ret. unfold state_of at 1. cbn [fst snd].
    rewrite (step_state t1), Hreg. rewrite (step_state t2).
    fold s1. rewrite Hreg1. reflexivity. }
  assert (Hreg2 : registered s2 ws = true).
  { unfold registered. rewrite Hs2.
    destruct (message_clients t2 ws (InJoin B p2 n2) s1) as [-> _]. exact Hreg1. }
  assert (Hcid : channelId (socket_of s2 ws) = B).
  { rewrite Hs2, message_channelId.
    destruct (decide (ws = ws)); [reflexivity | congruence]. }
  assert (Hmem : members s2 A = members s A ++ [ws]).
  { rewrite Hs2, message_members. destruct (decide (A = B)); [congruence|].
    subst s1. rewrite message_members.
    destruct (decide (A = A)); [reflexivity | congruence]. }
  assert (Hinv : holds_entry ws A s2).
  { unfold holds_entry. rewrite Hmem, entries_app, Hcid.
    rewrite (bool_decide_eq_false_2 (B = A)) by congruence.
    rewrite andb_false_r. unfold entries at 2. rewrite filter_cons.
    destruct (decide (ws = ws)); [cbn; lia | congruence]. }
  assert (Hkeeps : ∀ evs, ws ∈ members (state_of (run evs s2)) A).
  { intros evs. apply entries_elem_of.
    pose proof (run_holds_entry evs ws A s2 Hinv) as H. unfold holds_entry in H.
    lia. }
  split; [exact Hcid|]. split; [exact Hmem|].
  split.
  { intros now. rewrite step_state, Hreg2, !on_close_members, Hcid.
    rewrite (bool_decide_eq_false_2 (A = B)) by exact HAB.
    rewrite andb_false_r, bool_decide_eq_true_2 by reflexivity.
    rewrite andb_true_r. split; reflexivity. }
  split; [exact Hkeeps|].
  intros evs data Hopen. unfold broadcast, trace_of. cbn [snd].
  unfold deliver. apply list_elem_of_fmap. exists ws. split; [reflexivity|].
  apply list_elem_of_filter. split; [rewrite Hopen; exact I | apply Hkeeps].
Qed.

Lemma first_channel_entry_persists_witness :
  registered two_users 1%nat = true
  ∧ Some "CASE1" ≠ Some "WARD7"
  ∧ 1%nat
    ∈ members
        (state_of
           (run [(9, MessageEvent 0%nat
                       (InMessage (Some "CASE1") (Some "hello") None));
                 (10, CloseEvent 1%nat)]
              (state_of
                 (run [(7, MessageEvent 1%nat (InJoin (Some "CASE1") None None));
                       (8, MessageEvent 1%nat (InJoin (Some "WARD7") None None))]
                    two_users))))
        (Some "CASE1").
Proof.
  assert (H1 : registered two_users 1%nat = true) by (vm_compute; reflexivity).
  assert (H2 : Some "CASE1" ≠ Some "WARD7") by discriminate.
  split; [exact H1|]. split; [exact H2|].
  destruct (first_channel_entry_persists 7 8 1%nat two_users (Some "CASE1")
              (Some "WARD7") None None None None H1 H2)
    as (_ & _ & _ & Hkeeps & _).
  apply Hkeeps.
Defined.

(** ** Closing: what is cleaned up *)

(** At the explicit input of a connection that joined a channel without ever
    sending [auth]: closing it sends nothing and leaves its entry in the
    channel's member list. *)
Lemma close_of_anonymous_member_cleans_nothing :
  registered anonymous_member 1%nat = true
  ∧ channelId (socket_of anonymous_member 1%nat) = Some "CASE1"
  ∧ members anonymous_member (Some "CASE1") = [0%nat; 1%nat]
  ∧ is_open anonymous_member 0%nat = true
  ∧ trace_of (step 9 (CloseEvent 1%nat) anonymous_member) = []
  ∧ members (state_of (step 9 (CloseEvent 1%nat) anonymous_member))
      (Some "CASE1")
    = [0%nat; 1%nat].
Proof. repeat split; vm_compute; reflexivity. Qed.

(** C9 (amended). For every registered connection, the [close] event
    unregisters it and, as side effects of the same callback: when the
    connection has a bound identity ([empId] or legacy id), an [offline]
    presence frame with [lastSeen] is sent to every other registered open
    connection, and otherwise no presence frame is sent; when the connection
    has a current [channelId] and a bound [username], the member list of
    that channel loses one entry of the connection (the first) and no entry
    of any other connection; every other member list is left as it was. *)
Theorem close_side_effects (now : Z) (h : nat) (s : Server) :
  registered s h = true ->
  let w := socket_of s h in
  let r := step now (CloseEvent h) s in
  clients (state_of r) = filter (fun c => c ≠ h) (clients s)
  ∧ registered (state_of r) h = false
  ∧ readyState (socket_of (state_of r) h) = CLOSED
  ∧ (∀ c, members (state_of r) c
          = if JS.truthy_str (channelId w) && JS.truthy_str (username w)
               && bool_decide (c = channelId w)
            then unsubscribe h (members s c)
            else members s c)
  ∧ (∀ l, entries h (unsubscribe h l) = pred (entries h l)
          ∧ filter (fun c => c ≠ h) (unsubscribe h l)
            = filter (fun c => c ≠ h) l)
  ∧ (if JS.truthy_str (empId w) || JS.truthy_num (userId w)
     then ∃ rest,
            trace_of r
            = deliver s (offline_frame now w)
                (filter (fun c => c ≠ h) (clients s)) ++ rest
            ∧ Forall (fun e => ¬ is_presence e) rest
     else Forall (fun e => ¬ is_presence e) (trace_of r)).
Proof.
  intros Hreg w r.
  assert (Hst : state_of r = state_of (on_close now h s)).
  { subst r. rewrite step_state, Hreg. reflexivity. }
  destruct (on_close_registry now h s) as (Hcl & _ & Hsock).
  rewrite Hst.
  split; [exact Hcl|].
  split.
  { unfold registered. rewrite Hcl. apply bool_decide_eq_false_2.
    intros Hin. apply list_elem_of_filter in Hin as [Hn _]. congruence. }
  split.
  { rewrite Hsock. destruct (decide (h = h)); [reflexivity | congruence]. }
  split; [intros c; apply on_close_members|].
  split.
  { intros l. split; [|apply unsubscribe_others].
    rewrite entries_unsubscribe. destruct (decide (h = h)); [reflexivity | congruence]. }
  apply close_announces, Hreg.
Qed.

Lemma close_side_effects_witness :
  registered two_users 1%nat = true
  ∧ members two_users (Some "CASE1") = [0%nat; 1%nat]
  ∧ members (state_of (step 9 (CloseEvent 1%nat) two_users)) (Some "CASE1")
    = [0%nat].
Proof.
  assert (H1 : registered two_users 1%nat = true) by (vm_compute; reflexivity).
  split; [exact H1|]. split; [vm_compute; reflexivity|].
  destruct (close_side_effects 9 1%nat two_users H1) as (_ & _ & _ & Hmem & _).
  rewrite Hmem. vm_compute. reflexivity.
Defined.

(** ** The bound identity *)

Lemma truthy_num_Some (o : option Z) :
  JS.truthy_num o = true -> ∃ n, o = Some n ∧ JS.truthy_num (Some n) = true.
Proof. destruct o as [n|]; [eauto | discriminate]. Qed.

(** The two spellings of the sender agree on an identified socket. *)
Lemma stored_identity_identified (w : ExtendedWebSocket) :
  unidentified w = false -> stored_identity w = Some (identity w).
Proof.
  unfold unidentified, stored_identity, identity, JS.or_str, JS.or_lit.
  intros Hid. destruct (empId w) as [e|] eqn:He; cbn in *.
  - destruct (String.eqb e EmptyString); cbn in *; [|reflexivity].
    apply negb_false_iff, truthy_num_Some in Hid as (n & -> & Hn).
    cbn in *. rewrite Hn. reflexivity.
  - apply negb_false_iff, truthy_num_Some in Hid as (n & -> & Hn).
    cbn in *. rewrite Hn. reflexivity.
Qed.

(** The identity is the bound [empId], or else the stringified legacy id. *)
Lemma identity_bound (w : ExtendedWebSocket) :
  unidentified w = false ->
  if JS.truthy_str (empId w)
  then empId w = Some (identity w)
  else JS.truthy_num (userId w) = true
       ∧ JS.toString <$> userId w = Some (identity w).
Proof.
  intros Hid. pose proof (stored_identity_identified w Hid) as Hs.
  unfold stored_identity, JS.or_str in Hs. unfold unidentified in Hid.
  destruct (JS.truthy_str (empId w)); [exact Hs|].
  split; [|exact Hs]. destruct (JS.truthy_num (userId w)); [reflexivity|discriminate].
Qed.










(* ===================================================================== *)
(** * Further properties of the handlers *)

(** ** Status updates *)



(** ** Relaying to one connection *)

Lemma scan_clients_spec (s : Server) (wanted : string) :
  wanted ≠ EmptyString ->
  match scan_clients s wanted with
  | Some h =>
      matching s wanted h
      ∧ ∃ l1 l2, clients s = l1 ++ h :: l2
                 ∧ Forall (fun c => ¬ matching s wanted c) l2
  | None => ∀ h, ¬ matching s wanted h
  end.
Proof.
  intros Hw. unfold scan_clients.
  destruct (last (filter (fun h => matches s wanted h) (clients s)))
    as [h|] eqn:Hlast.
  - apply last_filter_Some in Hlast as (Hm & l1 & l2 & Hcl & Hall).
    assert (Hin : h ∈ clients s).
    { rewrite Hcl. apply elem_of_app. right. left. }
    split.
    + apply matches_matching; [exact Hw | exact Hin |].
      apply Is_true_true. exact Hm.
    + exists l1, l2. split; [exact Hcl|].
      apply Forall_forall. intros c Hc Hmc.
      rewrite Forall_forall in Hall. apply (Hall c Hc).
      apply Is_true_true, matches_matching; [exact Hw| |exact Hmc].
      destruct Hmc as (? & _). assumption.
  - intros h Hm. pose proof Hm as (Hin & _).
    apply (last_filter_None _ _ Hlast h Hin).
    apply Is_true_true, matches_matching; assumption.
Qed.

(** X2. A [callInvitationResponse] event that names an inviter is forwarded
    as one frame to the last registered open connection whose identity is the
    inviter's id, and to nobody else; when no registered open connection has
    that identity nothing is sent. The [responderId] of the frame is the
    sender's bound identity, not the one in the inbound frame, and the
    server state is unchanged. *)
Theorem callInvitationResponse_reaches_inviter (now : Z) (ws : nat)
    (s : Server)
    (cid callType responderId responderName response : option string)
    (inviter : string) :
  registered s ws = true ->
  inviter ≠ EmptyString ->
  let w := socket_of s ws in
  let responseMessage :=
    FCallInvitationResponse cid callType (identity w)
      (JS.or_lit (JS.or_str (username w) responderName) "Unknown User")
      response now in
  let r :=
    step now
      (MessageEvent ws
         (InCallInvitationResponse cid callType (Some inviter) responderId
            responderName response)) s in
  state_of r = s
  ∧ ((∃ h, matching s inviter h) →
     ∃ h l1 l2,
       matching s inviter h
       ∧ clients s = l1 ++ h :: l2
       ∧ Forall (fun c => ¬ matching s inviter c) l2
       ∧ trace_of r = [Send h responseMessage])
  ∧ ((∀ h, ¬ matching s inviter h) → trace_of r = []).
Proof.
  intros Hreg Hinv w responseMessage r.
  assert (Hrun : r = (tt, s,
            match scan_clients s inviter with
            | Some h => deliver s responseMessage [h]
            | None => []
            end)).
  { subst r. rewrite step_handle_message by (exact Hreg || discriminate).
    cbn [handle_message]. unfold handle_callInvitationResponse.
    assert (Ht : JS.truthy_str (Some inviter) = true)
      by (apply truthy_str_Some; exact Hinv).
    rewrite Ht. cbn [negb]. run_handler. fold w.
    destruct (scan_clients s inviter); reflexivity. }
  rewrite Hrun. cbn [state_of trace_of fst snd].
  split; [reflexivity|].
  pose proof (scan_clients_spec s inviter Hinv) as Hscan.
  destruct (scan_clients s inviter) as [h|].
  - destruct Hscan as (Hm & l1 & l2 & Hcl & Hall). split.
    + intros _. exists h, l1, l2. repeat (split; [assumption|]).
      apply deliver_open. destruct Hm as (_ & Ho & _).
      unfold is_open. rewrite Ho. reflexivity.
    + intros Hnone. exfalso. exact (Hnone h Hm).
  - split; [|reflexivity]. intros (h & Hm). exfalso. exact (Hscan h Hm).
Qed.

Lemma callInvitationResponse_reaches_inviter_witness :
  registered two_users 1%nat = true
  ∧ "e1" ≠ EmptyString
  ∧ ∃ h,
      matching two_users "e1" h
      ∧ trace_of
          (step 9
             (MessageEvent 1%nat
                (InCallInvitationResponse (Some "CASE1") (Some "voice")
                   (Some "e1") (Some "someone-else") None (Some "accept")))
             two_users)
        = [Send h
             (FCallInvitationResponse (Some "CASE1") (Some "voice") "n1234"
                "Nurse Lee" (Some "accept") 9)].
Proof.
  assert (H1 : registered two_users 1%nat = true) by (vm_compute; reflexivity).
  assert (H2 : "e1" ≠ EmptyString) by discriminate.
  split; [exact H1|]. split; [exact H2|].
  destruct (callInvitationResponse_reaches_inviter 9 1%nat two_users
              (Some "CASE1") (Some "voice") (Some "someone-else") None
              (Some "accept") "e1" H1 H2) as (_ & Hsome & _).
  destruct Hsome as (h & l1 & l2 & Hm & _ & _ & Ht).
  - exists 0%nat. split; [|split; [|left]]; vm_compute;
      [constructor | reflexivity | reflexivity].
  - exists h. split; [exact Hm | exact Ht].
Defined.

(** ** Call signals *)

Lemma unidentified_false_cases (w : ExtendedWebSocket) :
  unidentified w = false ->
  (∃ e, empId w = Some e ∧ e ≠ EmptyString ∧ identity w = e)
  ∨ (JS.truthy_str (empId w) = false
     ∧ ∃ n, userId w = Some n ∧ JS.truthy_num (Some n) = true
            ∧ identity w = JS.toString n).
Proof.
  intros Hid. pose proof (identity_bound w Hid) as Hb.
  destruct (JS.truthy_str (empId w)) eqn:He.
  - left. destruct (empId w) as [e|]; [|discriminate].
    exists e. split; [reflexivity|]. split; [apply truthy_str_Some, He|].
    congruence.
  - right. split; [reflexivity|]. destruct Hb as [Hn Hs].
    apply truthy_num_Some in Hn as (n & Hu & Hn). exists n.
    rewrite Hu in Hs |- *. cbn in Hs. repeat split; congruence.
Qed.

Lemma targeted_spec (s : Server) (targetUsers : list string) (h : nat) :
  targeted s targetUsers h
  = is_open s h && negb (unidentified (socket_of s h))
    && bool_decide (identity (socket_of s h) ∈ targetUsers).
Proof.
  unfold targeted. rewrite <- !andb_assoc. f_equal.
  destruct (unidentified (socket_of s h)) eqn:Hid.
  - unfold unidentified in Hid. apply andb_true_iff in Hid as [He Hu].
    apply negb_true_iff in He, Hu. unfold JS.or_str. rewrite He, Hu.
    reflexivity.
  - destruct (unidentified_false_cases _ Hid)
      as [(e & He & Hne & Hi)|(He & n & Hu & Hn & Hi)].
    + unfold JS.or_str. rewrite He, Hi.
      rewrite (proj2 (truthy_str_Some e) Hne). cbn [default negb andb].
      rewrite (proj2 (truthy_str_Some e) Hne). reflexivity.
    + unfold JS.or_str. rewrite He, Hu, Hn, Hi. cbn [fmap option_fmap option_map].
      rewrite (proj2 (truthy_str_Some _) (toString_nonempty n)). reflexivity.
Qed.

(** X3. A [callSignal] event from a registered connection with a bound
    identity and a channelId reaches, in member-list order, the open members
    of that channel; when the frame lists target users (a non-empty list)
    only the open members whose own bound identity is in the list. The
    frame's [callerId] is the sender's bound identity and the server state
    is unchanged. *)
Theorem callSignal_recipients (now : Z) (ws : nat) (s : Server)
    (cid callType action : option string)
    (targetUsers : option (list string)) :
  registered s ws = true ->
  unidentified (socket_of s ws) = false ->
  JS.truthy_str cid = true ->
  let w := socket_of s ws in
  let callMessage :=
    FCallSignal cid (identity w) (display_name w) callType action in
  let r :=
    step now (MessageEvent ws (InCallSignal cid callType action targetUsers))
      s in
  state_of r = s
  ∧ trace_of r
    = (fun h => Send h callMessage)
        <$> filter (signal_recipient s targetUsers) (members s cid).
Proof.
  intros Hreg Hid Hcid w callMessage r.
  subst r. rewrite step_handle_message by (exact Hreg || discriminate).
  cbn [handle_message]. unfold handle_callSignal. run_handler.
  rewrite Hid, Hcid. cbn.
  destruct (nonempty targetUsers) eqn:Hne; cbn.
  - split; [reflexivity|]. subst callMessage w. f_equal.
    apply list_filter_iff. intros h. rewrite targeted_spec.
    unfold signal_recipient. rewrite Hne.
    rewrite Is_true_true, !andb_true_iff, negb_true_iff, bool_decide_eq_true.
    intuition.
  - split; [reflexivity|]. unfold deliver. subst callMessage w. f_equal.
    apply list_filter_iff. intros h. unfold signal_recipient. rewrite Hne.
    rewrite Is_true_true. intuition discriminate.
Qed.

Lemma callSignal_recipients_witness :
  registered two_users 0%nat = true
  ∧ unidentified (socket_of two_users 0%nat) = false
  ∧ JS.truthy_str (Some "CASE1") = true
  ∧ trace_of
      (step 9
         (MessageEvent 0%nat
            (InCallSignal (Some "CASE1") (Some "video") (Some "start")
               (Some ["n1234"; "e777"])))
         two_users)
    = [Send 1%nat
         (FCallSignal (Some "CASE1") "e1" "Dr. Smith" (Some "video")
            (Some "start"))].
Proof.
  assert (H1 : registered two_users 0%nat = true) by (vm_compute; reflexivity).
  assert (H2 : unidentified (socket_of two_users 0%nat) = false)
    by (vm_compute; reflexivity).
  assert (H3 : JS.truthy_str (Some "CASE1") = true) by reflexivity.
  split; [exact H1|]. split; [exact H2|]. split; [exact H3|].
  destruct (callSignal_recipients 9 0%nat two_users (Some "CASE1")
              (Some "video") (Some "start") (Some ["n1234"; "e777"])
              H1 H2 H3) as [_ Ht].
  rewrite Ht. vm_compute. reflexivity.
Defined.

(** ** Presence *)

Lemma entries_NoDup (h : nat) (l : list nat) :
  NoDup l -> h ∈ l -> entries h l = 1%nat.
Proof.
  induction l as [|x l IH]; intros Hnd Hin; [inversion Hin|].
  apply NoDup_cons in Hnd as [Hx Hnd]. rewrite entries_cons.
  destruct (decide (x = h)) as [->|Hne].
  - assert (H0 : entries h l = 0%nat).
    { destruct (entries h l) eqn:He; [reflexivity|].
      exfalso. apply Hx, entries_elem_of. lia. }
    rewrite H0. reflexivity.
  - apply elem_of_cons in Hin as [->|Hin]; [congruence|].
    rewrite IH by assumption. reflexivity.
Qed.

Lemma received_broadcast_all (s : Server) (f : Frame) (h : nat) :
  NoDup (clients s) -> h ∈ clients s -> is_open s h = true ->
  received h (deliver s f (clients s)) = [f].
Proof.
  intros Hnd Hin Ho. rewrite received_deliver.
  fold (entries h (filter (fun c => is_open s c) (clients s))).
  rewrite entries_NoDup; [reflexivity | apply NoDup_filter, Hnd |].
  apply list_elem_of_filter. split; [rewrite Ho; exact I | exact Hin].
Qed.

(** X4. A [userStatus] event from a registered connection with a bound
    identity is sent to every registered open connection, whatever channels
    they are in, the sender included, each receiving it once. The frame
    carries the sender's bound identity and name, the reported status and
    in-call flag, the frame's timestamp when it has one and the clock
    otherwise, and a [lastSeen] exactly when the reported status is
    [offline]. The server state is unchanged. *)
Theorem userStatus_reaches_every_open_connection (now : Z) (ws : nat)
    (s : Server) (status : option string) (inCall : option bool)
    (timestamp : option Z) :
  wf s ->
  registered s ws = true ->
  unidentified (socket_of s ws) = false ->
  let w := socket_of s ws in
  let presence :=
    FUserStatus (Some (identity w)) (Some (display_name w)) status inCall
      (match timestamp with
       | Some t => if t =? 0 then now else t
       | None => now
       end)
      (if decide (status = Some "offline") then Some now else None) in
  let r := step now (MessageEvent ws (InUserStatus status inCall timestamp)) s in
  state_of r = s
  ∧ trace_of r = deliver s presence (clients s)
  ∧ (∀ h, h ∈ clients s → is_open s h = true →
          received h (trace_of r) = [presence])
  ∧ (∀ h, is_open s h = false → received h (trace_of r) = []).
Proof.
  intros [Hnd _] Hreg Hid w presence r.
  assert (Hrun : r = (tt, s, deliver s presence (clients s))).
  { subst r. rewrite step_handle_message by (exact Hreg || discriminate).
    cbn [handle_message]. unfold handle_userStatus. run_handler.
    rewrite Hid. cbn. subst presence w. do 3 f_equal.
    - destruct timestamp as [t|]; [|reflexivity]. cbn.
      destruct (t =? 0); reflexivity.
    - destruct (decide (status = Some "offline")) as [->|Hne].
      + reflexivity.
      + rewrite bool_decide_eq_false_2 by exact Hne. reflexivity. }
  rewrite Hrun. unfold state_of, trace_of. cbn [fst snd].
  split; [reflexivity|]. split; [reflexivity|]. split.
  - intros h Hin Ho. apply received_broadcast_all; assumption.
  - intros h Hc. rewrite received_deliver.
    destruct (filter (fun c => c = h)
                (filter (fun c => is_open s c) (clients s)))
      as [|x l'] eqn:Hf; [reflexivity|].
    exfalso.
    assert (Hx : x ∈ filter (fun c => c = h)
                       (filter (fun c => is_open s c) (clients s)))
      by (rewrite Hf; left).
    apply list_elem_of_filter in Hx as [-> Hx].
    apply list_elem_of_filter in Hx as [Ho _].
    rewrite Hc in Ho. exact Ho.
Qed.

Lemma userStatus_reaches_every_open_connection_witness :
  wf two_users
  ∧ registered two_users 1%nat = true
  ∧ unidentified (socket_of two_users 1%nat) = false
  ∧ received 0%nat
      (trace_of
         (step 9
            (MessageEvent 1%nat (InUserStatus (Some "offline") None None))
            two_users))
    = [FUserStatus (Some "n1234") (Some "Nurse Lee") (Some "offline") None 9
         (Some 9)].
Proof.
  assert (H0 : wf two_users).
  { split.
    - apply (bool_decide_unpack _). vm_compute. exact I.
    - apply Forall_forall. apply (bool_decide_unpack _). vm_compute. exact I. }
  assert (H1 : registered two_users 1%nat = true) by (vm_compute; reflexivity).
  assert (H2 : unidentified (socket_of two_users 1%nat) = false)
    by (vm_compute; reflexivity).
  split; [exact H0|]. split; [exact H1|]. split; [exact H2|].
  destruct (userStatus_reaches_every_open_connection 9 1%nat two_users
              (Some "offline") None None H0 H1 H2) as (_ & _ & Hrecv & _).
  rewrite (Hrecv 0%nat); [reflexivity | vm_compute; left | vm_compute; reflexivity].
Defined.

(** ** Binding and unbinding an identity *)

Lemma handler_ignores_unidentified (now : Z) (ws : nat) (s : Server)
    (data : Inbound) :
  unidentified (socket_of s ws) = true ->
  needs_identity data = true ->
  handle_message now ws data s = (tt, s, []).
Proof.
  intros Hun Hneeds.
  destruct data; try discriminate; cbn [handle_message]; unfold_handlers;
    run_handler; rewrite Hun; reflexivity.
Qed.

Lemma needs_identity_not_ping (data : Inbound) :
  needs_identity data = true -> data ≠ InPing.
Proof. intros H ->. discriminate. Qed.

Lemma step_auth (now : Z) (ws : nat) (s : Server) (emp : option string)
    (uid : option Z) (name : option string) :
  registered s ws = true ->
  let s' := assign ws (set_identity emp (JS.num_or_null uid) name) s in
  step now (MessageEvent ws (InAuth emp uid name)) s
  = (tt, s',
     if JS.truthy_str emp
     then deliver s (FUserStatus emp name (Some "online") (Some false) now None)
            (clients s)
     else []).
Proof.
  intros Hreg s'. rewrite step_handle_message by (exact Hreg || discriminate).
  cbn [handle_message]. unfold handle_auth. run_handler.
  rewrite socket_of_assign. destruct (decide (ws = ws)); [|congruence]. cbn.
  destruct (JS.truthy_str emp); [|reflexivity].
  cbn. f_equal. apply deliver_ext. intros h. apply readyState_assign.
  reflexivity.
Qed.

Lemma run_two (t1 t2 : Z) (e1 e2 : Event) (s : Server) :
  trace_of (run [(t1, e1); (t2, e2)] s)
  = trace_of (step t1 e1 s)
    ++ trace_of (step t2 e2 (state_of (step t1 e1 s)))
  ∧ state_of (run [(t1, e1); (t2, e2)] s)
    = state_of (step t2 e2 (state_of (step t1 e1 s))).
Proof.
  change [(t1, e1); (t2, e2)] with ([(t1, e1)] ++ [(t2, e2)]).
  rewrite trace_of_run_app, state_of_run_app.
  destruct (run_one t1 e1 s) as [-> ->].
  destruct (run_one t2 e2 (state_of (step t1 e1 s))) as [-> ->].
  split; reflexivity.
Qed.

(** X5. An [auth] frame that carries neither an [empId] nor a legacy id clears
    whatever identity the connection had bound, and no frame tells anyone:
    afterwards the connection's [message], [attachment], [statusUpdate],
    [userStatus] and [callSignal] events are dropped without a trace. *)
Theorem auth_without_id_unbinds (now : Z) (ws : nat) (s : Server)
    (emp : option string) (uid : option Z) (name : option string) :
  registered s ws = true ->
  JS.truthy_str emp = false ->
  JS.truthy_num uid = false ->
  let r := step now (MessageEvent ws (InAuth emp uid name)) s in
  trace_of r = []
  ∧ unidentified (socket_of (state_of r) ws) = true
  ∧ ∀ now' data,
      needs_identity data = true →
      step now' (MessageEvent ws data) (state_of r) = (tt, state_of r, []).
Proof.
  intros Hreg Hemp Huid r. subst r. rewrite step_auth by exact Hreg.
  rewrite Hemp. unfold state_of, trace_of. cbn [fst snd].
  assert (Hun : unidentified
                  (socket_of
                     (assign ws (set_identity emp (JS.num_or_null uid) name) s)
                     ws) = true).
  { rewrite socket_of_assign. destruct (decide (ws = ws)); [|congruence].
    unfold unidentified, set_identity, JS.num_or_null. cbn.
    rewrite Hemp, Huid. reflexivity. }
  split; [reflexivity|]. split; [exact Hun|].
  intros now' data Hneeds.
  rewrite step_handle_message;
    [apply handler_ignores_unidentified; assumption
    | exact Hreg | apply needs_identity_not_ping, Hneeds].
Qed.

Lemma auth_without_id_unbinds_witness :
  registered two_users 0%nat = true
  ∧ JS.truthy_str None = false
  ∧ JS.truthy_num (Some 0) = false
  ∧ unidentified (socket_of two_users 0%nat) = false
  ∧ trace_of
      (run [(9, MessageEvent 0%nat (InAuth None (Some 0) (Some "Dr. Smith")));
            (10, MessageEvent 0%nat
                   (InMessage (Some "CASE1") (Some "hello") None))]
         two_users)
    = [].
Proof.
  assert (H1 : registered two_users 0%nat = true) by (vm_compute; reflexivity).
  assert (H2 : JS.truthy_str None = false) by reflexivity.
  assert (H3 : JS.truthy_num (Some 0) = false) by reflexivity.
  split; [exact H1|]. split; [exact H2|]. split; [exact H3|].
  split; [vm_compute; reflexivity|].
  destruct (auth_without_id_unbinds 9 0%nat two_users None (Some 0)
              (Some "Dr. Smith") H1 H2 H3) as (Ht & _ & Hdrop).
  destruct (run_two 9 10
              (MessageEvent 0%nat (InAuth None (Some 0) (Some "Dr. Smith")))
              (MessageEvent 0%nat (InMessage (Some "CASE1") (Some "hello") None))
              two_users) as [-> _].
  rewrite Ht.
  rewrite (Hdrop 10 (InMessage (Some "CASE1") (Some "hello") None) eq_refl).
  reflexivity.
Defined.

(** X6. Events that need a bound identity are dropped on a registered
    connection that has none: a [message], [attachment], [statusUpdate],
    [userStatus] or [callSignal] event from it changes nothing, stores
    nothing and sends nothing. *)
Theorem unidentified_events_are_dropped (now : Z) (ws : nat) (s : Server)
    (data : Inbound) :
  registered s ws = true ->
  unidentified (socket_of s ws) = true ->
  needs_identity data = true ->
  step now (MessageEvent ws data) s = (tt, s, []).
Proof.
  intros Hreg Hun Hneeds.
  rewrite step_handle_message;
    [apply handler_ignores_unidentified; assumption
    | exact Hreg | apply needs_identity_not_ping, Hneeds].
Qed.

Lemma unidentified_events_are_dropped_witness :
  registered anonymous_member 1%nat = true
  ∧ unidentified (socket_of anonymous_member 1%nat) = true
  ∧ step 9
      (MessageEvent 1%nat (InMessage (Some "CASE1") (Some "hello") None))
      anonymous_member
    = (tt, anonymous_member, []).
Proof.
  assert (H1 : registered anonymous_member 1%nat = true)
    by (vm_compute; reflexivity).
  assert (H2 : unidentified (socket_of anonymous_member 1%nat) = true)
    by (vm_compute; reflexivity).
  split; [exact H1|]. split; [exact H2|].
  exact (unidentified_events_are_dropped 9 1%nat anonymous_member
           (InMessage (Some "CASE1") (Some "hello") None) H1 H2 eq_refl).
Defined.

(** X7. An [auth] frame with a non-empty [empId] binds it and announces it:
    every registered open connection, the sender included, receives exactly
    one [userStatus] frame with that [empId], the frame's [username], status
    [online] and [inCall] false; connections that are not open receive
    nothing. *)
Theorem auth_announces_online (now : Z) (ws : nat) (s : Server)
    (emp : string) (uid : option Z) (name : option string) :
  wf s ->
  registered s ws = true ->
  emp ≠ EmptyString ->
  let r := step now (MessageEvent ws (InAuth (Some emp) uid name)) s in
  let online :=
    FUserStatus (Some emp) name (Some "online") (Some false) now None in
  identity (socket_of (state_of r) ws) = emp
  ∧ unidentified (socket_of (state_of r) ws) = false
  ∧ trace_of r = deliver s online (clients s)
  ∧ ∀ h, h ∈ clients s → is_open s h = true →
         received h (trace_of r) = [online].
Proof.
  intros [Hnd _] Hreg Hemp r online. subst r.
  rewrite step_auth by exact Hreg.
  rewrite (proj2 (truthy_str_Some emp) Hemp).
  unfold state_of, trace_of. cbn [fst snd].
  rewrite socket_of_assign. destruct (decide (ws = ws)); [|congruence].
  assert (He : JS.truthy_str (Some emp) = true)
    by (apply truthy_str_Some; exact Hemp).
  split.
  { unfold identity, set_identity, JS.or_lit. cbn.
    destruct (String.eqb_spec emp EmptyString); [contradiction | reflexivity]. }
  split.
  { unfold unidentified, set_identity. cbn [empId]. rewrite He. reflexivity. }
  split; [reflexivity|].
  intros h Hin Ho. apply received_broadcast_all; assumption.
Qed.

Lemma auth_announces_online_witness :
  wf demo_server
  ∧ registered demo_server 1%nat = true
  ∧ "n1234" ≠ EmptyString
  ∧ trace_of
      (step 9 (MessageEvent 1%nat (InAuth (Some "n1234") None (Some "Nurse Lee")))
         demo_server)
    = [Send 0%nat
         (FUserStatus (Some "n1234") (Some "Nurse Lee") (Some "online")
            (Some false) 9 None);
       Send 1%nat
         (FUserStatus (Some "n1234") (Some "Nurse Lee") (Some "online")
            (Some false) 9 None)].
Proof.
  assert (H0 : wf demo_server).
  { split.
    - apply (bool_decide_unpack _). vm_compute. exact I.
    - apply Forall_forall. apply (bool_decide_unpack _). vm_compute. exact I. }
  assert (H1 : registered demo_server 1%nat = true) by (vm_compute; reflexivity).
  assert (H2 : "n1234" ≠ EmptyString) by discriminate.
  split; [exact H0|]. split; [exact H1|]. split; [exact H2|].
  destruct (auth_announces_online 9 1%nat demo_server "n1234" None
              (Some "Nurse Lee") H0 H1 H2) as (_ & _ & Ht & _).
  rewrite Ht. vm_compute. reflexivity.
Defined.

(** ** A legacy id is announced offline but never online *)

Lemma identity_legacy (w : ExtendedWebSocket) (n : Z) :
  JS.truthy_str (empId w) = false -> userId w = Some n -> n ≠ 0 ->
  identity w = JS.toString n ∧ unidentified w = false.
Proof.
  intros He Hu Hn. unfold identity, unidentified, JS.or_lit. rewrite Hu, He.
  assert (Ht : JS.truthy_num (Some n) = true).
  { cbn. destruct (Z.eqb_spec n 0); [contradiction | reflexivity]. }
  rewrite Ht. split; [|reflexivity].
  destruct (empId w) as [e|]; [|reflexivity]. cbn in He.
  destruct (String.eqb e EmptyString); [reflexivity | discriminate].
Qed.

(** X8. A connection that binds only a legacy numeric id (an [auth] frame
    with no [empId] and a [userId] that is a non-zero integer of magnitude
    below 2^53, which a JSON number holds exactly and [toString] prints in
    plain decimal) is identified from then on, its identity being the id in
    decimal, yet nobody is told it is online; when it closes, every other
    registered open connection is sent the [offline] presence frame for
    that identity. *)
Theorem legacy_id_is_announced_only_offline (now now' : Z) (ws : nat)
    (s : Server) (emp : option string) (n : Z) (name : option string) :
  registered s ws = true ->
  JS.truthy_str emp = false ->
  n ≠ 0 ->
  JS.safe_integer n ->
  let r := step now (MessageEvent ws (InAuth emp (Some n) name)) s in
  let s1 := state_of r in
  let w1 := socket_of s1 ws in
  trace_of r = []
  ∧ unidentified w1 = false
  ∧ identity w1 = JS.toString n
  ∧ ∃ rest,
      trace_of (step now' (CloseEvent ws) s1)
      = deliver s1
          (FUserStatus (Some (JS.toString n)) (Some (JS.or_lit name "Unknown User"))
             (Some "offline") (Some false) now' (Some now'))
          (filter (fun c => c ≠ ws) (clients s1))
        ++ rest
      ∧ Forall (fun e => ¬ is_presence e) rest.
Proof.
  intros Hreg Hemp Hn _ r s1 w1.
  assert (Hr : r = (tt, assign ws (set_identity emp (JS.num_or_null (Some n)) name) s, [])).
  { subst r. rewrite step_auth by exact Hreg. rewrite Hemp. reflexivity. }
  assert (Hw1 : w1 = set_identity emp (Some n) name (socket_of s ws)).
  { subst w1 s1. rewrite Hr. unfold state_of. cbn [fst snd].
    rewrite socket_of_assign. destruct (decide (ws = ws)); [|congruence].
    unfold JS.num_or_null. cbn.
    destruct (Z.eqb_spec n 0); [contradiction | reflexivity]. }
  assert (Hid : identity w1 = JS.toString n ∧ unidentified w1 = false).
  { apply identity_legacy; [rewrite Hw1; exact Hemp | rewrite Hw1; reflexivity
                           | exact Hn]. }
  destruct Hid as [Hident Hun].
  split; [rewrite Hr; reflexivity|].
  split; [exact Hun|]. split; [exact Hident|].
  assert (Hreg1 : registered s1 ws = true).
  { subst s1. rewrite Hr. exact Hreg. }
  pose proof (close_announces now' ws s1 Hreg1) as Hclose.
  cbv zeta in Hclose. fold w1 in Hclose.
  assert (Hguard : JS.truthy_str (empId w1) || JS.truthy_num (userId w1) = true).
  { unfold unidentified in Hun.
    destruct (JS.truthy_str (empId w1)); [reflexivity|].
    destruct (JS.truthy_num (userId w1)); [reflexivity | discriminate]. }
  rewrite Hguard in Hclose. destruct Hclose as (rest & Ht & Hrest).
  exists rest. split; [|exact Hrest]. rewrite Ht. f_equal.
  unfold offline_frame. rewrite Hident. do 2 f_equal.
  rewrite Hw1. reflexivity.
Qed.

Lemma legacy_id_is_announced_only_offline_witness :
  registered demo_server 1%nat = true
  ∧ JS.truthy_str None = false
  ∧ 42 ≠ 0
  ∧ JS.safe_integer 42
  ∧ trace_of
      (run [(9, MessageEvent 1%nat (InAuth None (Some 42) None));
            (10, CloseEvent 1%nat)] demo_server)
    = [Send 0%nat
         (FUserStatus (Some "42") (Some "Unknown User") (Some "offline")
            (Some false) 10 (Some 10))].
Proof.
  assert (H1 : registered demo_server 1%nat = true) by (vm_compute; reflexivity).
  assert (H2 : JS.truthy_str None = false) by reflexivity.
  assert (H3 : 42 ≠ 0) by discriminate.
  assert (H4 : JS.safe_integer 42) by (split; reflexivity).
  split; [exact H1|]. split; [exact H2|]. split; [exact H3|].
  split; [exact H4|].
  destruct (legacy_id_is_announced_only_offline 9 10 1%nat demo_server None 42
              None H1 H2 H3 H4) as (Ht & _ & _ & rest & Hclose & _).
  destruct (run_two 9 10 (MessageEvent 1%nat (InAuth None (Some 42) None))
              (CloseEvent 1%nat) demo_server) as [-> _].
  rewrite Ht. vm_compute. reflexivity.
Defined.

(** ** Invitations from a connection without identity *)

Lemma identity_unidentified (w : ExtendedWebSocket) :
  unidentified w = true -> identity w = "0".
Proof.
  unfold unidentified, identity, JS.or_lit. intros H.
  apply andb_true_iff in H as [He Hu]. apply negb_true_iff in He, Hu.
  assert (Hl : match userId w with
               | Some n => if JS.truthy_num (Some n) then JS.toString n else "0"
               | None => "0"
               end = "0").
  { destruct (userId w) as [n|]; [|reflexivity]. rewrite Hu. reflexivity. }
  rewrite Hl. destruct (empId w) as [e|]; [|reflexivity]. cbn in He.
  destruct (String.eqb e EmptyString); [reflexivity | discriminate].
Qed.

(** X9. The [callInvitation] case does not ask for a bound identity: an
    invitation from a registered connection that never identified itself,
    in a frame without [inviterId], is still relayed to the last registered
    open connection whose identity is the target (no connection registered
    after it is open with that identity), to that connection only, and
    names "0" as the inviter. *)
Theorem anonymous_invitation_names_zero (now : Z) (ws : nat) (s : Server)
    (cid callType inviterId inviterName : option string) (target : string) :
  registered s ws = true ->
  unidentified (socket_of s ws) = true ->
  JS.truthy_str inviterId = false ->
  JS.truthy_str cid = true ->
  target ≠ EmptyString ->
  (∃ h, matching s target h) ->
  ∃ h l1 l2,
    matching s target h
    ∧ clients s = l1 ++ h :: l2
    ∧ Forall (fun c => ¬ matching s target c) l2
    ∧ step now
        (MessageEvent ws
           (InCallInvitation cid callType (Some target) inviterId inviterName))
        s
      = (tt, s,
         [Send h
            (FCallInvitation cid callType "0"
               (JS.or_lit (JS.or_str inviterName (username (socket_of s ws)))
                  "Unknown User") now)]).
Proof.
  intros Hreg Hun Hinv Hcid Htarget (h0 & Hm0).
  pose proof (scan_clients_spec s target Htarget) as Hscan.
  destruct (scan_clients s target) as [h|] eqn:Hs;
    [|exfalso; exact (Hscan h0 Hm0)].
  destruct Hscan as (Hm & l1 & l2 & Hcl & Hlast). exists h, l1, l2.
  split; [exact Hm|]. split; [exact Hcl|]. split; [exact Hlast|].
  rewrite step_handle_message by (exact Hreg || discriminate).
  cbn [handle_message]. unfold handle_callInvitation. run_handler.
  rewrite (identity_unidentified _ Hun).
  assert (Hlit : JS.or_lit inviterId "0" = "0").
  { unfold JS.or_lit. destruct inviterId as [i|]; [|reflexivity]. cbn in Hinv.
    destruct (String.eqb i EmptyString); [reflexivity | discriminate]. }
  rewrite Hlit, Hcid.
  assert (Ht : JS.truthy_str (Some target) = true)
    by (apply truthy_str_Some; exact Htarget).
  cbn in Ht. rewrite Ht. cbn. rewrite Hs. cbn.
  rewrite deliver_open; [reflexivity|].
  destruct Hm as (_ & Ho & _). unfold is_open. rewrite Ho. reflexivity.
Qed.

Lemma anonymous_invitation_names_zero_witness :
  registered anonymous_member 1%nat = true
  ∧ unidentified (socket_of anonymous_member 1%nat) = true
  ∧ JS.truthy_str (Some "CASE1") = true
  ∧ "e1" ≠ EmptyString
  ∧ ∃ h l1 l2,
      clients anonymous_member = l1 ++ h :: l2
      ∧ Forall (fun c => ¬ matching anonymous_member "e1" c) l2
      ∧ step 9
        (MessageEvent 1%nat
           (InCallInvitation (Some "CASE1") (Some "voice") (Some "e1") None
              None))
        anonymous_member
      = (tt, anonymous_member,
         [Send h
            (FCallInvitation (Some "CASE1") (Some "voice") "0" "Unknown User"
               9)]).
Proof.
  assert (H1 : registered anonymous_member 1%nat = true)
    by (vm_compute; reflexivity).
  assert (H2 : unidentified (socket_of anonymous_member 1%nat) = true)
    by (vm_compute; reflexivity).
  assert (H3 : JS.truthy_str (Some "CASE1") = true) by reflexivity.
  assert (H4 : "e1" ≠ EmptyString) by discriminate.
  split; [exact H1|]. split; [exact H2|]. split; [exact H3|]. split; [exact H4|].
  assert (H5 : ∃ h, matching anonymous_member "e1" h).
  { exists 0%nat. split; [|split; [|left]]; vm_compute;
      [constructor | reflexivity | reflexivity]. }
  destruct (anonymous_invitation_names_zero 9 1%nat anonymous_member
              (Some "CASE1") (Some "voice") None None "e1" H1 H2 eq_refl H3 H4
              H5) as (h & l1 & l2 & _ & Hcl & Hlast & Hstep).
  exists h, l1, l2. split; [exact Hcl|]. split; [exact Hlast|]. exact Hstep.
Defined.

(** ** The leave message *)

Lemma deliver_closed (s s' : Server) (h : nat) (f : Frame) (l : list nat) :
  (∀ c, c ≠ h → readyState (socket_of s' c) = readyState (socket_of s c)) ->
  readyState (socket_of s' h) = CLOSED ->
  deliver s' f l = deliver s f (filter (fun c => c ≠ h) l).
Proof.
  intros Hothers Hclosed. unfold deliver. f_equal.
  rewrite list_filter_filter. apply list_filter_iff. intros c.
  unfold is_open. destruct (decide (c = h)) as [->|Hne].
  - rewrite Hclosed. split; [intros H; inversion H | intros [_ ?]; congruence].
  - rewrite (Hothers c Hne). intuition.
Qed.

(** X10. The frames of a [close] event, in order: the [offline] presence
    frame to every other registered open connection when the closing
    connection had a bound identity; then, when it had a current channel and
    a bound username, the system message "<username> has left the channel"
    to the other open members of that channel, followed by the call that
    stores the message. The closing connection receives none of them, and
    without a channel or a username no leave message is sent or stored. *)
Theorem close_frames (now : Z) (h : nat) (s : Server) :
  registered s h = true ->
  let w := socket_of s h in
  let content := JS.template (username w) +:+ " has left the channel" in
  let leave :=
    {| nm_type := "system"; nm_senderId := stored_identity w;
       nm_content := Some content; nm_attachments := None |} in
  let r := step now (CloseEvent h) s in
  trace_of r
  = (if JS.truthy_str (empId w) || JS.truthy_num (userId w)
     then deliver s (offline_frame now w)
            (filter (fun c => c ≠ h) (clients s))
     else [])
    ++ (if JS.truthy_str (channelId w) && JS.truthy_str (username w)
        then deliver s (FSystem (channelId w) content now)
               (filter (fun c => c ≠ h) (members s (channelId w)))
             ++ [StoreMessage (channelId w) leave
                   (Store.addMessageToChannel now (channelId w) leave
                      (storage s)).1]
        else [])
  ∧ received h (trace_of r) = [].
Proof.
  intros Hreg w content leave r.
  assert (Hr : trace_of r = trace_of (on_close now h s)).
  { subst r. cbn [step]. rewrite trace_of_bind.
    unfold get, value_of, state_of, trace_of at 1. cbn [fst snd].
    rewrite Hreg. reflexivity. }
  rewrite Hr, on_close_run. unfold trace_of. cbn [fst snd]. fold w.
  set (s1 := set_clients _ _).
  assert (Hoth : ∀ c, c ≠ h →
            readyState (socket_of s1 c) = readyState (socket_of s c)).
  { intros c Hne. subst s1. rewrite socket_of_set_clients, socket_of_assign.
    destruct (decide (c = h)); [congruence | reflexivity]. }
  assert (Hcl : readyState (socket_of s1 h) = CLOSED).
  { subst s1. rewrite socket_of_set_clients, socket_of_assign.
    destruct (decide (h = h)); [reflexivity | congruence]. }
  assert (Hpres : deliver s1 (offline_frame now w) (clients s1)
                  = deliver s (offline_frame now w)
                      (filter (fun c => c ≠ h) (clients s))).
  { rewrite (deliver_closed s s1 h) by assumption. subst s1.
    change (clients (set_clients (filter (fun c => c ≠ h))
                       (assign h (set_readyState CLOSED) s)))
      with (filter (fun c => c ≠ h) (clients s)).
    f_equal. rewrite list_filter_filter. apply list_filter_iff. intuition. }
  assert (Hleave : ∀ f,
            deliver (drop_member h (channelId w) s1) f
              (members (drop_member h (channelId w) s1) (channelId w))
            = deliver s f (filter (fun c => c ≠ h) (members s (channelId w)))).
  { intros f. rewrite (deliver_closed s _ h);
      [|intros c Hne; rewrite socket_of_drop_member; apply Hoth, Hne
       |rewrite socket_of_drop_member; exact Hcl].
    rewrite members_drop_member.
    destruct (decide (channelId w = channelId w)); [|congruence].
    subst s1. rewrite members_set_clients, members_assign, unsubscribe_others.
    reflexivity. }
  rewrite Hpres, Hleave.
  split; [reflexivity|].
  rewrite received_app.
  assert (Hnone : ∀ f l, received h (deliver s f (filter (fun c => c ≠ h) l)) = []).
  { intros f l. rewrite received_deliver.
    destruct (filter (fun c => c = h) _) as [|x l'] eqn:Hf; [reflexivity|].
    exfalso.
    assert (Hx : x ∈ filter (fun c => c = h)
                   (filter (fun c => is_open s c)
                      (filter (fun c => c ≠ h) l))) by (rewrite Hf; left).
    apply list_elem_of_filter in Hx as [-> Hx].
    apply list_elem_of_filter in Hx as [_ Hx].
    apply list_elem_of_filter in Hx as [Hx _]. congruence. }
  destruct (JS.truthy_str (empId w) || JS.truthy_num (userId w));
    destruct (JS.truthy_str (channelId w) && JS.truthy_str (username w));
    rewrite ?received_app, ?Hnone; reflexivity.
Qed.

Lemma close_frames_witness :
  registered two_users 1%nat = true
  ∧ ∃ saved,
      trace_of (step 9 (CloseEvent 1%nat) two_users)
      = [Send 0%nat
           (FUserStatus (Some "n1234") (Some "Nurse Lee") (Some "offline")
              (Some false) 9 (Some 9));
         Send 0%nat
           (FSystem (Some "CASE1") "Nurse Lee has left the channel" 9);
         StoreMessage (Some "CASE1")
           {| nm_type := "system"; nm_senderId := Some "n1234";
              nm_content := Some "Nurse Lee has left the channel";
              nm_attachments := None |} saved].
Proof.
  assert (H1 : registered two_users 1%nat = true) by (vm_compute; reflexivity).
  split; [exact H1|].
  destruct (close_frames 9 1%nat two_users H1) as [Ht _].
  eexists. rewrite Ht. vm_compute. reflexivity.
Defined.

(** ** A connection that answers is kept *)

Lemma step_keeps_registered (now : Z) (ev : Event) (s : Server) (h : nat) :
  h ∈ clients s -> ev ≠ CloseEvent h ->
  h ∈ clients (state_of (step now ev s)).
Proof.
  intros Hin Hc. rewrite step_state.
  destruct ev as [|h' data|h'|h'| |down]; try exact Hin.
  - unfold accept. cbn. apply elem_of_app. left. exact Hin.
  - destruct (registered s h'); [|exact Hin].
    destruct (message_clients now h' data s) as [-> _]. exact Hin.
  - destruct (registered s h'); exact Hin.
  - destruct (registered s h'); [|exact Hin].
    destruct (on_close_registry now h' s) as (-> & _).
    apply list_elem_of_filter. split; [congruence | exact Hin].
  - rewrite heartbeat_state.
    destruct (sweep_frame (clients s) s) as (-> & _). exact Hin.
Qed.

Lemma step_keeps_alive (now : Z) (ev : Event) (s : Server) (h : nat) :
  wf s -> h ∈ clients s ->
  isAlive (socket_of s h) = true ->
  ev ≠ HeartbeatTick ->
  isAlive (socket_of (state_of (step now ev s)) h) = true.
Proof.
  intros [Hnd Hlt] Hin Halive Hb. rewrite step_state.
  destruct ev as [|h' data|h'|h'| |down]; try congruence.
  - rewrite socket_of_accept. destruct (decide (h = nextSocket s)) as [->|];
      [apply Hlt in Hin; lia | exact Halive].
  - destruct (registered s h'); [|exact Halive].
    destruct (message_liveness now h' data s h) as [-> _]. exact Halive.
  - destruct (registered s h'); [|exact Halive].
    rewrite socket_of_assign. destruct (decide (h = h')); [reflexivity|exact Halive].
  - destruct (registered s h'); [|exact Halive].
    destruct (on_close_registry now h' s) as (_ & _ & ->).
    destruct (decide (h = h')) as [<-|]; exact Halive.
  - exact Halive.
Qed.

(** ** The sweep timer *)

Lemma due_by_later (due t : Z) : t < due -> due_by due t = O.
Proof. intros H. unfold due_by. destruct (Z.leb_spec due t); [lia|reflexivity]. Qed.

Lemma due_by_step (due t : Z) :
  due <= t -> due_by due t = S (due_by (due + heartbeat_interval) t).
Proof.
  intros H. unfold due_by.
  destruct (Z.leb_spec due t); [|lia].
  destruct (Z.leb_spec (due + heartbeat_interval) t) as [Hle|Hgt].
  - f_equal.
    replace (t - due)
      with ((t - (due + heartbeat_interval)) + 1 * heartbeat_interval) by lia.
    rewrite Z.div_add by (unfold heartbeat_interval; lia).
    rewrite Z2Nat.inj_add;
      [|apply Z.div_pos; unfold heartbeat_interval in *; lia|lia].
    change (Z.to_nat 1) with 1%nat. apply Nat.add_1_r.
  - rewrite Z.div_small by (unfold heartbeat_interval in *; lia). reflexivity.
Qed.

Lemma next_due_later (due t : Z) : t < due -> next_due due t = due.
Proof. intros H. unfold next_due. rewrite due_by_later by exact H. lia. Qed.

Lemma next_due_step (due t : Z) :
  due <= t -> next_due due t = next_due (due + heartbeat_interval) t.
Proof.
  intros H. unfold next_due. rewrite (due_by_step due t) by exact H.
  unfold heartbeat_interval. lia.
Qed.

(** The next sweep is later than the callback just run, and at most one
    interval later unless it was already due later than that. *)
Lemma next_due_bounds (due t : Z) :
  t < next_due due t
  ∧ (next_due due t = due ∨ next_due due t <= t + heartbeat_interval)
  ∧ ∃ k, 0 <= k ∧ next_due due t = due + k * heartbeat_interval.
Proof.
  unfold next_due, due_by. destruct (Z.leb_spec due t) as [Hle|Hgt].
  - assert (Hq : 0 <= (t - due) / heartbeat_interval)
      by (apply Z.div_pos; unfold heartbeat_interval; lia).
    pose proof (Z.div_mod (t - due) heartbeat_interval) as Hdm.
    pose proof (Z.mod_pos_bound (t - due) heartbeat_interval) as Hmod.
    rewrite Nat2Z.inj_succ, Z2Nat.id by exact Hq.
    set (q := (t - due) / heartbeat_interval) in *.
    set (m := (t - due) mod heartbeat_interval) in *.
    unfold heartbeat_interval in *.
    repeat split; [lia | right; lia | exists (Z.succ q); lia].
  - repeat split; [lia | left; lia | exists 0; lia].
Qed.

Lemma timeline_sweep_first (due t : Z) (ev : Event)
    (rest : list (Z * Event)) (stop : Z) :
  due <= t ->
  timeline due ((t, ev) :: rest) stop
  = (due, HeartbeatTick)
    :: timeline (due + heartbeat_interval) ((t, ev) :: rest) stop.
Proof.
  intros H. cbn [timeline].
  rewrite (due_by_step due t), (next_due_step due t) by exact H. reflexivity.
Qed.

(** The next sweep runs as soon as it is due: the callbacks before it are
    socket callbacks, and the timer goes on from one interval later. *)
Lemma timeline_next_sweep (due stop : Z) (evs : list (Z * Event)) :
  due <= stop ->
  ∃ m evs',
    evs = m ++ evs'
    ∧ timeline due evs stop
      = m ++ (due, HeartbeatTick)
             :: timeline (due + heartbeat_interval) evs' stop.
Proof.
  intros Hstop. induction evs as [|[t ev] evs IH].
  - exists [], []. split; [reflexivity|]. cbn [timeline app].
    rewrite (due_by_step due stop) by exact Hstop. reflexivity.
  - destruct (Z.le_gt_cases due t) as [Hle|Hgt].
    + exists [], ((t, ev) :: evs). split; [reflexivity|].
      apply timeline_sweep_first, Hle.
    + destruct IH as (m & evs' & -> & Heq).
      exists ((t, ev) :: m), evs'. split; [reflexivity|].
      cbn [timeline]. rewrite due_by_later, next_due_later by lia.
      cbn [sweeps app]. rewrite Heq. reflexivity.
Qed.

Lemma due_after_app (due : Z) (evs1 evs2 : list (Z * Event)) :
  due_after due (evs1 ++ evs2) = due_after (due_after due evs1) evs2.
Proof.
  revert due. induction evs1 as [|[t ev] evs1 IH]; intros due; [reflexivity|].
  cbn [due_after app]. apply IH.
Qed.

(** The callbacks up to time [p] are a prefix of those up to [stop], when
    the next sweep is due later than [p]. *)
Lemma timeline_app (due p stop : Z) (evs1 evs2 : list (Z * Event)) :
  p < due_after due evs1 ->
  timeline due (evs1 ++ evs2) stop
  = timeline due evs1 p ++ timeline (due_after due evs1) evs2 stop.
Proof.
  revert due. induction evs1 as [|[t ev] evs1 IH]; intros due Hp.
  - cbn [due_after] in Hp. cbn [timeline app due_after].
    rewrite due_by_later by exact Hp. reflexivity.
  - cbn [due_after] in Hp. cbn [timeline app due_after].
    rewrite (IH _ Hp), <- app_assoc. reflexivity.
Qed.

Lemma timeline_ends_with (due p : Z) (ev : Event) (evs : list (Z * Event)) :
  ∃ front, timeline due (evs ++ [(p, ev)]) p = front ++ [(p, ev)].
Proof.
  revert due. induction evs as [|[t e] evs IH]; intros due.
  - exists (sweeps (due_by due p) due). cbn [timeline app].
    rewrite (due_by_later (next_due due p) p) by apply next_due_bounds.
    reflexivity.
  - destruct (IH (next_due due t)) as (front & Heq).
    exists (sweeps (due_by due t) due ++ (t, e) :: front).
    cbn [timeline app]. rewrite Heq, <- app_assoc. reflexivity.
Qed.

(** Sweeps stay on the grid of the timer, and after callbacks that arrive
    by [p] the next one is due by [p + heartbeat_interval]. *)
Lemma due_after_bounds (t0 p due : Z) (evs : list (Z * Event)) :
  Forall (fun e => e.1 <= p) evs ->
  (∃ k, due = t0 + k * heartbeat_interval) ->
  due <= p + heartbeat_interval ->
  (∃ k, due_after due evs = t0 + k * heartbeat_interval)
  ∧ due_after due evs <= p + heartbeat_interval.
Proof.
  revert due. induction evs as [|[t ev] evs IH]; intros due Hall Hgrid Hdue.
  - split; assumption.
  - apply Forall_cons in Hall as [Ht Hall]. cbn in Ht.
    cbn [due_after]. destruct (next_due_bounds due t) as (_ & Hb & k & _ & Hk).
    apply IH; [exact Hall| |].
    + destruct Hgrid as (k0 & ->). exists (k0 + k). rewrite Hk. lia.
    + destruct Hb as [->|Hb]; lia.
Qed.

(** ** A connection that answers is pinged, one that does not is terminated *)

Lemma run_keeps_alive (evs : list (Z * Event)) (s : Server) (h : nat) :
  wf s ->
  h ∈ clients s ->
  isAlive (socket_of s h) = true ->
  stays_connected h evs ->
  no_sweep evs ->
  h ∈ clients (state_of (run evs s))
  ∧ isAlive (socket_of (state_of (run evs s)) h) = true.
Proof.
  revert s. induction evs as [|[now ev] evs IH]; intros s Hwf Hin Hal Hst Hno;
    [split; assumption|].
  apply Forall_cons in Hst as [Hc Hst]. apply Forall_cons in Hno as [Hn Hno].
  cbn in Hc, Hn. cbn [run]. rewrite state_of_bind.
  apply IH; [apply step_wf, Hwf | apply step_keeps_registered; assumption
            | apply step_keeps_alive; assumption | exact Hst | exact Hno].
Qed.

Lemma unanswered_stays_connected (h : nat) (evs : list (Z * Event)) :
  unanswered h evs -> stays_connected h evs ∧ no_sweep evs.
Proof.
  intros H. split; eapply Forall_impl; try exact H; cbn; intros e (_ & ? & ?);
    assumption.
Qed.

(** A registered connection for which neither a pong nor a close arrives
    after a sweep is terminated by the next one. *)
Lemma missed_sweep_terminates (t1 t2 : Z) (s : Server) (h : nat)
    (between : list (Z * Event)) :
  wf s ->
  h ∈ clients s ->
  unanswered h between ->
  Terminate h
  ∈ trace_of
      (step t2 HeartbeatTick
         (state_of (run between (state_of (step t1 HeartbeatTick s))))).
Proof.
  intros Hwf Hin Hun.
  set (r1 := step t1 HeartbeatTick s).
  set (s2 := state_of (run between (state_of r1))).
  assert (Hr1 : r1 = (tt, foldl (fun s' c => assign c swept s') s (clients s),
                      sweep_effect s <$> clients s)).
  { subst r1. cbn [step]. apply heartbeat_run, Hwf. }
  assert (Hwf1 : wf (state_of r1)) by (apply step_wf, Hwf).
  assert (Hin1 : h ∈ clients (state_of r1)).
  { rewrite Hr1. unfold state_of. cbn [fst snd].
    destruct (sweep_frame (clients s) s) as (-> & _). exact Hin. }
  assert (Hd1 : isAlive (socket_of (state_of r1) h) = false).
  { rewrite Hr1. unfold state_of. cbn [fst snd].
    rewrite sweep_socket by apply Hwf.
    destruct (decide (h ∈ clients s)); [|contradiction].
    apply swept_not_alive. }
  destruct (run_keeps_unanswered between (state_of r1) h Hwf1 Hin1 Hd1 Hun)
    as [Hin2 Hd2].
  fold s2 in Hin2, Hd2.
  assert (Hwf2 : wf s2) by (apply run_wf, Hwf1).
  cbn [step]. rewrite heartbeat_run by apply Hwf2.
  unfold trace_of. cbn [fst snd].
  apply list_elem_of_fmap. exists h. split; [|exact Hin2].
  unfold sweep_effect. rewrite Hd2. reflexivity.
Qed.

(** The two sweeps that follow the last pong of a connection: the first
    pings it, the second terminates it. *)
Lemma last_pong_then_two_sweeps (t0 p stop : Z) (s0 : Server) (h : nat)
    (before after : list (Z * Event)) :
  wf s0 ->
  t0 <= p ->
  Forall (fun e => e.1 <= p) before ->
  unanswered h after ->
  p + 2 * heartbeat_interval <= stop ->
  let due := t0 + heartbeat_interval in
  let pre := timeline due (before ++ [(p, PongEvent h)]) p in
  registered (state_of (run pre s0)) h = true ->
  ∃ m1 m2 rest τ,
    timeline due (before ++ (p, PongEvent h) :: after) stop
    = pre ++ m1 ++ (τ - heartbeat_interval, HeartbeatTick)
                   :: m2 ++ (τ, HeartbeatTick) :: rest
    ∧ unanswered h m1
    ∧ unanswered h m2
    ∧ PingSocket h
      ∈ trace_of
          (step (τ - heartbeat_interval) HeartbeatTick
             (state_of (run (pre ++ m1) s0)))
    ∧ Terminate h
      ∈ trace_of
          (step τ HeartbeatTick
             (state_of
                (run (pre ++ m1 ++ (τ - heartbeat_interval, HeartbeatTick) :: m2)
                   s0)))
    ∧ 30000 < τ - p <= 60000
    ∧ ((∀ k, p ≠ t0 + k * heartbeat_interval) → τ - p < 60000).
Proof.
  intros Hwf0 Ht0 Hbefore Hun Hstop due pre Hreg.
  set (d1 := due_after due (before ++ [(p, PongEvent h)])).
  assert (Hd1 : p < d1 ∧ d1 <= p + heartbeat_interval
                ∧ ∃ k, d1 = t0 + k * heartbeat_interval).
  { subst d1. rewrite due_after_app. cbn [due_after].
    destruct (due_after_bounds t0 p due before Hbefore) as ((k0 & Hk0) & Hle).
    { exists 1. subst due. lia. }
    { subst due. lia. }
    destruct (next_due_bounds (due_after due before) p) as (Hlt & Hb & k & _ & Hk).
    split; [exact Hlt|]. split.
    - destruct Hb as [->|Hb]; [exact Hle | exact Hb].
    - exists (k0 + k). rewrite Hk, Hk0. lia. }
  destruct Hd1 as (Hlt & Hle & kd & Hgrid).
  assert (Hsplit : timeline due (before ++ (p, PongEvent h) :: after) stop
                   = pre ++ timeline d1 after stop).
  { change ((p, PongEvent h) :: after) with ([(p, PongEvent h)] ++ after).
    rewrite app_assoc. apply timeline_app. exact Hlt. }
  destruct (timeline_next_sweep d1 stop after) as (m1 & after1 & Hafter & Hm1).
  { unfold heartbeat_interval in *. lia. }
  destruct (timeline_next_sweep (d1 + heartbeat_interval) stop after1)
    as (m2 & after2 & Hafter1 & Hm2).
  { unfold heartbeat_interval in *. lia. }
  assert (Hun1 : unanswered h m1 ∧ unanswered h m2).
  { rewrite Hafter, Hafter1 in Hun. unfold unanswered in *.
    apply Forall_app in Hun as [H1 Hun]. apply Forall_app in Hun as [H2 _].
    split; assumption. }
  destruct Hun1 as [Hun1 Hun2].
  exists m1, m2,
    (timeline (d1 + heartbeat_interval + heartbeat_interval) after2 stop),
    (d1 + heartbeat_interval).
  replace (d1 + heartbeat_interval - heartbeat_interval) with d1 by lia.
  split; [rewrite Hsplit, Hm1, Hm2; reflexivity|].
  split; [exact Hun1|]. split; [exact Hun2|].
  (* the state after the pong *)
  destruct (timeline_ends_with due p (PongEvent h) before) as (front & Hfront).
  fold pre in Hfront.
  set (sf := state_of (run front s0)).
  assert (Hwff : wf sf) by (apply run_wf, Hwf0).
  set (sp := state_of (run pre s0)) in *.
  assert (Hsp : sp = state_of (step p (PongEvent h) sf)).
  { subst sp. rewrite Hfront, state_of_run_app.
    exact (proj1 (run_one p (PongEvent h) sf)). }
  assert (Hwfp : wf sp) by (apply run_wf, Hwf0).
  assert (Hinp : h ∈ clients sp).
  { apply bool_decide_eq_true_1 in Hreg. exact Hreg. }
  assert (Halp : isAlive (socket_of sp h) = true).
  { rewrite Hsp, step_state. rewrite Hsp, step_state in Hreg.
    destruct (registered sf h) eqn:Hrf; [|congruence].
    rewrite socket_of_assign.
    destruct (decide (h = h)); [reflexivity | congruence]. }
  destruct (unanswered_stays_connected h m1 Hun1) as [Hc1 Hn1].
  destruct (run_keeps_alive m1 sp h Hwfp Hinp Halp Hc1 Hn1) as [Hin1 Hal1].
  assert (Hwf1 : wf (state_of (run m1 sp))) by (apply run_wf, Hwfp).
  split.
  { rewrite state_of_run_app. fold sp.
    cbn [step]. rewrite heartbeat_run by apply Hwf1.
    unfold trace_of. cbn [fst snd].
    apply list_elem_of_fmap. exists h. split; [|exact Hin1].
    unfold sweep_effect. rewrite Hal1. reflexivity. }
  split.
  { rewrite state_of_run_app. fold sp.
    rewrite state_of_run_app.
    change ((d1, HeartbeatTick) :: m2) with ([(d1, HeartbeatTick)] ++ m2).
    rewrite state_of_run_app.
    destruct (run_one d1 HeartbeatTick (state_of (run m1 sp))) as [-> _].
    apply missed_sweep_terminates; assumption. }
  split; [unfold heartbeat_interval in *; lia|].
  intros Hoff.
  assert (d1 ≠ p + heartbeat_interval).
  { intros Heq. apply (Hoff (kd - 1)). unfold heartbeat_interval in *. lia. }
  unfold heartbeat_interval in *. lia.
Qed.

(** C6 (amended). At every liveness sweep (the callback of
    [setInterval(heartbeat, 30000)]), each registered connection whose
    liveness flag is false is terminated, and each connection whose flag is
    true has the flag set to false and is sent a ping; a pong sets the flag to
    true again. Consequently a registered connection for which no pong and no
    close arrives between one sweep and the next is terminated by that next
    sweep. When its [close] event is then handled, an [offline] presence
    frame with [lastSeen] goes to every other registered open connection
    provided the closed connection had a bound identity ([empId] or legacy
    id); a connection that never bound one closes without any presence
    frame. In a run of the server whose sweeps are those of the interval
    timer set at [t0], a registered connection whose last pong is handled
    at time [p] and that does not close is pinged by the first sweep after
    [p] and terminated by the second, which runs more than 30000 ms and at
    most 60000 ms after [p], and less than 60000 ms after it unless the
    pong was handled at the very time of a sweep. *)
Theorem liveness_sweep (t1 : Z) (s : Server) (h : nat)
    (between : list (Z * Event)) :
  wf s ->
  h ∈ clients s ->
  unanswered h between ->
  let r1 := step t1 HeartbeatTick s in
  let s2 := state_of (run between (state_of r1)) in
  trace_of r1 = sweep_effect s <$> clients s
  ∧ (∀ c, socket_of (state_of r1) c
          = if decide (c ∈ clients s) then swept (socket_of s c)
            else socket_of s c)
  ∧ (∀ now s', registered s' h = true →
       isAlive (socket_of (state_of (step now (PongEvent h) s')) h) = true)
  ∧ Terminate h ∈ trace_of (step (t1 + heartbeat_interval) HeartbeatTick s2)
  ∧ (∀ now s', registered s' h = true →
       let w := socket_of s' h in
       let t := trace_of (step now (CloseEvent h) s') in
       if JS.truthy_str (empId w) || JS.truthy_num (userId w)
       then ∃ rest,
              t = deliver s' (offline_frame now w)
                    (filter (fun c => c ≠ h) (clients s')) ++ rest
              ∧ Forall (fun e => ¬ is_presence e) rest
       else Forall (fun e => ¬ is_presence e) t)
  ∧ (∀ (t0 p stop : Z) (s0 : Server) (before after : list (Z * Event)),
       wf s0 →
       t0 <= p →
       Forall (fun e => e.1 <= p) before →
       unanswered h after →
       p + 2 * heartbeat_interval <= stop →
       let due := t0 + heartbeat_interval in
       let pre := timeline due (before ++ [(p, PongEvent h)]) p in
       registered (state_of (run pre s0)) h = true →
       ∃ m1 m2 rest τ,
         timeline due (before ++ (p, PongEvent h) :: after) stop
         = pre ++ m1 ++ (τ - heartbeat_interval, HeartbeatTick)
                        :: m2 ++ (τ, HeartbeatTick) :: rest
         ∧ unanswered h m1
         ∧ unanswered h m2
         ∧ PingSocket h
           ∈ trace_of
               (step (τ - heartbeat_interval) HeartbeatTick
                  (state_of (run (pre ++ m1) s0)))
         ∧ Terminate h
           ∈ trace_of
               (step τ HeartbeatTick
                  (state_of
                     (run (pre ++ m1
                           ++ (τ - heartbeat_interval, HeartbeatTick) :: m2)
                        s0)))
         ∧ 30000 < τ - p <= 60000
         ∧ ((∀ k, p ≠ t0 + k * heartbeat_interval) → τ - p < 60000)).
Proof.
  intros Hwf Hin Hun r1 s2.
  assert (Hr1 : r1 = (tt, foldl (fun s' c => assign c swept s') s (clients s),
                      sweep_effect s <$> clients s)).
  { subst r1. cbn [step]. apply heartbeat_run, Hwf. }
  assert (Hsock : ∀ c, socket_of (state_of r1) c
          = if decide (c ∈ clients s) then swept (socket_of s c)
            else socket_of s c).
  { intros c. rewrite Hr1. unfold state_of. cbn [fst snd].
    apply sweep_socket, Hwf. }
  split; [rewrite Hr1; reflexivity|].
  split; [exact Hsock|].
  split.
  { intros now s' Hreg. rewrite step_state, Hreg, socket_of_assign.
    destruct (decide (h = h)); [reflexivity | congruence]. }
  split; [apply missed_sweep_terminates; assumption|].
  split; [intros now s' Hreg; apply close_announces, Hreg|].
  intros t0 p stop s0 before after Hwf0 Ht0 Hbefore Hafter Hstop due pre Hreg.
  apply last_pong_then_two_sweeps; assumption.
Qed.

Lemma liveness_sweep_witness :
  wf demo_server
  ∧ 1%nat ∈ clients demo_server
  ∧ unanswered 1%nat [(30010, PongEvent 0%nat)]
  ∧ Terminate 1%nat
    ∈ trace_of
        (step (30000 + heartbeat_interval) HeartbeatTick
           (state_of
              (run [(30010, PongEvent 0%nat)]
                 (state_of (step 30000 HeartbeatTick demo_server)))))
  ∧ timeline 30000
      [(30010, PongEvent 1%nat); (30020, PongEvent 0%nat)] 90010
    = [(30000, HeartbeatTick); (30010, PongEvent 1%nat);
       (30020, PongEvent 0%nat); (60000, HeartbeatTick);
       (90000, HeartbeatTick)]
  ∧ ∃ m1 m2 rest τ,
      timeline 30000 [(30010, PongEvent 1%nat); (30020, PongEvent 0%nat)]
        90010
      = [(30000, HeartbeatTick); (30010, PongEvent 1%nat)]
        ++ m1 ++ (τ - heartbeat_interval, HeartbeatTick)
                 :: m2 ++ (τ, HeartbeatTick) :: rest
      ∧ PingSocket 1%nat
        ∈ trace_of
            (step (τ - heartbeat_interval) HeartbeatTick
               (state_of
                  (run ([(30000, HeartbeatTick); (30010, PongEvent 1%nat)]
                        ++ m1)
                     demo_server)))
      ∧ Terminate 1%nat
        ∈ trace_of
            (step τ HeartbeatTick
               (state_of
                  (run ([(30000, HeartbeatTick); (30010, PongEvent 1%nat)]
                        ++ m1
                        ++ (τ - heartbeat_interval, HeartbeatTick) :: m2)
                     demo_server)))
      ∧ 30000 < τ - 30010 < 60000.
Proof.
  assert (H1 : wf demo_server).
  { split.
    - apply (bool_decide_unpack _). vm_compute. exact I.
    - apply Forall_forall. apply (bool_decide_unpack _). vm_compute. exact I. }
  assert (H2 : 1%nat ∈ clients demo_server)
    by (vm_compute; right; left).
  assert (H3 : unanswered 1%nat [(30010, PongEvent 0%nat)]).
  { constructor; [|constructor]. repeat split; discriminate. }
  assert (H4 : 0 <= 30010) by lia.
  assert (H5 : Forall (fun e : Z * Event => e.1 <= 30010) []) by constructor.
  assert (H6 : unanswered 1%nat [(30020, PongEvent 0%nat)]).
  { constructor; [|constructor]. repeat split; discriminate. }
  assert (H7 : 30010 + 2 * heartbeat_interval <= 90010)
    by (vm_compute; discriminate).
  assert (H8 : registered
                 (state_of
                    (run (timeline (0 + heartbeat_interval)
                            ([] ++ [(30010, PongEvent 1%nat)]) 30010)
                       demo_server)) 1%nat = true)
    by (vm_compute; reflexivity).
  assert (H9 : ∀ k, 30010 ≠ 0 + k * heartbeat_interval)
    by (intros k; unfold heartbeat_interval; lia).
  split; [exact H1|]. split; [exact H2|]. split; [exact H3|].
  destruct (liveness_sweep 30000 demo_server 1%nat [(30010, PongEvent 0%nat)]
              H1 H2 H3) as (_ & _ & _ & Hterm & _ & Htimed).
  split; [exact Hterm|].
  split; [vm_compute; reflexivity|].
  destruct (Htimed 0 30010 90010 demo_server []
              [(30020, PongEvent 0%nat)] H1 H4 H5 H6 H7 H8)
    as (m1 & m2 & rest & τ & Htl & _ & _ & Hping & Hkill & Hlat & Hstrict).
  exists m1, m2, rest, τ.
  split; [exact Htl|]. split; [exact Hping|]. split; [exact Hkill|].
  split; [apply Hlat | apply Hstrict, H9].
Defined.

(** X11. A registered connection whose pong is handled after the last sweep
    is not terminated by the next one: whatever else happens in between, as
    long as the connection does not close, the next sweep sends it a ping
    and does not terminate it. *)
Theorem answered_connection_survives_sweep (t t' : Z) (s : Server) (h : nat)
    (before after : list (Z * Event)) :
  wf s ->
  h ∈ clients s ->
  stays_connected h before ->
  stays_connected h after ->
  no_sweep after ->
  let s1 := state_of (run (before ++ (t, PongEvent h) :: after) s) in
  let sweep := trace_of (step t' HeartbeatTick s1) in
  h ∈ clients s1
  ∧ PingSocket h ∈ sweep
  ∧ Terminate h ∉ sweep.
Proof.
  intros Hwf Hin Hb Ha Hns s1 sweep.
  assert (Hrun_reg : ∀ evs s0, h ∈ clients s0 → stays_connected h evs →
            h ∈ clients (state_of (run evs s0))).
  { induction evs as [|[now ev] evs IH]; intros s0 Hin0 Hst; [exact Hin0|].
    apply Forall_cons in Hst as [Hc Hst]. cbn in Hc.
    cbn [run]. rewrite state_of_bind. apply IH; [|exact Hst].
    apply step_keeps_registered; assumption. }
  set (s0 := state_of (run before s)).
  assert (Hwf0 : wf s0) by (apply run_wf, Hwf).
  assert (Hin0 : h ∈ clients s0) by (apply Hrun_reg; assumption).
  set (sp := state_of (step t (PongEvent h) s0)).
  assert (Hwfp : wf sp) by (apply step_wf, Hwf0).
  assert (Hinp : h ∈ clients sp).
  { apply step_keeps_registered; [exact Hin0 | discriminate]. }
  assert (Halp : isAlive (socket_of sp h) = true).
  { subst sp. rewrite step_state.
    assert (Hr : registered s0 h = true) by (apply bool_decide_eq_true_2, Hin0).
    rewrite Hr, socket_of_assign.
    destruct (decide (h = h)); [reflexivity | congruence]. }
  assert (Hs1 : s1 = state_of (run after sp)).
  { subst s1. rewrite state_of_run_app. fold s0.
    change ((t, PongEvent h) :: after) with ([(t, PongEvent h)] ++ after).
    rewrite state_of_run_app. destruct (run_one t (PongEvent h) s0) as [-> _].
    reflexivity. }
  assert (Hkeep : ∀ evs s', wf s' → h ∈ clients s' →
            isAlive (socket_of s' h) = true →
            stays_connected h evs → no_sweep evs →
            h ∈ clients (state_of (run evs s'))
            ∧ isAlive (socket_of (state_of (run evs s')) h) = true).
  { induction evs as [|[now ev] evs IH]; intros s' Hwf' Hin' Hal' Hst Hno;
      [split; assumption|].
    apply Forall_cons in Hst as [Hc Hst]. apply Forall_cons in Hno as [Hn Hno].
    cbn in Hc, Hn. cbn [run]. rewrite state_of_bind.
    apply IH; [apply step_wf, Hwf' | apply step_keeps_registered; assumption
              | apply step_keeps_alive; assumption | exact Hst | exact Hno]. }
  destruct (Hkeep after sp Hwfp Hinp Halp Ha Hns) as [Hin1 Hal1].
  rewrite <- Hs1 in Hin1, Hal1.
  assert (Hwf1 : wf s1) by (rewrite Hs1; apply run_wf, Hwfp).
  split; [exact Hin1|].
  subst sweep. cbn [step]. rewrite heartbeat_run by apply Hwf1.
  unfold trace_of. cbn [fst snd]. split.
  - apply list_elem_of_fmap. exists h. split; [|exact Hin1].
    unfold sweep_effect. rewrite Hal1. reflexivity.
  - intros Hterm. apply list_elem_of_fmap in Hterm as (c & Heq & _).
    unfold sweep_effect in Heq.
    destruct (isAlive (socket_of s1 c)) eqn:Hc; [discriminate|].
    injection Heq as <-. congruence.
Qed.

Lemma answered_connection_survives_sweep_witness :
  wf demo_server
  ∧ 1%nat ∈ clients demo_server
  ∧ stays_connected 1%nat [(30000, HeartbeatTick)]
  ∧ stays_connected 1%nat
      [(30020, MessageEvent 0%nat (InMessage (Some "CASE1") (Some "hi") None))]
  ∧ no_sweep
      [(30020, MessageEvent 0%nat (InMessage (Some "CASE1") (Some "hi") None))]
  ∧ Terminate 1%nat
    ∉ trace_of
        (step 60000 HeartbeatTick
           (state_of
              (run ([(30000, HeartbeatTick)]
                    ++ (30010, PongEvent 1%nat)
                       :: [(30020,
                            MessageEvent 0%nat
                              (InMessage (Some "CASE1") (Some "hi") None))])
                 demo_server))).
Proof.
  assert (H0 : wf demo_server).
  { split.
    - apply (bool_decide_unpack _). vm_compute. exact I.
    - apply Forall_forall. apply (bool_decide_unpack _). vm_compute. exact I. }
  assert (H1 : 1%nat ∈ clients demo_server) by (vm_compute; right; left).
  assert (H2 : stays_connected 1%nat [(30000, HeartbeatTick)])
    by (constructor; [discriminate | constructor]).
  assert (H3 : stays_connected 1%nat
                 [(30020, MessageEvent 0%nat
                            (InMessage (Some "CASE1") (Some "hi") None))])
    by (constructor; [discriminate | constructor]).
  assert (H4 : no_sweep
                 [(30020, MessageEvent 0%nat
                            (InMessage (Some "CASE1") (Some "hi") None))])
    by (constructor; [discriminate | constructor]).
  repeat (split; [assumption|]).
  destruct (answered_connection_survives_sweep 30010 60000 demo_server 1%nat
              [(30000, HeartbeatTick)]
              [(30020, MessageEvent 0%nat
                         (InMessage (Some "CASE1") (Some "hi") None))]
              H0 H1 H2 H3 H4) as (_ & _ & Hnot).
  exact Hnot.
Defined.

(** ** The store only grows *)

Lemma message_store_grows (now : Z) (ws : nat) (data : Inbound) (s : Server) :
  messages (storage s)
    `prefix_of` messages (storage (state_of (handle_message now ws data s)))
  ∧ statusUpdatesColl (storage s)
      `prefix_of`
      statusUpdatesColl (storage (state_of (handle_message now ws data s)))
  ∧ available (storage (state_of (handle_message now ws data s)))
    = available (storage s).
Proof.
  destruct data; cbn [handle_message]; handler_cases;
    unfold Store.addMessageToChannel, Store.addStatusUpdate, set_storage;
    cbn; repeat case_match; cbn;
    repeat split; first [reflexivity | apply prefix_app_r; reflexivity | done].
Qed.

Lemma step_store_grows (now : Z) (ev : Event) (s : Server) :
  messages (storage s) `prefix_of` messages (storage (state_of (step now ev s)))
  ∧ statusUpdatesColl (storage s)
      `prefix_of` statusUpdatesColl (storage (state_of (step now ev s))).
Proof.
  rewrite step_state. destruct ev as [|h data|h|h| |down];
    try (split; reflexivity).
  - destruct (registered s h); [|split; reflexivity].
    destruct (message_store_grows now h data s) as (H1 & H2 & _).
    split; assumption.
  - destruct (registered s h); split; reflexivity.
  - destruct (registered s h); [|split; reflexivity].
    rewrite on_close_run. unfold state_of. cbn [fst snd].
    destruct (JS.truthy_str (channelId (socket_of s h))
              && JS.truthy_str (username (socket_of s h)));
      [|split; reflexivity].
    unfold Store.addMessageToChannel, set_storage. cbn.
    destruct (available (storage s)); cbn; split;
      first [reflexivity | apply prefix_app_r; reflexivity].
  - rewrite heartbeat_state.
    destruct (sweep_frame (clients s) s) as (_ & _ & _ & ->).
    split; reflexivity.
Qed.

Lemma run_store_grows (evs : list (Z * Event)) (s : Server) :
  messages (storage s) `prefix_of` messages (storage (state_of (run evs s)))
  ∧ statusUpdatesColl (storage s)
      `prefix_of` statusUpdatesColl (storage (state_of (run evs s))).
Proof.
  revert s. induction evs as [|[now ev] evs IH]; intros s;
    [split; reflexivity|].
  cbn [run]. rewrite state_of_bind.
  destruct (step_store_grows now ev s) as [H1 H2].
  destruct (IH (state_of (step now ev s))) as [H3 H4].
  split; etransitivity; eassumption.
Qed.

Lemma join_sends_history_first (now : Z) (ws : nat) (s : Server)
    (cid patientId : option string) (name : JS.value) :
  registered s ws = true ->
  is_open s ws = true ->
  available (storage s) = true ->
  ∃ msgs rest,
    Store.getChannelMessages cid (storage s) = Some msgs
    ∧ trace_of (step now (MessageEvent ws (InJoin cid patientId name)) s)
      = Send ws (FHistory msgs) :: rest.
Proof.
  intros Hreg Hopen Hav.
  pose proof (getChannelMessages_lists cid (storage s)) as Hlist.
  rewrite Hav in Hlist. destruct Hlist as (msgs & Hmsgs & _).
  exists msgs.
  rewrite step_handle_message by (exact Hreg || discriminate).
  cbn [handle_message]. unfold handle_join. run_handler.
  set (s1 := push_member ws cid (assign ws (set_channelId cid) s)).
  assert (Ho1 : deliver s1 (FHistory msgs) [ws] = [Send ws (FHistory msgs)]).
  { apply deliver_open. unfold is_open. subst s1.
    rewrite socket_of_push_member, readyState_assign by reflexivity.
    exact Hopen. }
  change (storage s1) with (storage s). rewrite Hmsgs. cbn.
  change (storage s1) with (storage s).
  destruct (Store.getPatientById patientId (storage s)) as [[p|]|]; cbn;
    change (storage s1) with (storage s);
    try destruct (Store.getStatusUpdates patientId (storage s)); cbn;
    rewrite ?Ho1; eexists; (split; [reflexivity|]); cbn; reflexivity.
Qed.

(** X12. Nothing this server does removes or rewrites a stored document: the
    [messages] and [statusUpdates] collections after any run of events
    extend the collections before it. Hence a chat message that was stored
    is replayed: after a [message] or [attachment] event handled while the
    store is reachable, every later [join] of that channel by a registered
    open connection, made while the store is reachable, is answered with a
    [history] batch that contains the stored message. *)
Theorem stored_chat_is_replayed (now : Z) (ws : nat) (s : Server) (att : bool)
    (cid content : option string)
    (attachments : option (list IncomingAttachment)) :
  registered s ws = true ->
  unidentified (socket_of s ws) = false ->
  JS.truthy_str cid = true ->
  available (storage s) = true ->
  let s1 :=
    state_of
      (step now (MessageEvent ws (chat_event att cid content attachments)) s) in
  (∀ evs,
     messages (storage s)
       `prefix_of` messages (storage (state_of (run evs s)))
     ∧ statusUpdatesColl (storage s)
         `prefix_of` statusUpdatesColl (storage (state_of (run evs s))))
  ∧ ∃ doc,
      msg_channelId doc = cid
      ∧ msg_content doc = content
      ∧ msg_senderId doc = Some (identity (socket_of s ws))
      ∧ msg_createdAt doc = now
      ∧ ∀ evs now' ws' patientId name,
          let s2 := state_of (run evs s1) in
          registered s2 ws' = true →
          is_open s2 ws' = true →
          available (storage s2) = true →
          ∃ msgs rest,
            trace_of
              (step now' (MessageEvent ws' (InJoin cid patientId name)) s2)
            = Send ws' (FHistory msgs) :: rest
            ∧ doc ∈ msgs.
Proof.
  intros Hreg Hid Hcid Hav s1.
  split; [intros evs; apply run_store_grows|].
  assert (Hs1 : ∃ doc,
            doc ∈ messages (storage s1)
            ∧ msg_channelId doc = cid ∧ msg_content doc = content
            ∧ msg_senderId doc = Some (identity (socket_of s ws))
            ∧ msg_createdAt doc = now).
  { subst s1. rewrite step_chat by exact Hreg.
    unfold handle_chat. run_handler. rewrite Hid, Hcid. cbn.
    rewrite (stored_identity_identified _ Hid).
    unfold Store.addMessageToChannel, set_storage. rewrite Hav. cbn.
    eexists. split; [apply elem_of_app; right; left|]. repeat split. }
  destruct Hs1 as (doc & Hin & Hc & Hco & Hsn & Hat).
  exists doc. repeat (split; [assumption|]).
  intros evs now' ws' patientId name s2 Hreg2 Hopen2 Hav2.
  destruct (join_sends_history_first now' ws' s2 cid patientId name
              Hreg2 Hopen2 Hav2) as (msgs & rest & Hmsgs & Ht).
  exists msgs, rest. split; [exact Ht|].
  pose proof (getChannelMessages_lists cid (storage s2)) as Hperm.
  rewrite Hav2 in Hperm. destruct Hperm as (msgs' & Hmsgs' & Hperm).
  assert (msgs' = msgs) as -> by congruence.
  rewrite Hperm.
  apply list_elem_of_filter. split; [exact Hc|].
  destruct (run_store_grows evs s1) as [[k Hk] _]. fold s2 in Hk.
  rewrite Hk. apply elem_of_app. left. exact Hin.
Qed.

Lemma stored_chat_is_replayed_witness :
  registered two_users 0%nat = true
  ∧ unidentified (socket_of two_users 0%nat) = false
  ∧ JS.truthy_str (Some "CASE1") = true
  ∧ available (storage two_users) = true
  ∧ ∃ doc msgs rest,
      msg_content doc = Some "hello"
      ∧ trace_of
          (step 20 (MessageEvent 1%nat (InJoin (Some "CASE1") None None))
             (state_of
                (run [(10, StorageOutage true); (11, StorageOutage false)]
                   (state_of
                      (step 9
                         (MessageEvent 0%nat
                            (InMessage (Some "CASE1") (Some "hello") None))
                         two_users)))))
        = Send 1%nat (FHistory msgs) :: rest
      ∧ doc ∈ msgs.
Proof.
  assert (H1 : registered two_users 0%nat = true) by (vm_compute; reflexivity).
  assert (H2 : unidentified (socket_of two_users 0%nat) = false)
    by (vm_compute; reflexivity).
  assert (H3 : JS.truthy_str (Some "CASE1") = true) by reflexivity.
  assert (H4 : available (storage two_users) = true) by (vm_compute; reflexivity).
  split; [exact H1|]. split; [exact H2|]. split; [exact H3|]. split; [exact H4|].
  destruct (stored_chat_is_replayed 9 0%nat two_users false (Some "CASE1")
              (Some "hello") None H1 H2 H3 H4)
    as (_ & doc & _ & Hcontent & _ & _ & Hreplay).
  destruct (Hreplay [(10, StorageOutage true); (11, StorageOutage false)] 20
              1%nat None None) as (msgs & rest & Ht & Hin);
    try (vm_compute; reflexivity).
  exists doc, msgs, rest. split; [exact Hcontent|]. split; [exact Ht | exact Hin].
Defined.

(** ** Channels are never destroyed *)

Lemma message_channel_kept (now : Z) (ws : nat) (data : Inbound) (s : Server)
    (c : option string) :
  is_Some (channels s !! c) ->
  is_Some (channels (state_of (handle_message now ws data s)) !! c).
Proof.
  intros Hc.
  destruct data; cbn [handle_message]; handler_cases;
    unfold set_storage, push_member, assign, set_channels, set_sockets; cbn;
    try exact Hc; apply lookup_insert_is_Some';
    right; exact Hc.
Qed.

Lemma step_channel_kept (now : Z) (ev : Event) (s : Server)
    (c : option string) :
  is_Some (channels s !! c) ->
  is_Some (channels (state_of (step now ev s)) !! c).
Proof.
  intros Hc. rewrite step_state.
  destruct ev as [|h data|h|h| |down]; try exact Hc.
  - destruct (registered s h); [|exact Hc]. apply message_channel_kept, Hc.
  - destruct (registered s h); exact Hc.
  - destruct (registered s h); [|exact Hc].
    rewrite on_close_run. unfold state_of. cbn [fst snd].
    destruct (JS.truthy_str (channelId (socket_of s h))
              && JS.truthy_str (username (socket_of s h))); [|exact Hc].
    unfold set_storage, drop_member, set_clients, assign, set_channels,
      set_sockets. cbn.
    destruct (channels s !! channelId (socket_of s h)); [|exact Hc].
    apply lookup_insert_is_Some'. right. exact Hc.
  - rewrite heartbeat_state.
    destruct (sweep_frame (clients s) s) as (_ & _ & -> & _). exact Hc.
Qed.

(** X13. The [channels] map only gains keys. Once a [join] has created the
    member list of a channel id, the map has a list under that id after
    every later run of events, also when every member has left. *)
Theorem channel_is_never_destroyed (now : Z) (ws : nat) (s : Server)
    (cid patientId name : option string) :
  registered s ws = true ->
  let s1 :=
    state_of (step now (MessageEvent ws (InJoin cid patientId name)) s) in
  ws ∈ members s1 cid
  ∧ (∀ evs, is_Some (channels (state_of (run evs s1)) !! cid))
  ∧ (∀ evs c,
       is_Some (channels s1 !! c) →
       is_Some (channels (state_of (run evs s1)) !! c)).
Proof.
  intros Hreg s1.
  assert (Hs1 : s1 = state_of (handle_message now ws (InJoin cid patientId name) s)).
  { subst s1. rewrite step_state, Hreg. reflexivity. }
  assert (Hmem : members s1 cid = members s cid ++ [ws]).
  { rewrite Hs1, message_members.
    destruct (decide (cid = cid)); [reflexivity | congruence]. }
  assert (Hsome : is_Some (channels s1 !! cid)).
  { unfold members in Hmem. destruct (channels s1 !! cid) as [l|]; [eauto|].
    cbn in Hmem. destruct (default [] (channels s !! cid)); discriminate. }
  assert (Hrun : ∀ evs s0 c, is_Some (channels s0 !! c) →
            is_Some (channels (state_of (run evs s0)) !! c)).
  { induction evs as [|[t ev] evs IH]; intros s0 c Hc; [exact Hc|].
    cbn [run]. rewrite state_of_bind. apply IH, step_channel_kept, Hc. }
  split.
  { rewrite Hmem. apply elem_of_app. right. left. }
  split; [intros evs; apply Hrun, Hsome|].
  intros evs c Hc. apply Hrun, Hc.
Qed.

Lemma channel_is_never_destroyed_witness :
  registered two_users 1%nat = true
  ∧ members
      (state_of
         (run [(10, CloseEvent 1%nat)]
            (state_of
               (step 9
                  (MessageEvent 1%nat (InJoin (Some "WARD7") None None))
                  two_users))))
      (Some "WARD7")
    = []
  ∧ is_Some
      (channels
         (state_of
            (run [(10, CloseEvent 1%nat)]
               (state_of
                  (step 9
                     (MessageEvent 1%nat (InJoin (Some "WARD7") None None))
                     two_users))))
       !! Some "WARD7").
Proof.
  assert (H1 : registered two_users 1%nat = true) by (vm_compute; reflexivity).
  split; [exact H1|]. split; [vm_compute; reflexivity|].
  destruct (channel_is_never_destroyed 9 1%nat two_users (Some "WARD7") None
              None H1) as (_ & Hkept & _).
  apply Hkept.
Defined.

(** ** Frames go to registered connections only *)

Lemma elem_of_unsubscribe (h x : nat) (l : list nat) :
  x ∈ unsubscribe h l -> x ∈ l.
Proof.
  induction l as [|y l IH]; [intros H; exact H|].
  rewrite unsubscribe_cons. destruct (decide (y = h)).
  - intros H. right. exact H.
  - intros H. apply elem_of_cons in H as [->|H]; [left | right; auto].
Qed.

Lemma send_in_deliver (s : Server) (f f' : Frame) (l : list nat) (h : nat) :
  Send h f' ∈ deliver s f l -> h ∈ l ∧ is_open s h = true.
Proof.
  unfold deliver. intros H. apply list_elem_of_fmap in H as (c & Heq & Hc).
  injection Heq as -> _. apply list_elem_of_filter in Hc as [Ho Hc].
  split; [exact Hc | apply Is_true_true, Ho].
Qed.

Lemma open_is_registered (s : Server) (h : nat) :
  tidy s -> (h < nextSocket s)%nat -> is_open s h = true -> h ∈ clients s.
Proof.
  intros (_ & _ & Hclosed) Hlt Ho.
  destruct (decide (h ∈ clients s)) as [|Hn]; [assumption|].
  unfold is_open in Ho. rewrite (Hclosed h Hlt Hn) in Ho. discriminate.
Qed.

Lemma reg_deliver (s s1 : Server) (f : Frame) (l : list nat) :
  tidy s ->
  (∀ c, readyState (socket_of s1 c) = readyState (socket_of s c)) ->
  (∀ c, c ∈ l → (c < nextSocket s)%nat) ->
  Forall (to_registered s) (deliver s1 f l).
Proof.
  intros Ht Hrs Hl. rewrite (deliver_ext s s1) by exact Hrs.
  apply Forall_forall. intros e He. destruct e; try exact I.
  apply send_in_deliver in He as [Hin Ho].
  apply open_is_registered; auto.
Qed.

Lemma reg_targeted (s : Server) (f : Frame) (T : list string)
    (cid : option string) :
  tidy s ->
  Forall (to_registered s)
    ((fun h => Send h f) <$> filter (fun h => targeted s T h) (members s cid)).
Proof.
  intros Ht. apply Forall_fmap, Forall_forall. intros h Hh. cbn.
  apply list_elem_of_filter in Hh as [Htg Hin].
  apply open_is_registered; [exact Ht | destruct Ht as (_ & Hm & _); eauto|].
  apply Is_true_true in Htg. unfold targeted in Htg.
  apply andb_true_iff in Htg as [Htg _]. apply andb_true_iff in Htg as [Ho _].
  exact Ho.
Qed.

Lemma scan_clients_registered (s : Server) (wanted : string) (h : nat) :
  scan_clients s wanted = Some h -> h ∈ clients s.
Proof.
  unfold scan_clients. intros H.
  apply last_filter_Some in H as (_ & l1 & l2 & -> & _).
  apply elem_of_app. right. left.
Qed.

Lemma message_to_registered (now : Z) (ws : nat) (data : Inbound) (s : Server) :
  tidy s ->
  registered s ws = true ->
  Forall (to_registered s) (trace_of (handle_message now ws data s)).
Proof.
  intros Ht Hreg. pose proof Ht as ((Hnd & Hlt) & Hmem & Hclosed).
  assert (Hws : (ws < nextSocket s)%nat).
  { apply Hlt. apply bool_decide_eq_true in Hreg. exact Hreg. }
  destruct data; cbn [handle_message]; handler_cases;
    repeat first [ apply Forall_nil_2 | apply Forall_app_2 | apply Forall_cons_2
                 | apply reg_targeted; exact Ht
                 | apply reg_deliver; [exact Ht | |] | exact I ].
  all: try (intros ?; sockets_after; repeat case_decide; subst; reflexivity).
  all: intros x Hx;
    rewrite ?members_set_storage, ?members_push_member in Hx;
    repeat case_decide; try congruence;
    rewrite ?members_assign in Hx;
    try (apply elem_of_app in Hx as [Hx|Hx]);
    try (apply list_elem_of_singleton in Hx; subst x);
    first [ exact Hws | apply Hlt; assumption | eapply Hmem; eassumption
          | apply Hlt; eapply scan_clients_registered; eassumption ].
Qed.


Lemma received_unregistered (s : Server) (t : list Effect) (h : nat) :
  Forall (to_registered s) t -> h ∉ clients s -> received h t = [].
Proof.
  intros Ht Hn. induction t as [|e t IH]; [reflexivity|].
  apply Forall_cons in Ht as [He Ht]. unfold received in *. cbn.
  destruct e as [to f| | | |]; cbn; try (apply IH, Ht).
  destruct (decide (to = h)) as [->|]; [contradiction | apply IH, Ht].
Qed.

Lemma step_tidy (now : Z) (ev : Event) (s : Server) :
  tidy s -> tidy (state_of (step now ev s)).
Proof.
  intros Ht. pose proof Ht as (Hwf & Hmem & Hclosed).
  split; [apply step_wf, Hwf|]. destruct Hwf as [Hnd Hlt].
  rewrite step_state. destruct ev as [|h' data|h'|h'| |down].
  - split.
    + intros cid h Hh. change (members (accept s) cid) with (members s cid) in Hh.
      apply Hmem in Hh. unfold accept. cbn. lia.
    + intros h Hh Hn. rewrite socket_of_accept.
      unfold accept in Hh, Hn. cbn in Hh, Hn.
      destruct (decide (h = nextSocket s)) as [->|Hne].
      * exfalso. apply Hn, elem_of_app. right. left.
      * apply Hclosed; [lia|]. intros Hin. apply Hn, elem_of_app. left. exact Hin.
  - destruct (registered s h') eqn:Hreg; [|split; assumption].
    destruct (message_clients now h' data s) as [Hcl Hnx].
    rewrite Hcl, Hnx. split.
    + intros cid h Hh. rewrite message_members in Hh.
      destruct data; try (eapply Hmem; exact Hh).
      destruct (decide (cid = cid0)); [|eapply Hmem; exact Hh].
      apply elem_of_app in Hh as [Hh|Hh]; [eapply Hmem; exact Hh|].
      apply list_elem_of_singleton in Hh. subst h.
      apply Hlt. apply bool_decide_eq_true in Hreg. exact Hreg.
    + intros h Hh Hn.
      destruct (message_liveness now h' data s h) as [_ ->]. auto.
  - destruct (registered s h') eqn:Hreg; [|split; assumption].
    split; [exact Hmem|].
    intros h Hh Hn. rewrite readyState_assign by reflexivity.
    apply Hclosed; assumption.
  - destruct (registered s h') eqn:Hreg; [|split; assumption].
    destruct (on_close_registry now h' s) as (Hcl & Hnx & Hsock).
    rewrite Hcl, Hnx. split.
    + intros cid h Hh. rewrite on_close_members in Hh.
      destruct (_ && _ && _) in Hh; [apply elem_of_unsubscribe in Hh|];
        eapply Hmem; exact Hh.
    + intros h Hh Hn. rewrite Hsock.
      destruct (decide (h = h')) as [->|Hne]; [reflexivity|].
      apply Hclosed; [exact Hh|]. intros Hin. apply Hn.
      apply list_elem_of_filter. split; assumption.
  - rewrite heartbeat_state.
    destruct (sweep_frame (clients s) s) as (Hcl & Hnx & Hch & _).
    rewrite Hcl, Hnx. split.
    + intros cid h Hh. unfold members in Hh. rewrite Hch in Hh.
      eapply Hmem. exact Hh.
    + intros h Hh Hn. rewrite sweep_socket by exact Hnd.
      destruct (decide (h ∈ clients s)); [contradiction|]. auto.
  - split; assumption.
Qed.

Lemma run_tidy (evs : list (Z * Event)) (s : Server) :
  tidy s -> tidy (state_of (run evs s)).
Proof.
  revert s. induction evs as [|[now ev] evs IH]; intros s Ht; [exact Ht|].
  cbn [run]. rewrite state_of_bind. apply IH, step_tidy, Ht.
Qed.

Lemma init_tidy (st : Storage) : tidy (init st).
Proof.
  split; [apply init_wf|]. split.
  - intros cid h Hh. unfold members, init in Hh. cbn in Hh.
    rewrite lookup_empty in Hh. inversion Hh.
  - intros h Hh. unfold init in Hh. cbn in Hh. lia.
Qed.

Lemma step_to_registered (now : Z) (ev : Event) (s : Server) :
  tidy s ->
  Forall (to_registered (state_of (step now ev s))) (trace_of (step now ev s)).
Proof.
  intros Ht. pose proof Ht as ((Hnd & Hlt) & Hmem & Hclosed).
  destruct ev as [|h' data|h'|h'| |down].
  - cbn. constructor; [|constructor]. cbn. unfold accept. cbn.
    apply elem_of_app. right. left.
  - rewrite step_state. cbn [step]. rewrite trace_of_bind.
    unfold get, value_of, state_of at 1, trace_of at 1. cbn [fst snd app].
    destruct (registered s h') eqn:Hreg; [|constructor].
    assert (Hsame : ∀ e, to_registered s e →
              to_registered (state_of (handle_message now h' data s)) e).
    { intros [] He; try exact I. cbn in *.
      destruct (message_clients now h' data s) as [-> _]. exact He. }
    rewrite trace_of_bind, test_listener_state.
    apply Forall_app_2.
    + eapply Forall_impl; [|exact Hsame].
      destruct data; try constructor. cbn [handle_test].
      apply reg_deliver; [exact Ht | reflexivity|].
      intros c Hc. apply list_elem_of_singleton in Hc. subst c.
      apply Hlt. apply bool_decide_eq_true in Hreg. exact Hreg.
    + eapply Forall_impl; [|exact Hsame].
      apply message_to_registered; assumption.
  - cbn [step]. rewrite trace_of_bind.
    unfold get, value_of, state_of at 1, trace_of at 1. cbn [fst snd app].
    destruct (registered s h'); constructor.
  - rewrite step_state. cbn [step]. rewrite trace_of_bind.
    unfold get, value_of, state_of at 1, trace_of at 1. cbn [fst snd app].
    destruct (registered s h') eqn:Hreg; [|constructor].
    destruct (on_close_registry now h' s) as (Hcl & _ & _).
    pose proof (on_close_run now h' s) as Hrun. cbv zeta in Hrun.
    unfold trace_of, state_of. cbn [fst snd]. rewrite !Hrun. cbn [fst snd].
    set (w := socket_of s h').
    set (s1 := set_clients _ _).
    assert (Hto : ∀ (tail : list Effect) e, e ∈ tail →
              (∀ c f, Send c f ∈ tail → c ∈ filter (fun c => c ≠ h') (clients s)) →
              to_registered
                (if JS.truthy_str (channelId w) && JS.truthy_str (username w)
                 then set_storage
                        (Store.addMessageToChannel now (channelId w)
                           {| nm_type := "system";
                              nm_senderId := stored_identity w;
                              nm_content :=
                                Some (JS.template (username w)
                                      +:+ " has left the channel");
                              nm_attachments := None |} (storage s)).2
                        (drop_member h' (channelId w) s1)
                 else s1) e).
    { intros tail e He Htail. destruct e as [c f| | | |]; try exact I.
      cbn. destruct (_ && _); apply (Htail c f He). }
    apply Forall_forall. intros e He. apply (Hto _ e He).
    intros c f Hc. apply elem_of_app in Hc as [Hc|Hc].
    + destruct (_ || _) in Hc; [|inversion Hc].
      apply send_in_deliver in Hc as [Hc _]. exact Hc.
    + destruct (_ && _) in Hc; [|inversion Hc].
      apply elem_of_app in Hc as [Hc|Hc];
        [|apply list_elem_of_singleton in Hc; discriminate].
      apply send_in_deliver in Hc as [Hin Ho].
      rewrite members_drop_member in Hin.
      destruct (decide (channelId w = channelId w)); [|congruence].
      apply elem_of_unsubscribe in Hin.
      change (members s1 (channelId w)) with (members s (channelId w)) in Hin.
      unfold is_open in Ho. rewrite socket_of_drop_member in Ho.
      subst s1. rewrite socket_of_set_clients, socket_of_assign in Ho.
      destruct (decide (c = h')) as [->|Hne]; [discriminate|].
      apply list_elem_of_filter. split; [exact Hne|].
      apply open_is_registered; [exact Ht | eapply Hmem; exact Hin | exact Ho].
  - cbn [step]. rewrite heartbeat_run by exact Hnd.
    unfold trace_of. cbn [fst snd]. apply Forall_fmap, Forall_forall.
    intros c _. cbn. unfold sweep_effect. destruct (isAlive _); exact I.
  - constructor.
Qed.

Lemma step_keeps_unregistered (now : Z) (ev : Event) (s : Server) (h : nat) :
  (h < nextSocket s)%nat -> h ∉ clients s ->
  (h < nextSocket (state_of (step now ev s)))%nat
  ∧ h ∉ clients (state_of (step now ev s)).
Proof.
  intros Hlt Hn. rewrite step_state.
  destruct ev as [|h' data|h'|h'| |down]; try (split; assumption).
  - unfold accept. cbn. split; [lia|]. intros Hin.
    apply elem_of_app in Hin as [Hin|Hin]; [contradiction|].
    apply list_elem_of_singleton in Hin. lia.
  - destruct (registered s h'); [|split; assumption].
    destruct (message_clients now h' data s) as [-> ->]. split; assumption.
  - destruct (registered s h'); split; assumption.
  - destruct (registered s h'); [|split; assumption].
    destruct (on_close_registry now h' s) as (-> & -> & _).
    split; [exact Hlt|]. intros Hin.
    apply list_elem_of_filter in Hin as [_ Hin]. contradiction.
  - rewrite heartbeat_state.
    destruct (sweep_frame (clients s) s) as (-> & -> & _). split; assumption.
Qed.

(** X14. In every run from the initial server a frame is written only to a
    connection that is in [wss.clients] once the callback has run. In
    particular a connection receives nothing from its own [close] event and
    nothing from any event after it, and is never registered again, although
    entries for it may remain in member lists. *)
Theorem closed_connection_receives_nothing (st : Storage)
    (before after : list (Z * Event)) (now : Z) (h : nat) :
  let s := state_of (run before (init st)) in
  registered s h = true ->
  let closing := step now (CloseEvent h) s in
  (∀ now' ev,
     Forall (to_registered (state_of (step now' ev s)))
       (trace_of (step now' ev s)))
  ∧ received h (trace_of closing) = []
  ∧ received h (trace_of (run after (state_of closing))) = []
  ∧ registered (state_of (run after (state_of closing))) h = false.
Proof.
  intros s Hreg closing.
  assert (Ht : tidy s) by (apply run_tidy, init_tidy).
  assert (Ht' : tidy (state_of closing)) by (apply step_tidy, Ht).
  assert (Hlt : (h < nextSocket (state_of closing))%nat).
  { subst closing. rewrite step_state, Hreg.
    destruct (on_close_registry now h s) as (_ & -> & _).
    destruct Ht as ((_ & Hl) & _). apply Hl.
    apply bool_decide_eq_true in Hreg. exact Hreg. }
  assert (Hn : h ∉ clients (state_of closing)).
  { subst closing. rewrite step_state, Hreg.
    destruct (on_close_registry now h s) as (-> & _).
    intros Hin. apply list_elem_of_filter in Hin as [Hne _]. congruence. }
  split; [intros now' ev; apply step_to_registered, Ht|].
  split.
  { eapply received_unregistered; [apply step_to_registered, Ht | exact Hn]. }
  assert (Hrun : ∀ evs s0, tidy s0 → (h < nextSocket s0)%nat → h ∉ clients s0 →
            received h (trace_of (run evs s0)) = []
            ∧ h ∉ clients (state_of (run evs s0))).
  { induction evs as [|[t ev] evs IH]; intros s0 Ht0 Hlt0 Hn0;
      [split; [reflexivity | exact Hn0]|].
    cbn [run]. rewrite trace_of_bind, state_of_bind, received_app.
    destruct (step_keeps_unregistered t ev s0 h Hlt0 Hn0) as [Hlt1 Hn1].
    destruct (IH (state_of (step t ev s0)) (step_tidy t ev s0 Ht0) Hlt1 Hn1)
      as [Hr1 Hn2].
    rewrite (received_unregistered (state_of (step t ev s0)))
      by (apply step_to_registered, Ht0 || exact Hn1).
    split; [exact Hr1 | exact Hn2]. }
  destruct (Hrun after (state_of closing) Ht' Hlt Hn) as [Hr Hnr].
  split; [exact Hr|]. apply bool_decide_eq_false_2. exact Hnr.
Qed.

Lemma closed_connection_receives_nothing_witness :
  registered (state_of (run moved_on (init demo_store))) 1%nat = true
  ∧ 1%nat ∈ members
      (state_of
         (step 8 (CloseEvent 1%nat) (state_of (run moved_on (init demo_store)))))
      (Some "CASE1")
  ∧ received 1%nat
      (trace_of
         (run [(9, MessageEvent 0%nat
                     (InMessage (Some "CASE1") (Some "hello") None));
               (10, MessageEvent 1%nat InPing)]
            (state_of
               (step 8 (CloseEvent 1%nat)
                  (state_of (run moved_on (init demo_store)))))))
    = [].
Proof.
  assert (H1 : registered (state_of (run moved_on (init demo_store))) 1%nat
               = true) by (vm_compute; reflexivity).
  split; [exact H1|].
  split; [apply (bool_decide_unpack _); vm_compute; exact I|].
  destruct (closed_connection_receives_nothing demo_store moved_on
              [(9, MessageEvent 0%nat
                     (InMessage (Some "CASE1") (Some "hello") None));
               (10, MessageEvent 1%nat InPing)] 8 1%nat H1)
    as (_ & _ & Hr & _).
  exact Hr.
Defined.

(** ** The account table *)

Import Db MemStorage Auth Routes.

Lemma Map_set_fresh (id : Z) (u : User) (m : list (Z * User)) :
  id ∉ m.*1 -> Map_set id u m = m ++ [(id, u)].
Proof.
  induction m as [|[k v] m IH]; intros Hn; [reflexivity|].
  cbn. destruct (decide (k = id)) as [->|Hne].
  - exfalso. apply Hn. left.
  - rewrite IH; [reflexivity|]. intros Hin. apply Hn. right. exact Hin.
Qed.

Lemma table_fresh (t : Table) : table_ok t -> currentId t ∉ (users t).*1.
Proof.
  intros (_ & Hlt & _) Hin.
  apply list_elem_of_fmap in Hin as ([k u] & Hk & Hin).
  cbn in Hk. subst k. apply Hlt in Hin as [? _]. lia.
Qed.

Lemma createUser_appends (row : InsertUser) (t : Table) :
  table_ok t ->
  users (createUser row t).2
  = users t ++ [(currentId t, (createUser row t).1)]
  ∧ currentId (createUser row t).2 = currentId t + 1
  ∧ table_ok (createUser row t).2.
Proof.
  intros Hok. pose proof (table_fresh t Hok) as Hfresh.
  unfold createUser. cbn [fst snd users currentId].
  rewrite Map_set_fresh by exact Hfresh.
  split; [reflexivity|]. split; [reflexivity|].
  destruct Hok as (Hpos & Hlt & Hnd). split; [cbn; lia|]. split.
  - intros k u Hin. cbn [users currentId] in *.
    apply elem_of_app in Hin as [Hin|Hin].
    + apply Hlt in Hin as (? & ? & ?). repeat split; [lia..|assumption|assumption].
    + apply list_elem_of_singleton in Hin. inversion Hin; subst. cbn.
      repeat split; lia.
  - cbn [users]. rewrite fmap_app. apply NoDup_app. split; [exact Hnd|].
    split; [|cbn; apply NoDup_singleton].
    intros k Hk Hk'. cbn in Hk'. apply list_elem_of_singleton in Hk'.
    subst k. contradiction.
Qed.

Lemma constructor_ok : table_ok constructor.
Proof.
  split; [cbn; lia|].
  split; [intros k u Hin; inversion Hin | cbn; constructor].
Qed.

Lemma findOne_Some {A : Type} (P : A -> Prop) `{!∀ x, Decision (P x)}
    (l : list A) (x : A) :
  findOne P l = Some x -> P x ∧ x ∈ l.
Proof.
  unfold findOne. intros Heq. apply fmap_Some in Heq as ([i y] & Hf & ->).
  apply list_find_Some in Hf as (Hl & HP & _). split; [exact HP|].
  eapply list_elem_of_lookup_2. exact Hl.
Qed.

Lemma findOne_app_l {A : Type} (P : A -> Prop) `{!∀ x, Decision (P x)}
    (l k : list A) (x : A) :
  findOne P l = Some x -> findOne P (l ++ k) = Some x.
Proof.
  unfold findOne. intros Heq. apply fmap_Some in Heq as ([i y] & Hf & ->).
  rewrite (list_find_app_l _ _ _ _ _ Hf). reflexivity.
Qed.

Lemma findOne_app_r {A : Type} (P : A -> Prop) `{!∀ x, Decision (P x)}
    (l k : list A) :
  findOne P l = None -> findOne P (l ++ k) = findOne P k.
Proof.
  unfold findOne. intros Heq. apply fmap_None in Heq.
  rewrite list_find_app_r by exact Heq.
  destruct (list_find P k) as [[i y]|]; reflexivity.
Qed.

Lemma findOne_None {A : Type} (P : A -> Prop) `{!∀ x, Decision (P x)}
    (l : list A) :
  findOne P l = None <-> Forall (fun x => ¬ P x) l.
Proof.
  unfold findOne. rewrite fmap_None. apply list_find_None.
Qed.

Lemma getUser_findOne (id : Z) (t : Table) :
  getUser id t = snd <$> findOne (fun kv : Z * User => kv.1 = id) (users t).
Proof.
  unfold getUser, findOne. destruct (list_find _ _) as [[i [k u]]|]; reflexivity.
Qed.

Lemma getUserByUsername_findOne (name : option string) (t : Table) :
  getUserByUsername name t
  = snd <$> findOne (fun kv : Z * User => u_username kv.2 = name) (users t).
Proof.
  unfold getUserByUsername, findOne.
  destruct (list_find _ _) as [[i [k u]]|]; reflexivity.
Qed.

Lemma getUser_prefix (id : Z) (t t' : Table) (u : User) :
  users t `prefix_of` users t' ->
  getUser id t = Some u -> getUser id t' = Some u.
Proof.
  intros [k Hk]. rewrite !getUser_findOne, Hk. intros Heq.
  apply fmap_Some in Heq as (kv & Hf & ->).
  rewrite (findOne_app_l _ _ _ _ Hf). reflexivity.
Qed.

Lemma getUserByUsername_prefix (name : option string) (t t' : Table)
    (u : User) :
  users t `prefix_of` users t' ->
  getUserByUsername name t = Some u -> getUserByUsername name t' = Some u.
Proof.
  intros [k Hk]. rewrite !getUserByUsername_findOne, Hk. intros Heq.
  apply fmap_Some in Heq as (kv & Hf & ->).
  rewrite (findOne_app_l _ _ _ _ Hf). reflexivity.
Qed.

Lemma getUserByUsername_Some (name : option string) (t : Table) (u : User) :
  getUserByUsername name t = Some u ->
  u_username u = name ∧ ∃ k, (k, u) ∈ users t.
Proof.
  rewrite getUserByUsername_findOne. intros Heq.
  apply fmap_Some in Heq as ([k v] & Hf & ->).
  apply findOne_Some in Hf as [HP Hin]. split; [exact HP|].
  exists k. exact Hin.
Qed.

Lemma NoDup_fst_agree {A B : Type} (l : list (A * B)) (k : A) (v v' : B) :
  NoDup l.*1 -> (k, v) ∈ l -> (k, v') ∈ l -> v = v'.
Proof.
  induction l as [|[k0 v0] l IH]; intros Hnd Hin Hin'; [inversion Hin|].
  cbn in Hnd. apply NoDup_cons in Hnd as [Hk Hnd].
  apply elem_of_cons in Hin as [Hin|Hin];
    apply elem_of_cons in Hin' as [Hin'|Hin'].
  - congruence.
  - inversion Hin; subst. exfalso. apply Hk.
    apply list_elem_of_fmap. exists (k0, v'). split; [reflexivity | exact Hin'].
  - inversion Hin'; subst. exfalso. apply Hk.
    apply list_elem_of_fmap. exists (k0, v). split; [reflexivity | exact Hin].
  - apply IH; assumption.
Qed.

(** In a well-formed table a user is found under its own id. *)
Lemma getUser_own (t : Table) (k : Z) (u : User) :
  table_ok t -> (k, u) ∈ users t -> getUser (u_id u) t = Some u.
Proof.
  intros (_ & Hlt & Hnd) Hin. destruct (Hlt k u Hin) as (_ & -> & _).
  rewrite getUser_findOne.
  destruct (findOne (fun kv : Z * User => kv.1 = k) (users t))
    as [[k' u']|] eqn:Hf.
  - apply findOne_Some in Hf as [Hk Hin']. cbn in Hk. subst k'. cbn.
    f_equal. eapply NoDup_fst_agree; eassumption.
  - apply findOne_None in Hf. rewrite Forall_forall in Hf.
    exfalso. apply (Hf _ Hin). reflexivity.
Qed.

Lemma done_created_eq (row : InsertUser) (t : Table) :
  done_created row t
  = (Authenticated (createUser row t).1, (createUser row t).2).
Proof. reflexivity. Qed.

(** The ways the second half of the strategy can end. *)
Lemma staff_login_cases (hash : string -> string -> string)
    (salt username password : string) (db : Database) (t : Table) :
  let r := staff_login hash salt username password db t in
  (reachable db = false ∧ r = (Failed, t))
  ∨ (reachable db = true
     ∧ ((password ≠ "password"
         ∨ (findOne (fun p => ph_empId p = username) (physicians db) = None
            ∧ findOne (fun n => nu_empId n = username) (nurses db) = None))
        ∧ r = (Refused, t)
        ∨ password = "password"
          ∧ ((∃ p, findOne (fun p => ph_empId p = username) (physicians db)
                   = Some p
                   ∧ r = done_created
                           (from_physician hash salt username password p) t)
             ∨ (findOne (fun p => ph_empId p = username) (physicians db)
                = None
                ∧ ∃ n, findOne (fun n => nu_empId n = username) (nurses db)
                       = Some n
                       ∧ r = done_created
                               (from_nurse hash salt username password n)
                               t)))).
Proof.
  unfold staff_login, nurse_login, getPhysicianByEmpId, getNurseByEmpId.
  destruct (reachable db); [right; split; [reflexivity|] | left; auto].
  destruct (findOne (fun p => ph_empId p = username) (physicians db))
    as [p|] eqn:Hp;
    destruct (findOne (fun n => nu_empId n = username) (nurses db))
      as [n|] eqn:Hn;
    destruct (decide (password = "password")) as [Hpw|Hpw]; cbn zeta;
    eauto 10.
Qed.

Lemma staff_login_ok (hash : string -> string -> string)
    (salt username password : string) (db : Database) (t : Table) :
  table_ok t ->
  table_ok (staff_login hash salt username password db t).2
  ∧ users t `prefix_of` users (staff_login hash salt username password db t).2.
Proof.
  intros Hok.
  destruct (staff_login_cases hash salt username password db t)
    as [[_ ->]|(_ & [[_ ->]|(_ & [(p & _ & ->)|(_ & n & _ & ->)])])];
    rewrite ?done_created_eq; cbn [snd]; try (split; [exact Hok | reflexivity]).
  all: match goal with |- context [createUser ?row _] =>
         destruct (createUser_appends row _ Hok) as (Hu & _ & Hok') end.
  all: split; [exact Hok' | rewrite Hu; apply prefix_app_r; reflexivity].
Qed.

Lemma register_cases (hash : string -> string -> string) (salt : string)
    (body : Registration) (t : Table) :
  (∃ u, getUserByUsername (rb_username body) t = Some u
        ∧ register hash salt body t = (UsernameExists, t))
  ∨ (getUserByUsername (rb_username body) t = None
     ∧ rb_password body = None
     ∧ register hash salt body t = (RegistrationError, t))
  ∨ (∃ pw, getUserByUsername (rb_username body) t = None
           ∧ rb_password body = Some pw
           ∧ register hash salt body t
             = (Created (createUser (from_body hash salt pw body) t).1,
                (createUser (from_body hash salt pw body) t).2)).
Proof.
  unfold register.
  destruct (getUserByUsername (rb_username body) t) as [u|]; [eauto|].
  destruct (rb_password body) as [pw|]; [|auto].
  right. right. exists pw. auto.
Qed.

Lemma serve_ok (hash : string -> string -> string)
    (compare : string -> string -> option bool) (db : Database) (r : Request)
    (t : Table) :
  table_ok t ->
  table_ok (serve hash compare db r t)
  ∧ users t `prefix_of` users (serve hash compare db r t).
Proof.
  intros Hok. destruct r as [salt username password|salt body]; cbn [serve].
  - unfold verify.
    destruct (getUserByUsername (Some username) t) as [u|];
      [destruct (compare password (u_password u)) as [[|]|]|];
      cbn [snd]; try (split; [exact Hok | reflexivity]);
      apply staff_login_ok, Hok.
  - destruct (register_cases hash salt body t)
      as [(u & _ & ->)|[(_ & _ & ->)|(pw & _ & _ & ->)]];
      cbn [snd]; try (split; [exact Hok | reflexivity]).
    destruct (createUser_appends (from_body hash salt pw body) t Hok)
      as (Hu & _ & Hok').
    split; [exact Hok' | rewrite Hu; apply prefix_app_r; reflexivity].
Qed.

Lemma serve_all_ok (hash : string -> string -> string)
    (compare : string -> string -> option bool) (db : Database)
    (rs : list Request) (t : Table) :
  table_ok t ->
  table_ok (serve_all hash compare db rs t)
  ∧ users t `prefix_of` users (serve_all hash compare db rs t).
Proof.
  revert t. induction rs as [|r rs IH]; intros t Hok;
    [split; [exact Hok | reflexivity]|].
  cbn [serve_all foldl].
  destruct (serve_ok hash compare db r t Hok) as [Hok1 Hp1].
  destruct (IH _ Hok1) as [Hok2 Hp2].
  split; [exact Hok2 | etrans; eassumption].
Qed.

Lemma getUser_created (row : InsertUser) (t : Table) :
  table_ok t ->
  getUser (u_id (createUser row t).1) (createUser row t).2
  = Some (createUser row t).1
  ∧ getUser (u_id (createUser row t).1) t = None.
Proof.
  intros Hok. destruct (createUser_appends row t Hok) as (Hu & _ & Hok').
  split.
  - eapply (getUser_own _ (currentId t)); [exact Hok'|].
    rewrite Hu. apply elem_of_app. right. left.
  - rewrite getUser_findOne.
    destruct (findOne _ (users t)) as [[k u]|] eqn:Hf; [|reflexivity].
    apply findOne_Some in Hf as [Hk Hin]. cbn in Hk.
    exfalso. apply (table_fresh t Hok). apply list_elem_of_fmap.
    exists (k, u). split; [exact (eq_sym Hk) | exact Hin].
Qed.

(** X15. The strategy accepts the literal password "password" for every
    username that is the [empId] of a physician or a nurse: as long as the
    database can be reached and checking the stored password of a user of
    that name does not throw, the login succeeds. It returns either the
    stored user of that name, leaving the table as it was, or a user it
    creates on the spot under the next id, with the role of the staff
    collection that has the [empId], physicians first. Either way the id
    put in the session resolves back to the user. *)
Theorem staff_password_logs_in (hash : string -> string -> string)
    (compare : string -> string -> option bool) (salt username : string)
    (db : Database) (t : Table) :
  table_ok t ->
  reachable db = true ->
  is_Some (findOne (fun p => ph_empId p = username) (physicians db))
  ∨ is_Some (findOne (fun n => nu_empId n = username) (nurses db)) ->
  (∀ u, getUserByUsername (Some username) t = Some u →
        is_Some (compare "password" (u_password u))) ->
  let r := verify hash compare salt username "password" db t in
  ∃ u,
    r.1 = Authenticated u
    ∧ u_username u = Some username
    ∧ deserializeUser (serializeUser u) r.2 = Some u
    ∧ ((getUserByUsername (Some username) t = Some u ∧ r.2 = t)
       ∨ (u_id u = currentId t
          ∧ u_empId u = Some username
          ∧ u_password u = hash "password" salt
          ∧ u_role u
            = Some (match findOne (fun p => ph_empId p = username)
                            (physicians db) with
                    | Some _ => "physician"
                    | None => "nurse"
                    end)
          ∧ users r.2 = users t ++ [(u_id u, u)]
          ∧ currentId r.2 = currentId t + 1)).
Proof.
  intros Hok Hdb Hstaff Hcmp r.
  assert (Hnew : ∃ u,
            staff_login hash salt username "password" db t
            = (Authenticated u, (staff_login hash salt username "password" db t).2)
            ∧ u_username u = Some username
            ∧ getUser (u_id u)
                (staff_login hash salt username "password" db t).2 = Some u
            ∧ u_id u = currentId t
            ∧ u_empId u = Some username
            ∧ u_password u = hash "password" salt
            ∧ u_role u
              = Some (match findOne (fun p => ph_empId p = username)
                              (physicians db) with
                      | Some _ => "physician"
                      | None => "nurse"
                      end)
            ∧ users (staff_login hash salt username "password" db t).2
              = users t ++ [(u_id u, u)]
            ∧ currentId (staff_login hash salt username "password" db t).2
              = currentId t + 1).
  { destruct (staff_login_cases hash salt username "password" db t)
      as [[Hd _]|(_ & [[[Hpw|[Hp Hn]] _]|(_ & [(p & Hp & ->)|(Hp & n & Hn & ->)])])].
    - congruence.
    - congruence.
    - rewrite Hp, Hn in Hstaff. destruct Hstaff as [[? ?]|[? ?]]; discriminate.
    - rewrite done_created_eq, Hp. cbn [fst snd].
      destruct (createUser_appends
                  (from_physician hash salt username "password" p) t Hok)
        as (Hu & Hc & _).
      destruct (getUser_created
                  (from_physician hash salt username "password" p) t Hok)
        as [Hg _].
      apply findOne_Some in Hp as [Hp _].
      eexists. split; [reflexivity|].
      split; [reflexivity|]. split; [exact Hg|].
      split; [reflexivity|]. split; [cbn; congruence|].
      split; [reflexivity|]. split; [reflexivity|].
      split; [exact Hu | exact Hc].
    - rewrite done_created_eq, Hp. cbn [fst snd].
      destruct (createUser_appends
                  (from_nurse hash salt username "password" n) t Hok)
        as (Hu & Hc & _).
      destruct (getUser_created
                  (from_nurse hash salt username "password" n) t Hok)
        as [Hg _].
      apply findOne_Some in Hn as [Hn _].
      eexists. split; [reflexivity|].
      split; [reflexivity|]. split; [exact Hg|].
      split; [reflexivity|]. split; [cbn; congruence|].
      split; [reflexivity|]. split; [reflexivity|].
      split; [exact Hu | exact Hc]. }
  subst r. unfold verify, deserializeUser, serializeUser.
  destruct (getUserByUsername (Some username) t) as [u0|] eqn:Hu0.
  - destruct (Hcmp u0 eq_refl) as [b Hb]. rewrite Hb. destruct b.
    + exists u0. cbn [fst snd].
      destruct (getUserByUsername_Some _ _ _ Hu0) as [Hname [k Hin]].
      split; [reflexivity|]. split; [exact Hname|].
      split; [eapply getUser_own; eassumption|]. left. auto.
    + destruct Hnew as (u & He & Hname & Hg & Hrest). exists u.
      rewrite He at 1. cbn [fst]. split; [reflexivity|].
      split; [exact Hname|]. split; [exact Hg|]. right. exact Hrest.
  - destruct Hnew as (u & He & Hname & Hg & Hrest). exists u.
    rewrite He at 1. cbn [fst]. split; [reflexivity|].
    split; [exact Hname|]. split; [exact Hg|]. right. exact Hrest.
Qed.

Lemma staff_password_logs_in_witness :
  table_ok constructor
  ∧ reachable staff_db = true
  ∧ ∃ u,
      (verify plain_hash plain_compare "5f3a" "P100" "password" staff_db
         constructor).1
      = Authenticated u
      ∧ u_username u = Some "P100".
Proof.
  assert (H1 : table_ok constructor).
  { split; [cbn; lia|]. split; [intros k u Hin; inversion Hin | constructor]. }
  assert (H2 : reachable staff_db = true) by reflexivity.
  assert (H3 : is_Some (findOne (fun p => ph_empId p = "P100")
                          (physicians staff_db))
               ∨ is_Some (findOne (fun n => nu_empId n = "P100")
                            (nurses staff_db))).
  { left. vm_compute. eexists. reflexivity. }
  assert (H4 : ∀ u, getUserByUsername (Some "P100") constructor = Some u →
                    is_Some (plain_compare "password" (u_password u))).
  { intros u Hu. vm_compute in Hu. discriminate. }
  split; [exact H1|]. split; [exact H2|].
  destruct (staff_password_logs_in plain_hash plain_compare "5f3a" "P100"
              staff_db constructor H1 H2 H3 H4) as (u & Hv & Hn & _).
  exists u. split; [exact Hv | exact Hn].
Defined.

(** X16. Any other password creates nothing: the strategy leaves the user
    table as it was, and it authenticates only the stored user of that name,
    and only when the supplied password checks against the stored one. *)
Theorem other_passwords_create_nothing (hash : string -> string -> string)
    (compare : string -> string -> option bool)
    (salt username password : string) (db : Database) (t : Table) :
  password ≠ "password" ->
  let r := verify hash compare salt username password db t in
  r.2 = t
  ∧ ∀ u, r.1 = Authenticated u →
         getUserByUsername (Some username) t = Some u
         ∧ compare password (u_password u) = Some true.
Proof.
  intros Hpw r.
  assert (Hstaff : (staff_login hash salt username password db t).2 = t
                   ∧ ∀ u, (staff_login hash salt username password db t).1
                          ≠ Authenticated u).
  { destruct (staff_login_cases hash salt username password db t)
      as [[_ ->]|(_ & [[_ ->]|(Hp & _)])]; [| |contradiction];
      split; try reflexivity; intros u; discriminate. }
  destruct Hstaff as [Hst Hno].
  subst r. unfold verify.
  destruct (getUserByUsername (Some username) t) as [u0|] eqn:Hu0.
  - destruct (compare password (u_password u0)) as [[|]|] eqn:Hc; cbn [fst snd].
    + split; [reflexivity|]. intros u [= <-]. auto.
    + split; [exact Hst|]. intros u Hu. exfalso. exact (Hno u Hu).
    + split; [reflexivity|]. intros u; discriminate.
  - split; [exact Hst|]. intros u Hu. exfalso. exact (Hno u Hu).
Qed.

Lemma other_passwords_create_nothing_witness :
  "letmein" ≠ "password"
  ∧ (verify plain_hash plain_compare "5f3a" "P100" "letmein" staff_db
       constructor).2
    = constructor.
Proof.
  assert (H1 : "letmein" ≠ "password") by discriminate.
  split; [exact H1|].
  destruct (other_passwords_create_nothing plain_hash plain_compare "5f3a"
              "P100" "letmein" staff_db constructor H1) as [Hs _].
  exact Hs.
Defined.

Lemma verify_stored (hash : string -> string -> string)
    (compare : string -> string -> option bool)
    (salt username password : string) (db : Database) (t : Table) (u : User) :
  getUserByUsername (Some username) t = Some u ->
  compare password (u_password u) = Some true ->
  verify hash compare salt username password db t = (Authenticated u, t).
Proof. intros Hu Hc. unfold verify. rewrite Hu, Hc. reflexivity. Qed.

(** X17. With a password check that accepts what [hashPassword] produced,
    the account made by the first staff login is the one every later login
    gets: when no user of that name existed, the first login with
    "password" creates one, and after any further logins and registrations
    a login with "password" under that name returns that same user and
    changes nothing, and the id kept in the session still resolves to it. *)
Theorem staff_account_is_reused (hash : string -> string -> string)
    (compare : string -> string -> option bool)
    (salt salt' username : string) (db : Database) (t : Table)
    (rs : list Request) :
  (∀ pw s, compare pw (hash pw s) = Some true) ->
  table_ok t ->
  reachable db = true ->
  is_Some (findOne (fun p => ph_empId p = username) (physicians db))
  ∨ is_Some (findOne (fun n => nu_empId n = username) (nurses db)) ->
  getUserByUsername (Some username) t = None ->
  let first := verify hash compare salt username "password" db t in
  let later := serve_all hash compare db rs first.2 in
  ∃ u,
    first.1 = Authenticated u
    ∧ getUser (u_id u) t = None
    ∧ verify hash compare salt' username "password" db later
      = (Authenticated u, later)
    ∧ deserializeUser (serializeUser u) later = Some u.
Proof.
  intros Hcmp Hok Hdb Hstaff Hnone first later.
  assert (Hfirst : ∃ row,
            first = (Authenticated (createUser row t).1, (createUser row t).2)
            ∧ iu_username row = Some username
            ∧ iu_password row = hash "password" salt).
  { subst first. unfold verify. rewrite Hnone.
    destruct (staff_login_cases hash salt username "password" db t)
      as [[Hd _]|(_ & [[[Hpw|[Hp Hn]] _]|(_ & [(p & Hp & ->)|(Hp & n & Hn & ->)])])].
    - congruence.
    - congruence.
    - rewrite Hp, Hn in Hstaff. destruct Hstaff as [[? ?]|[? ?]]; discriminate.
    - eexists. rewrite done_created_eq. split; [reflexivity|]. split; reflexivity.
    - eexists. rewrite done_created_eq. split; [reflexivity|]. split; reflexivity. }
  destruct Hfirst as (row & Hfirst & Hname & Hpass).
  destruct (createUser_appends row t Hok) as (Hu & _ & Hok1).
  destruct (getUser_created row t Hok) as [Hg Hg0].
  assert (Hbyname : getUserByUsername (Some username) first.2
                    = Some (createUser row t).1).
  { rewrite Hfirst. cbn [snd]. rewrite getUserByUsername_findOne, Hu.
    rewrite findOne_app_r.
    - unfold findOne. cbn. rewrite decide_True by exact Hname. reflexivity.
    - rewrite getUserByUsername_findOne in Hnone.
      apply fmap_None in Hnone. exact Hnone. }
  assert (Hok1' : table_ok first.2) by (rewrite Hfirst; exact Hok1).
  destruct (serve_all_ok hash compare db rs first.2 Hok1') as [Hok2 Hpre].
  exists (createUser row t).1.
  split; [rewrite Hfirst; reflexivity|]. split; [exact Hg0|]. split.
  - apply verify_stored.
    + eapply getUserByUsername_prefix; [exact Hpre | exact Hbyname].
    + cbn [createUser fst u_password]. rewrite Hpass. apply Hcmp.
  - unfold deserializeUser, serializeUser.
    eapply getUser_prefix; [exact Hpre|]. rewrite Hfirst. exact Hg.
Qed.

Lemma staff_account_is_reused_witness :
  table_ok constructor
  ∧ getUserByUsername (Some "N200") constructor = None
  ∧ ∃ u,
      (verify plain_hash plain_compare "5f3a" "N200" "password" staff_db
         constructor).1
      = Authenticated u
      ∧ verify plain_hash plain_compare "77b0" "N200" "password" staff_db
          (serve_all plain_hash plain_compare staff_db
             [LogIn "c2" "P100" "password"; LogIn "d4" "N200" "wrong"]
             (verify plain_hash plain_compare "5f3a" "N200" "password"
                staff_db constructor).2)
        = (Authenticated u,
           serve_all plain_hash plain_compare staff_db
             [LogIn "c2" "P100" "password"; LogIn "d4" "N200" "wrong"]
             (verify plain_hash plain_compare "5f3a" "N200" "password"
                staff_db constructor).2).
Proof.
  assert (H0 : ∀ pw s, plain_compare pw (plain_hash pw s) = Some true).
  { intros pw s. unfold plain_compare, plain_hash.
    rewrite String.eqb_refl. reflexivity. }
  assert (H1 : table_ok constructor).
  { split; [cbn; lia|]. split; [intros k u Hin; inversion Hin | constructor]. }
  assert (H2 : reachable staff_db = true) by reflexivity.
  assert (H3 : is_Some (findOne (fun p => ph_empId p = "N200")
                          (physicians staff_db))
               ∨ is_Some (findOne (fun n => nu_empId n = "N200")
                            (nurses staff_db))).
  { right. vm_compute. eexists. reflexivity. }
  assert (H4 : getUserByUsername (Some "N200") constructor = None)
    by reflexivity.
  split; [exact H1|]. split; [exact H4|].
  destruct (staff_account_is_reused plain_hash plain_compare "5f3a" "77b0"
              "N200" staff_db constructor
              [LogIn "c2" "P100" "password"; LogIn "d4" "N200" "wrong"]
              H0 H1 H2 H3 H4) as (u & Hv & _ & Hagain & _).
  exists u. split; [exact Hv | exact Hagain].
Defined.

(** X18. A user of the same name whose stored password is not "password"
    shadows the staff account: [getUserByUsername] keeps returning that
    user, so every login with "password" under the name creates one more
    user, never finds it again, and the table grows by one row per login,
    all of them under the one username. *)
Theorem shadowed_staff_login_duplicates (hash : string -> string -> string)
    (compare : string -> string -> option bool) (username : string)
    (db : Database) (t : Table) (u0 : User) (salts : list string) :
  table_ok t ->
  reachable db = true ->
  is_Some (findOne (fun p => ph_empId p = username) (physicians db))
  ∨ is_Some (findOne (fun n => nu_empId n = username) (nurses db)) ->
  getUserByUsername (Some username) t = Some u0 ->
  compare "password" (u_password u0) = Some false ->
  let t' :=
    serve_all hash compare db
      ((fun s => LogIn s username "password") <$> salts) t in
  getUserByUsername (Some username) t' = Some u0
  ∧ (∃ new,
       users t' = users t ++ new
       ∧ length new = length salts
       ∧ Forall (fun kv => u_username kv.2 = Some username) new)
  ∧ ∀ salt, ∃ u,
      (verify hash compare salt username "password" db t').1 = Authenticated u
      ∧ u_id u = currentId t'
      ∧ getUser (u_id u) t' = None.
Proof.
  intros Hok Hdb Hstaff Hu0 Hc t'.
  assert (Hstep : ∀ salt t1,
            table_ok t1 → getUserByUsername (Some username) t1 = Some u0 →
            ∃ row,
              verify hash compare salt username "password" db t1
              = (Authenticated (createUser row t1).1, (createUser row t1).2)
              ∧ iu_username row = Some username).
  { intros salt t1 Hok1 Hu1. unfold verify. rewrite Hu1, Hc.
    destruct (staff_login_cases hash salt username "password" db t1)
      as [[Hd _]|(_ & [[[Hpw|[Hp Hn]] _]|(_ & [(p & Hp & ->)|(Hp & n & Hn & ->)])])].
    - congruence.
    - congruence.
    - rewrite Hp, Hn in Hstaff. destruct Hstaff as [[? ?]|[? ?]]; discriminate.
    - eexists. rewrite done_created_eq. split; reflexivity.
    - eexists. rewrite done_created_eq. split; reflexivity. }
  assert (Hall : ∀ salts t1,
            table_ok t1 → getUserByUsername (Some username) t1 = Some u0 →
            let t2 := serve_all hash compare db
                        ((fun s => LogIn s username "password") <$> salts) t1 in
            table_ok t2
            ∧ getUserByUsername (Some username) t2 = Some u0
            ∧ ∃ new, users t2 = users t1 ++ new
                     ∧ length new = length salts
                     ∧ Forall (fun kv => u_username kv.2 = Some username) new).
  { clear salts t'. induction salts as [|salt salts IH]; intros t1 Hok1 Hu1.
    - cbn. split; [exact Hok1|]. split; [exact Hu1|].
      exists []. rewrite app_nil_r. auto.
    - cbn [fmap list_fmap serve_all foldl serve].
      destruct (Hstep salt t1 Hok1 Hu1) as (row & -> & Hname). cbn [snd].
      destruct (createUser_appends row t1 Hok1) as (Hu & _ & Hok2).
      assert (Hu2 : getUserByUsername (Some username) (createUser row t1).2
                    = Some u0).
      { eapply getUserByUsername_prefix; [|exact Hu1].
        rewrite Hu. apply prefix_app_r. reflexivity. }
      destruct (IH _ Hok2 Hu2) as (Hok3 & Hu3 & new & Hnew & Hlen & Hall).
      split; [exact Hok3|]. split; [exact Hu3|].
      exists ((currentId t1, (createUser row t1).1) :: new).
      split; [|split].
      + unfold serve_all in Hnew. rewrite Hnew, Hu, <- app_assoc. reflexivity.
      + cbn. rewrite Hlen. reflexivity.
      + constructor; [exact Hname | exact Hall]. }
  destruct (Hall salts t Hok Hu0) as (Hok' & Hu' & Hnew).
  split; [exact Hu'|]. split; [exact Hnew|].
  intros salt. destruct (Hstep salt t' Hok' Hu') as (row & -> & _).
  exists (createUser row t').1. split; [reflexivity|]. split; [reflexivity|].
  apply getUser_created, Hok'.
Qed.

Lemma shadowed_staff_login_duplicates_witness :
  table_ok shadowed_table
  ∧ (∃ u0, getUserByUsername (Some "P100") shadowed_table = Some u0
           ∧ plain_compare "password" (u_password u0) = Some false)
  ∧ ∃ new,
      users (serve_all plain_hash plain_compare staff_db
               ((fun s => LogIn s "P100" "password") <$> ["b1"; "b2"; "b3"])
               shadowed_table)
      = users shadowed_table ++ new
      ∧ length new = 3%nat.
Proof.
  assert (H1 : table_ok shadowed_table).
  { split; [vm_compute; discriminate|]. split.
    - intros k u Hin. vm_compute in Hin.
      apply list_elem_of_singleton in Hin. injection Hin as -> ->.
      vm_compute. repeat split; discriminate.
    - vm_compute. apply NoDup_singleton. }
  assert (H2 : reachable staff_db = true) by reflexivity.
  assert (H3 : is_Some (findOne (fun p => ph_empId p = "P100")
                          (physicians staff_db))
               ∨ is_Some (findOne (fun n => nu_empId n = "P100")
                            (nurses staff_db))).
  { left. vm_compute. eexists. reflexivity. }
  assert (H4 : getUserByUsername (Some "P100") shadowed_table
               = Some (mkUser 1 true (Some "P100") "secret" (Some "Pat")
                         (Some "admin") (Some "P100") None None))
    by (vm_compute; reflexivity).
  assert (H5 : plain_compare "password"
                 (u_password
                    (mkUser 1 true (Some "P100") "secret" (Some "Pat")
                       (Some "admin") (Some "P100") None None))
               = Some false) by (vm_compute; reflexivity).
  split; [exact H1|]. split; [eexists; split; [exact H4 | exact H5]|].
  destruct (shadowed_staff_login_duplicates plain_hash plain_compare "P100"
              staff_db shadowed_table _ ["b1"; "b2"; "b3"] H1 H2 H3 H4 H5)
    as (_ & (new & Hnew & Hlen & _) & _).
  exists new. split; [exact Hnew | exact Hlen].
Defined.

(** X19. A registration under a free username with a password creates an
    active user under the next id whose stored password is the hash of the
    one sent. From then on, whatever logins and registrations follow, the
    name stays taken (a registration under it is answered with [400] and
    changes nothing), the id kept in the session resolves to the user, and,
    the password check accepting what [hashPassword] produced, a login with
    the registered password returns the user without consulting the
    database. *)
Theorem registration_is_permanent (hash : string -> string -> string)
    (compare : string -> string -> option bool)
    (salt salt' salt'' username pw : string) (body body' : Registration)
    (db : Database) (t : Table) (rs : list Request) :
  (∀ p s, compare p (hash p s) = Some true) ->
  table_ok t ->
  rb_username body = Some username ->
  rb_password body = Some pw ->
  getUserByUsername (Some username) t = None ->
  rb_username body' = Some username ->
  let r := register hash salt body t in
  let later := serve_all hash compare db rs r.2 in
  ∃ u,
    r.1 = Created u
    ∧ u_id u = currentId t
    ∧ u_active u = true
    ∧ u_username u = Some username
    ∧ u_password u = hash pw salt
    ∧ register hash salt' body' later = (UsernameExists, later)
    ∧ deserializeUser (serializeUser u) later = Some u
    ∧ verify hash compare salt'' username pw db later = (Authenticated u, later).
Proof.
  intros Hcmp Hok Hname Hpw Hnone Hname' r later.
  assert (Hr : r = (Created (createUser (from_body hash salt pw body) t).1,
                    (createUser (from_body hash salt pw body) t).2)).
  { subst r.
    destruct (register_cases hash salt body t)
      as [(u & Hu & _)|[(_ & Hp & _)|(pw' & _ & Hp & ->)]].
    - rewrite Hname in Hu. congruence.
    - congruence.
    - rewrite Hpw in Hp. injection Hp as <-. reflexivity. }
  set (row := from_body hash salt pw body) in *.
  destruct (createUser_appends row t Hok) as (Hu & _ & Hok1).
  destruct (getUser_created row t Hok) as [Hg _].
  assert (Hbyname : getUserByUsername (Some username) r.2
                    = Some (createUser row t).1).
  { rewrite Hr. cbn [snd]. rewrite getUserByUsername_findOne, Hu.
    rewrite findOne_app_r.
    - unfold findOne. cbn. rewrite decide_True by exact Hname. reflexivity.
    - rewrite getUserByUsername_findOne in Hnone.
      apply fmap_None in Hnone. exact Hnone. }
  assert (Hok1' : table_ok r.2) by (rewrite Hr; exact Hok1).
  destruct (serve_all_ok hash compare db rs r.2 Hok1') as [Hok2 Hpre].
  pose proof (getUserByUsername_prefix _ _ _ _ Hpre Hbyname) as Hlater.
  fold later in Hlater.
  exists (createUser row t).1.
  split; [rewrite Hr; reflexivity|]. split; [reflexivity|].
  split; [reflexivity|]. split; [exact Hname|]. split; [reflexivity|].
  split; [|split].
  - unfold register. rewrite Hname', Hlater. reflexivity.
  - unfold deserializeUser, serializeUser.
    eapply getUser_prefix; [exact Hpre|]. rewrite Hr. exact Hg.
  - apply verify_stored; [exact Hlater|]. cbn. apply Hcmp.
Qed.

Lemma registration_is_permanent_witness :
  table_ok constructor
  ∧ ∃ u,
      (register plain_hash "a1"
         (mkRegistration (Some "pat") (Some "secret") (Some "Pat")
            (Some "physician") (Some "P100") None None) constructor).1
      = Created u
      ∧ register plain_hash "a2"
          (mkRegistration (Some "pat") (Some "other") None None None None None)
          (serve_all plain_hash plain_compare staff_db
             [LogIn "c2" "P100" "password"]
             (register plain_hash "a1"
                (mkRegistration (Some "pat") (Some "secret") (Some "Pat")
                   (Some "physician") (Some "P100") None None)
                constructor).2)
        = (UsernameExists,
           serve_all plain_hash plain_compare staff_db
             [LogIn "c2" "P100" "password"]
             (register plain_hash "a1"
                (mkRegistration (Some "pat") (Some "secret") (Some "Pat")
                   (Some "physician") (Some "P100") None None)
                constructor).2).
Proof.
  assert (H0 : ∀ pw s, plain_compare pw (plain_hash pw s) = Some true).
  { intros pw s. unfold plain_compare, plain_hash.
    rewrite String.eqb_refl. reflexivity. }
  assert (H1 : table_ok constructor).
  { split; [cbn; lia|]. split; [intros k u Hin; inversion Hin | constructor]. }
  split; [exact H1|].
  destruct (registration_is_permanent plain_hash plain_compare "a1" "a2" "a3"
              "pat" "secret"
              (mkRegistration (Some "pat") (Some "secret") (Some "Pat")
                 (Some "physician") (Some "P100") None None)
              (mkRegistration (Some "pat") (Some "other") None None None None
                 None)
              staff_db constructor [LogIn "c2" "P100" "password"]
              H0 H1 eq_refl eq_refl eq_refl eq_refl)
    as (u & Hc & _ & _ & _ & _ & Htaken & _).
  exists u. split; [exact Hc | exact Htaken].
Defined.

Lemma serve_count (hash : string -> string -> string)
    (compare : string -> string -> option bool) (db : Database) (r : Request)
    (t : Table) :
  table_ok t ->
  currentId t = Z.of_nat (length (users t)) + 1 ->
  currentId (serve hash compare db r t)
  = Z.of_nat (length (users (serve hash compare db r t))) + 1.
Proof.
  intros Hok Hc.
  assert (Hcreate : ∀ row,
            currentId (createUser row t).2
            = Z.of_nat (length (users (createUser row t).2)) + 1).
  { intros row. destruct (createUser_appends row t Hok) as (-> & -> & _).
    rewrite length_app. cbn. lia. }
  destruct r as [salt username password|salt body]; cbn [serve].
  - assert (Hs : currentId (staff_login hash salt username password db t).2
                 = Z.of_nat
                     (length
                        (users
                           (staff_login hash salt username password db t).2))
                   + 1).
    { destruct (staff_login_cases hash salt username password db t)
        as [[_ ->]|(_ & [[_ ->]|(_ & [(p & _ & ->)|(_ & n & _ & ->)])])];
        rewrite ?done_created_eq; cbn [snd]; auto. }
    unfold verify.
    destruct (getUserByUsername (Some username) t) as [u|];
      [destruct (compare password (u_password u)) as [[|]|]|];
      cbn [snd]; auto.
  - destruct (register_cases hash salt body t)
      as [(u & _ & ->)|[(_ & _ & ->)|(pw & _ & _ & ->)]]; cbn [snd]; auto.
Qed.

(** X20. Ids are never reused. After any sequence of logins and
    registrations on a fresh [MemStorage], the keys of the user table are
    the ids of their users, pairwise different and counted from [1] without
    a gap ([currentId] is one more than the number of users), every user is
    active, and every user is found under its id. *)
Theorem account_ids_are_never_reused (hash : string -> string -> string)
    (compare : string -> string -> option bool) (db : Database)
    (rs : list Request) :
  let t := serve_all hash compare db rs constructor in
  table_ok t
  ∧ currentId t = Z.of_nat (length (users t)) + 1
  ∧ ∀ k u, (k, u) ∈ users t → deserializeUser k t = Some u.
Proof.
  intros t.
  assert (Hinv : ∀ rs t0, table_ok t0 →
            currentId t0 = Z.of_nat (length (users t0)) + 1 →
            table_ok (serve_all hash compare db rs t0)
            ∧ currentId (serve_all hash compare db rs t0)
              = Z.of_nat (length (users (serve_all hash compare db rs t0))) + 1).
  { clear. induction rs as [|r rs IH]; intros t0 Hok Hc; [auto|].
    cbn [serve_all foldl]. apply IH.
    - apply serve_ok, Hok.
    - apply serve_count; assumption. }
  destruct (Hinv rs constructor constructor_ok eq_refl) as [Hok Hc].
  split; [exact Hok|]. split; [exact Hc|].
  intros k u Hin. unfold deserializeUser.
  pose proof Hok as (_ & Hlt & _). destruct (Hlt k u Hin) as (_ & <- & _).
  eapply getUser_own; eassumption.
Qed.

(** ** Channel membership *)

Lemma findOne_cons {A : Type} (P : A -> Prop) `{!∀ x, Decision (P x)}
    (x : A) (l : list A) :
  findOne P (x :: l) = if decide (P x) then Some x else findOne P l.
Proof.
  unfold findOne. cbn. destruct (decide (P x)); [reflexivity|].
  destruct (list_find P l) as [[i y]|]; reflexivity.
Qed.

Lemma findOne_updateOne_same {A : Type} (P : A -> Prop)
    `{!∀ x, Decision (P x)} (f : A -> A) (l : list A) :
  (∀ x, P x → P (f x)) ->
  findOne P (updateOne P f l) = f <$> findOne P l.
Proof.
  intros Hf. induction l as [|x l IH]; [reflexivity|].
  cbn [updateOne]. rewrite (findOne_cons P x l).
  destruct (decide (P x)) as [Hx|Hx].
  - rewrite findOne_cons, decide_True by auto. reflexivity.
  - rewrite findOne_cons, decide_False by exact Hx. exact IH.
Qed.

Lemma findOne_updateOne_other {A : Type} (P Q : A -> Prop)
    `{!∀ x, Decision (P x)} `{!∀ x, Decision (Q x)} (f : A -> A)
    (l : list A) :
  (∀ x, Q (f x) ↔ Q x) ->
  (∀ x, P x → ¬ Q x) ->
  findOne Q (updateOne P f l) = findOne Q l.
Proof.
  intros Hf Hpq. induction l as [|x l IH]; [reflexivity|].
  cbn [updateOne]. rewrite (findOne_cons Q x l).
  destruct (decide (P x)) as [Hx|Hx].
  - rewrite findOne_cons.
    rewrite decide_False by (rewrite Hf; apply Hpq, Hx).
    rewrite decide_False by (apply Hpq, Hx). reflexivity.
  - rewrite findOne_cons. destruct (decide (Q x)); [reflexivity | exact IH].
Qed.

Lemma updateOne_none {A : Type} (P : A -> Prop) `{!∀ x, Decision (P x)}
    (f : A -> A) (l : list A) :
  findOne P l = None -> updateOne P f l = l.
Proof.
  induction l as [|x l IH]; [reflexivity|].
  rewrite findOne_cons. cbn [updateOne].
  destruct (decide (P x)); [discriminate|]. intros Hn. rewrite IH; auto.
Qed.

Lemma set_channelsColl_id (db : Database) :
  set_channelsColl (fun l => l) db = db.
Proof. destruct db; reflexivity. Qed.

Lemma getChannelById_reachable (cid : string) (db : Database) (c : Channel) :
  getChannelById cid db = Some c ->
  reachable db = true
  ∧ findOne (fun c => ch_id c = cid) (channelsColl db) = Some c
  ∧ ch_id c = cid.
Proof.
  unfold getChannelById. destruct (reachable db); [|discriminate].
  intros Hf. split; [reflexivity|]. split; [exact Hf|].
  apply findOne_Some in Hf as [Hid _]. exact Hid.
Qed.

(** What [addUserToChannel] does to a channel that exists. *)
Lemma addUserToChannel_found (now : Z) (cid e ty : string) (db : Database)
    (c : Channel) :
  getChannelById cid db = Some c ->
  let r := addUserToChannel now cid e ty db in
  r.1 = Some (addToSet (mkMember e ty now) c)
  ∧ getChannelById cid r.2 = Some (addToSet (mkMember e ty now) c)
  ∧ reachable r.2 = true
  ∧ physicians r.2 = physicians db
  ∧ nurses r.2 = nurses db
  ∧ ∀ cid', cid' ≠ cid → getChannelById cid' r.2 = getChannelById cid' db.
Proof.
  intros Hc. destruct (getChannelById_reachable _ _ _ Hc) as (Hr & Hf & Hid).
  unfold addUserToChannel. rewrite Hr. cbn zeta. cbn [fst snd].
  assert (Hg : getChannelById cid
                 (set_channelsColl
                    (updateOne (fun c => ch_id c = cid)
                       (addToSet (mkMember e ty now))) db)
               = Some (addToSet (mkMember e ty now) c)).
  { unfold getChannelById. cbn [set_channelsColl reachable channelsColl].
    rewrite Hr, findOne_updateOne_same by (intros x Hx; exact Hx).
    rewrite Hf. reflexivity. }
  split; [exact Hg|]. split; [exact Hg|]. split; [exact Hr|].
  split; [reflexivity|]. split; [reflexivity|].
  intros cid' Hne. unfold getChannelById.
  cbn [set_channelsColl reachable channelsColl]. rewrite Hr.
  apply (findOne_updateOne_other (fun c => ch_id c = cid)
           (fun c => ch_id c = cid')).
  - intros x. reflexivity.
  - intros x Hx Hx'. congruence.
Qed.

(** ... and to one that does not, or when the database is out of reach. *)
Lemma addUserToChannel_missing (now : Z) (cid e ty : string) (db : Database) :
  getChannelById cid db = None ->
  addUserToChannel now cid e ty db = (None, db).
Proof.
  unfold addUserToChannel, getChannelById.
  destruct (reachable db) eqn:Hr; [|reflexivity]. intros Hn.
  assert (Hdb : set_channelsColl
                  (updateOne (fun c => ch_id c = cid)
                     (addToSet (mkMember e ty now))) db = db).
  { unfold set_channelsColl. rewrite updateOne_none by exact Hn.
    destruct db; reflexivity. }
  rewrite Hdb, Hr, Hn. reflexivity.
Qed.

Lemma addToSet_later (m : Member) (c : Channel) (ms : list Member) :
  ch_members c = Some ms ->
  Forall (fun x => mem_joinedAt x < mem_joinedAt m) ms ->
  ch_members (addToSet m c) = Some (ms ++ [m]).
Proof.
  intros Hms Hlt. unfold addToSet. cbn. rewrite Hms.
  rewrite decide_False; [reflexivity|]. intros Hin.
  rewrite Forall_forall in Hlt. apply Hlt in Hin. lia.
Qed.

Lemma updateOne_at {A : Type} (P : A -> Prop) `{!∀ x, Decision (P x)}
    (f : A -> A) (l1 l2 : list A) (x : A) :
  Forall (fun y => ¬ P y) l1 -> P x ->
  updateOne P f (l1 ++ x :: l2) = l1 ++ f x :: l2.
Proof.
  intros Hl1 Hx. induction Hl1 as [|y l1 Hy _ IH]; cbn [updateOne app].
  - rewrite decide_True by exact Hx. reflexivity.
  - rewrite decide_False by exact Hy. rewrite IH. reflexivity.
Qed.

Lemma findOne_split {A : Type} (P : A -> Prop) `{!∀ x, Decision (P x)}
    (l : list A) (x : A) :
  findOne P l = Some x ->
  ∃ l1 l2, l = l1 ++ x :: l2 ∧ Forall (fun y => ¬ P y) l1 ∧ P x.
Proof.
  induction l as [|y l IH]; [discriminate|].
  rewrite findOne_cons. destruct (decide (P y)) as [Hy|Hy].
  - intros [= ->]. exists [], l. repeat split; [constructor | exact Hy].
  - intros Hf. destruct (IH Hf) as (l1 & l2 & -> & Hl1 & Hx).
    exists (y :: l1), l2. repeat split; [constructor; assumption | exact Hx].
Qed.

(** X21. A member entry carries the time it was made, and [$addToSet]
    compares whole entries: adding the same person to a channel again at a
    later time appends a second entry for them, while repeating the call
    within the same millisecond changes nothing. No other document is
    touched: the collection after the two calls is the collection before
    them with the channel's document replaced where it stands. *)
Theorem rejoining_adds_a_second_entry (now now' : Z) (cid e ty : string)
    (db : Database) (c : Channel) (ms : list Member) :
  getChannelById cid db = Some c ->
  ch_members c = Some ms ->
  Forall (fun m => mem_joinedAt m < now) ms ->
  now < now' ->
  let r1 := addUserToChannel now cid e ty db in
  let r2 := addUserToChannel now' cid e ty r1.2 in
  (∃ c1, r1.1 = Some c1
         ∧ ch_members c1 = Some (ms ++ [mkMember e ty now])
         ∧ addUserToChannel now cid e ty r1.2 = (Some c1, r1.2))
  ∧ (∃ c2, r2.1 = Some c2
           ∧ getChannelById cid r2.2 = Some c2
           ∧ ch_members c2
             = Some (ms ++ [mkMember e ty now; mkMember e ty now']))
  ∧ ∃ l1 l2 c2,
      channelsColl db = l1 ++ c :: l2
      ∧ r2.1 = Some c2
      ∧ channelsColl r2.2 = l1 ++ c2 :: l2
      ∧ physicians r2.2 = physicians db
      ∧ nurses r2.2 = nurses db.
Proof.
  intros Hc Hms Hlt Hnow r1 r2.
  destruct (addUserToChannel_found now cid e ty db c Hc)
    as (H1 & Hg1 & Hr1 & Hp1 & Hn1 & _).
  fold r1 in H1, Hg1, Hr1, Hp1, Hn1.
  pose proof (addToSet_later (mkMember e ty now) c ms Hms Hlt) as Hm1.
  destruct (addUserToChannel_found now' cid e ty r1.2 _ Hg1)
    as (H2 & Hg2 & _ & Hp2 & Hn2 & _).
  fold r2 in H2, Hg2, Hp2, Hn2.
  split; [|split].
  - eexists. split; [exact H1|]. split; [exact Hm1|].
    destruct (addUserToChannel_found now cid e ty r1.2 _ Hg1)
      as (H3 & Hg3 & _).
    assert (Hsame : addToSet (mkMember e ty now)
                      (addToSet (mkMember e ty now) c)
                    = addToSet (mkMember e ty now) c).
    { unfold addToSet at 1. rewrite Hm1. cbn [ch_id ch_caseId ch_patientId ch_createdAt].
      rewrite decide_True by (apply elem_of_app; right; left).
      rewrite <- Hm1. destruct (addToSet (mkMember e ty now) c); reflexivity. }
    rewrite Hsame in H3.
    apply injective_projections; [exact H3|].
    cbn [snd]. unfold addUserToChannel. rewrite Hr1. cbn [snd].
    destruct (getChannelById_reachable _ _ _ Hg1) as (_ & Hf & _).
    assert (Hupd : ∀ l,
              findOne (fun c => ch_id c = cid) l
              = Some (addToSet (mkMember e ty now) c) →
              updateOne (fun c => ch_id c = cid)
                (addToSet (mkMember e ty now)) l = l).
    { clear -Hsame. induction l as [|x l IH]; [reflexivity|].
      rewrite findOne_cons. cbn [updateOne].
      destruct (decide (ch_id x = cid)).
      - intros [= ->]. rewrite Hsame. reflexivity.
      - intros Hx. rewrite IH by exact Hx. reflexivity. }
    unfold set_channelsColl. rewrite (Hupd _ Hf).
    destruct r1.2; reflexivity.
  - eexists. split; [exact H2|]. split; [exact Hg2|].
    rewrite (addToSet_later (mkMember e ty now') _ (ms ++ [mkMember e ty now])
               Hm1).
    + rewrite <- app_assoc. reflexivity.
    + apply Forall_app_2.
      * eapply Forall_impl; [exact Hlt|]. intros x Hx. cbn in *. lia.
      * constructor; [cbn; lia | constructor].
  - destruct (getChannelById_reachable _ _ _ Hc) as (Hr & Hf & Hid).
    destruct (findOne_split _ _ _ Hf) as (l1 & l2 & Hcoll & Hl1 & _).
    exists l1, l2. eexists. split; [exact Hcoll|]. split; [exact H2|].
    split; [|split; [rewrite Hp2; exact Hp1 | rewrite Hn2; exact Hn1]].
    assert (Hc1 : channelsColl r1.2
                  = l1 ++ addToSet (mkMember e ty now) c :: l2).
    { subst r1. unfold addUserToChannel. rewrite Hr. cbn [snd].
      cbn [set_channelsColl channelsColl]. rewrite Hcoll.
      apply updateOne_at; [exact Hl1 | exact Hid]. }
    subst r2. unfold addUserToChannel. rewrite Hr1. cbn [snd].
    cbn [set_channelsColl channelsColl]. rewrite Hc1.
    apply updateOne_at; [exact Hl1 | exact Hid].
Qed.

Lemma rejoining_adds_a_second_entry_witness :
  getChannelById "65c1a2b3c4d5e6f708192a3b" staff_db
  = Some (mkChannel "65c1a2b3c4d5e6f708192a3b" (Some "CASE1") None 0 (Some []))
  ∧ ∃ c2 l1 l2,
      (addUserToChannel 20 "65c1a2b3c4d5e6f708192a3b" "P100" "physician"
         (addUserToChannel 10 "65c1a2b3c4d5e6f708192a3b" "P100" "physician"
            staff_db).2).1
      = Some c2
      ∧ ch_members c2
        = Some [mkMember "P100" "physician" 10;
                mkMember "P100" "physician" 20]
      ∧ channelsColl staff_db
        = l1 ++ mkChannel "65c1a2b3c4d5e6f708192a3b" (Some "CASE1") None 0
                  (Some []) :: l2
      ∧ channelsColl
          (addUserToChannel 20 "65c1a2b3c4d5e6f708192a3b" "P100" "physician"
             (addUserToChannel 10 "65c1a2b3c4d5e6f708192a3b" "P100"
                "physician" staff_db).2).2
        = l1 ++ c2 :: l2.
Proof.
  assert (H1 : getChannelById "65c1a2b3c4d5e6f708192a3b" staff_db
               = Some (mkChannel "65c1a2b3c4d5e6f708192a3b" (Some "CASE1") None 0
                         (Some []))) by (vm_compute; reflexivity).
  assert (H2 : ch_members
                 (mkChannel "65c1a2b3c4d5e6f708192a3b" (Some "CASE1") None 0
                    (Some [])) = Some []) by reflexivity.
  assert (H3 : Forall (fun m => mem_joinedAt m < 10) []) by constructor.
  assert (H4 : 10 < 20) by lia.
  split; [exact H1|].
  destruct (rejoining_adds_a_second_entry 10 20 "65c1a2b3c4d5e6f708192a3b"
              "P100" "physician" staff_db _ [] H1 H2 H3 H4)
    as (_ & (c2 & Hc2 & _ & Hm2) & (l1 & l2 & c2' & Hcoll & Hc2' & Hcoll2 & _)).
  exists c2, l1, l2. split; [exact Hc2|]. split; [exact Hm2|].
  split; [exact Hcoll|].
  rewrite Hc2 in Hc2'. injection Hc2' as <-. exact Hcoll2.
Defined.

Lemma listed_ext (db db' : Database) (m : Member) :
  physicians db' = physicians db -> nurses db' = nurses db ->
  listed db' m = listed db m.
Proof. intros Hp Hn. unfold listed. rewrite Hp, Hn. reflexivity. Qed.

Lemma getChannelMembers_after_add (now : Z) (cid e ty : string)
    (db : Database) (c : Channel) (ms : list Member) :
  getChannelById cid db = Some c ->
  ch_members c = Some ms ->
  Forall (fun m => mem_joinedAt m < now) ms ->
  getChannelMembers cid (addUserToChannel now cid e ty db).2
  = getChannelMembers cid db
    ++ match listed db (mkMember e ty now) with
       | Some lm => [lm]
       | None => []
       end.
Proof.
  intros Hc Hms Hlt.
  destruct (addUserToChannel_found now cid e ty db c Hc)
    as (_ & Hg & _ & Hp & Hn & _).
  unfold getChannelMembers. rewrite Hg, Hc, Hms.
  rewrite (addToSet_later (mkMember e ty now) c ms Hms Hlt).
  rewrite omap_app. f_equal.
  - apply list_omap_ext, Forall_Forall2_diag.
    apply Forall_forall. intros m _. apply listed_ext; assumption.
  - cbn. rewrite (listed_ext db _ _ Hp Hn).
    destruct (listed db (mkMember e ty now)); reflexivity.
Qed.

Lemma listed_is_Some (db : Database) (m : Member) :
  is_Some (listed db m)
  <-> (mem_userType m = "physician"
       ∧ is_Some (findOne (fun p => ph_empId p = mem_empId m) (physicians db)))
      ∨ (mem_userType m = "nurse"
         ∧ is_Some (findOne (fun n => nu_empId n = mem_empId m) (nurses db))).
Proof.
  unfold listed.
  destruct (decide (mem_userType m = "physician")) as [Hp|Hp].
  - rewrite !fmap_is_Some. split; [auto|].
    intros [[_ H]|[Hn _]]; [exact H | congruence].
  - destruct (decide (mem_userType m = "nurse")) as [Hn|Hn].
    + rewrite !fmap_is_Some. split; [auto|].
      intros [[? _]|[_ H]]; [congruence | exact H].
    + cbn. split; [intros [? ?]; discriminate|].
      intros [[? _]|[? _]]; congruence.
Qed.

(** X22. [POST /api/channels/:channelId/members] followed by
    [GET /api/channels/:channelId/members]. A request by an authenticated
    user that names an [empId] and the type physician or nurse for a channel
    that exists is answered with [201]. The member list read afterwards is
    the old one followed by the new member when a staff document of that
    type has the [empId]; when none has, the answer is [201] all the same
    and the list read afterwards is the old one. *)
Theorem added_member_is_listed_only_with_staff_record (now : Z)
    (user viewer : User) (cid e ty : string) (db : Database) (c : Channel)
    (ms : list Member) :
  getChannelById cid db = Some c ->
  ch_members c = Some ms ->
  Forall (fun m => mem_joinedAt m < now) ms ->
  e ≠ EmptyString ->
  ty = "physician" ∨ ty = "nurse" ->
  let r := post_members now (Some user) cid (Some e) (Some ty) db in
  let staff_record :=
    (ty = "physician"
     ∧ is_Some (findOne (fun p => ph_empId p = e) (physicians db)))
    ∨ (ty = "nurse"
       ∧ is_Some (findOne (fun n => nu_empId n = e) (nurses db))) in
  r.1 = mkResponse 201 (MemberAdded cid e ty)
  ∧ (staff_record →
     ∃ lm, get_members (Some viewer) cid r.2
           = mkResponse 200 (MembersBody (getChannelMembers cid db ++ [lm]))
           ∧ lm_userType lm = ty ∧ lm_joinedAt lm = now)
  ∧ (¬ staff_record →
     get_members (Some viewer) cid r.2
     = mkResponse 200 (MembersBody (getChannelMembers cid db))).
Proof.
  intros Hc Hms Hlt He Hty r staff_record.
  assert (Hr : r = (mkResponse 201 (MemberAdded cid e ty),
                    (addUserToChannel now cid e ty db).2)).
  { subst r. unfold post_members.
    assert (Ht : JS.truthy_str (Some e) && JS.truthy_str (Some ty) = true).
    { apply andb_true_intro. split; cbn; apply negb_true_iff, String.eqb_neq;
        [exact He | destruct Hty as [-> | ->]; discriminate]. }
    rewrite Ht. rewrite decide_False by (destruct Hty; tauto).
    destruct (addUserToChannel_found now cid e ty db c Hc) as (H1 & _).
    destruct (addUserToChannel now cid e ty db) as [res db'].
    cbn [fst snd] in *. rewrite H1. reflexivity. }
  rewrite Hr. cbn [fst snd]. split; [reflexivity|].
  unfold get_members.
  rewrite (getChannelMembers_after_add now cid e ty db c ms Hc Hms Hlt).
  pose proof (listed_is_Some db (mkMember e ty now)) as Hl.
  cbn [mem_userType mem_empId] in Hl. fold staff_record in Hl.
  split.
  - intros Hs. apply Hl in Hs as [lm Hlm]. exists lm. rewrite Hlm.
    split; [reflexivity|]. unfold listed in Hlm.
    apply fmap_Some in Hlm as (d & _ & ->). split; reflexivity.
  - intros Hs. destruct (listed db (mkMember e ty now)) as [lm|] eqn:Hlm.
    + exfalso. apply Hs, Hl. eexists. reflexivity.
    + rewrite app_nil_r. reflexivity.
Qed.

Lemma added_member_is_listed_only_with_staff_record_witness :
  "N200" ≠ EmptyString
  ∧ (post_members 10
       (Some (mkUser 1 true (Some "P100") "x" None (Some "physician")
                (Some "P100") None None))
       "65c1a2b3c4d5e6f708192a3b" (Some "N200") (Some "nurse") staff_db).1
    = mkResponse 201
        (MemberAdded "65c1a2b3c4d5e6f708192a3b" "N200" "nurse").
Proof.
  assert (H1 : getChannelById "65c1a2b3c4d5e6f708192a3b" staff_db
               = Some (mkChannel "65c1a2b3c4d5e6f708192a3b" (Some "CASE1") None 0
                         (Some []))) by (vm_compute; reflexivity).
  assert (H2 : ch_members
                 (mkChannel "65c1a2b3c4d5e6f708192a3b" (Some "CASE1") None 0
                    (Some [])) = Some []) by reflexivity.
  assert (H3 : Forall (fun m => mem_joinedAt m < 10) []) by constructor.
  assert (H4 : "N200" ≠ EmptyString) by discriminate.
  assert (H5 : "nurse" = "physician" ∨ "nurse" = "nurse")
    by (right; reflexivity).
  split; [exact H4|].
  destruct (added_member_is_listed_only_with_staff_record 10
              (mkUser 1 true (Some "P100") "x" None (Some "physician")
                 (Some "P100") None None)
              (mkUser 1 true (Some "P100") "x" None (Some "physician")
                 (Some "P100") None None)
              "65c1a2b3c4d5e6f708192a3b" "N200" "nurse" staff_db _ []
              H1 H2 H3 H4 H5) as (Hr & _).
  exact Hr.
Defined.

(** X23. [POST /api/channels/:channelId/join] trusts the role of the session
    user: a user whose role is neither physician nor nurse is stored as a
    member of the channel and gets the channel back with [200], yet the
    member list served afterwards does not change; the same [empId] and
    type sent to [POST /api/channels/:channelId/members] are refused with
    [400] and nothing is stored. *)
Theorem join_stores_any_role (now : Z) (u : User) (cid e ty : string)
    (db : Database) (c : Channel) (ms : list Member) :
  u_empId u = Some e ->
  u_role u = Some ty ->
  e ≠ EmptyString ->
  ty ≠ EmptyString ->
  ty ≠ "physician" ->
  ty ≠ "nurse" ->
  getChannelById cid db = Some c ->
  ch_members c = Some ms ->
  Forall (fun m => mem_joinedAt m < now) ms ->
  let r := post_join now (Some u) cid db in
  (∃ c', r.1 = mkResponse 200 (ChannelBody (Some c'))
         ∧ ch_members c' = Some (ms ++ [mkMember e ty now])
         ∧ getChannelById cid r.2 = Some c')
  ∧ getChannelMembers cid r.2 = getChannelMembers cid db
  ∧ post_members now (Some u) cid (Some e) (Some ty) db
    = (mkResponse 400
         (Notice "User type must be either 'physician' or 'nurse'"), db).
Proof.
  intros He Hrole Hne Hty Hp Hn Hc Hms Hlt r.
  assert (Ht : JS.truthy_str (Some e) && JS.truthy_str (Some ty) = true).
  { apply andb_true_intro.
    split; cbn; apply negb_true_iff, String.eqb_neq; assumption. }
  assert (Hr : r = (mkResponse 200
                      (ChannelBody (addUserToChannel now cid e ty db).1),
                    (addUserToChannel now cid e ty db).2)).
  { subst r. unfold post_join. rewrite He, Hrole, Ht.
    destruct (addUserToChannel now cid e ty db); reflexivity. }
  destruct (addUserToChannel_found now cid e ty db c Hc) as (H1 & Hg & _).
  rewrite Hr. cbn [fst snd]. split; [|split].
  - eexists. rewrite H1. split; [reflexivity|].
    split; [|exact Hg]. apply addToSet_later; assumption.
  - rewrite (getChannelMembers_after_add now cid e ty db c ms Hc Hms Hlt).
    assert (Hl : listed db (mkMember e ty now) = None).
    { unfold listed. cbn [mem_userType].
      rewrite !decide_False by assumption. reflexivity. }
    rewrite Hl, app_nil_r. reflexivity.
  - unfold post_members. rewrite Ht, decide_True by auto. reflexivity.
Qed.

Lemma join_stores_any_role_witness :
  "admin" ≠ "physician"
  ∧ "admin" ≠ "nurse"
  ∧ getChannelMembers "65c1a2b3c4d5e6f708192a3b"
      (post_join 10
         (Some (mkUser 1 true (Some "pat") "x" None (Some "admin")
                  (Some "P100") None None))
         "65c1a2b3c4d5e6f708192a3b" staff_db).2
    = getChannelMembers "65c1a2b3c4d5e6f708192a3b" staff_db.
Proof.
  assert (H1 : getChannelById "65c1a2b3c4d5e6f708192a3b" staff_db
               = Some (mkChannel "65c1a2b3c4d5e6f708192a3b" (Some "CASE1") None 0
                         (Some []))) by (vm_compute; reflexivity).
  assert (H2 : ch_members
                 (mkChannel "65c1a2b3c4d5e6f708192a3b" (Some "CASE1") None 0
                    (Some [])) = Some []) by reflexivity.
  assert (H3 : Forall (fun m => mem_joinedAt m < 10) []) by constructor.
  assert (H4 : "P100" ≠ EmptyString) by discriminate.
  assert (H5 : "admin" ≠ EmptyString) by discriminate.
  assert (H6 : "admin" ≠ "physician") by discriminate.
  assert (H7 : "admin" ≠ "nurse") by discriminate.
  split; [exact H6|]. split; [exact H7|].
  destruct (join_stores_any_role 10
              (mkUser 1 true (Some "pat") "x" None (Some "admin")
                 (Some "P100") None None)
              "65c1a2b3c4d5e6f708192a3b" "P100" "admin" staff_db _ []
              eq_refl eq_refl H4 H5 H6 H7 H1 H2 H3) as (_ & Hsame & _).
  exact Hsame.
Defined.

(** X24. A membership request that is not served leaves the database as it
    was: every answer of [POST .../members] other than [201], and every
    answer of [POST .../join] that does not carry a channel. A request
    without a session user is answered with [401]. When the database is out
    of reach, or the [channelId] names no document (no document has it as
    its key, neither as it is sent nor as [new ObjectId] reads it), the two
    routes differ: [members] answers [500] (or [400] for a body it
    refuses), [join] answers [200] with [null]. *)
Theorem unserved_membership_requests_change_nothing (now : Z)
    (user : option User) (cid : string) (empId userType : option string)
    (db : Database) :
  (status (post_members now user cid empId userType db).1 ≠ 201 →
   (post_members now user cid empId userType db).2 = db)
  ∧ ((∀ c, body (post_join now user cid db).1 ≠ ChannelBody (Some c)) →
     (post_join now user cid db).2 = db)
  ∧ (user = None →
     status (post_members now user cid empId userType db).1 = 401
     ∧ status (post_join now user cid db).1 = 401
     ∧ status (get_members user cid db) = 401)
  ∧ (reachable db = false
     ∨ (∀ c, c ∈ channelsColl db →
             ch_id c ≠ cid ∧ JS.ObjectId cid ≠ Some (ch_id c)) →
     (∀ u, user = Some u →
           status (post_members now user cid empId userType db).1 ≠ 201
           ∧ (status (post_members now user cid empId userType db).1 = 500
              ∨ status (post_members now user cid empId userType db).1 = 400))
     ∧ (∀ u, user = Some u →
             JS.truthy_str (u_empId u) && JS.truthy_str (u_role u) = true →
             post_join now user cid db
             = (mkResponse 200 (ChannelBody None), db))).
Proof.
  assert (Hadd : ∀ e ty,
            (addUserToChannel now cid e ty db).1 = None →
            (addUserToChannel now cid e ty db).2 = db).
  { intros e ty Hnone.
    destruct (getChannelById cid db) as [c|] eqn:Hc.
    - destruct (addUserToChannel_found now cid e ty db c Hc) as (H1 & _).
      congruence.
    - rewrite addUserToChannel_missing by exact Hc. reflexivity. }
  split; [|split; [|split]].
  - unfold post_members. destruct user as [u|]; [|reflexivity].
    destruct empId as [e|]; [|reflexivity].
    destruct userType as [ty|]; [|reflexivity].
    destruct (JS.truthy_str (Some e) && JS.truthy_str (Some ty));
      [|reflexivity].
    destruct (decide _); [reflexivity|].
    pose proof (Hadd e ty) as Ha.
    destruct (addUserToChannel now cid e ty db) as [[c|] db'];
      cbn [fst snd status] in *; [congruence | auto].
  - unfold post_join. destruct user as [u|]; [|reflexivity].
    destruct (u_empId u) as [e|]; [|reflexivity].
    destruct (u_role u) as [ty|]; [|reflexivity].
    destruct (JS.truthy_str (Some e) && JS.truthy_str (Some ty));
      [|reflexivity].
    pose proof (Hadd e ty) as Ha.
    destruct (addUserToChannel now cid e ty db) as [[c|] db'];
      cbn [fst snd body] in *; [intros Hb; exfalso; eapply Hb; reflexivity|].
    auto.
  - intros ->. repeat split.
  - intros Hno.
    assert (Hc : getChannelById cid db = None).
    { unfold getChannelById. destruct (reachable db); [|reflexivity].
      destruct Hno as [Hno|Hno]; [discriminate|].
      apply findOne_None, Forall_forall. intros c Hin. apply Hno, Hin. }
    split.
    + intros u ->. unfold post_members.
      destruct empId as [e|]; [|cbn; split; [discriminate | auto]].
      destruct userType as [ty|]; [|cbn; split; [discriminate | auto]].
      destruct (JS.truthy_str (Some e) && JS.truthy_str (Some ty));
        [|cbn; split; [discriminate | auto]].
      destruct (decide _); [cbn; split; [discriminate | auto]|].
      rewrite addUserToChannel_missing by exact Hc.
      cbn. split; [discriminate | auto].
    + intros u -> Ht. unfold post_join.
      destruct (u_empId u) as [e|]; [|discriminate].
      destruct (u_role u) as [ty|];
        [|rewrite andb_false_r in Ht; discriminate].
      rewrite Ht, addUserToChannel_missing by exact Hc. reflexivity.
Qed.

(** X25. From login to member list. A staff member who logs in with
    "password" under an [empId] that no user has as username, and then joins
    a channel that exists with the session this login opened, is served
    last in the channel's member list from then on: the entry shows the
    staff document found under the [empId], the type of the collection it
    came from (physicians first) and the time of the join. *)
Theorem staff_login_then_join_is_listed (hash : string -> string -> string)
    (compare : string -> string -> option bool) (salt username : string)
    (now : Z) (cid : string) (db : Database) (t : Table) (c : Channel)
    (ms : list Member) :
  table_ok t ->
  getUserByUsername (Some username) t = None ->
  username ≠ EmptyString ->
  is_Some (findOne (fun p => ph_empId p = username) (physicians db))
  ∨ is_Some (findOne (fun n => nu_empId n = username) (nurses db)) ->
  getChannelById cid db = Some c ->
  ch_members c = Some ms ->
  Forall (fun m => mem_joinedAt m < now) ms ->
  let login := verify hash compare salt username "password" db t in
  ∃ u lm,
    login.1 = Authenticated u
    ∧ deserializeUser (serializeUser u) login.2 = Some u
    ∧ status (post_join now (Some u) cid db).1 = 200
    ∧ get_members (Some u) cid (post_join now (Some u) cid db).2
      = mkResponse 200 (MembersBody (getChannelMembers cid db ++ [lm]))
    ∧ lm_joinedAt lm = now
    ∧ match findOne (fun p => ph_empId p = username) (physicians db) with
      | Some p => lm_userData lm = inl p ∧ lm_userType lm = "physician"
      | None =>
          ∃ n, findOne (fun n => nu_empId n = username) (nurses db) = Some n
               ∧ lm_userData lm = inr n ∧ lm_userType lm = "nurse"
      end.
Proof.
  intros Hok Hnone Hne Hstaff Hc Hms Hlt login.
  destruct (getChannelById_reachable _ _ _ Hc) as (Hdb & _ & _).
  assert (Hjoin : ∀ u ty,
            u_empId u = Some username → u_role u = Some ty →
            ty ≠ EmptyString →
            post_join now (Some u) cid db
            = (mkResponse 200
                 (ChannelBody (addUserToChannel now cid username ty db).1),
               (addUserToChannel now cid username ty db).2)).
  { intros u ty He Hr Hty. unfold post_join. rewrite He, Hr.
    assert (Ht : JS.truthy_str (Some username) && JS.truthy_str (Some ty)
                 = true).
    { apply andb_true_intro.
      split; cbn; apply negb_true_iff, String.eqb_neq; assumption. }
    rewrite Ht. destruct (addUserToChannel now cid username ty db);
      reflexivity. }
  subst login. unfold verify. rewrite Hnone.
  destruct (staff_login_cases hash salt username "password" db t)
    as [[Hd _]|(_ & [[[Hpw|[Hp Hn]] _]|(_ & [(p & Hp & ->)|(Hp & n & Hn & ->)])])].
  - congruence.
  - congruence.
  - rewrite Hp, Hn in Hstaff. destruct Hstaff as [[? ?]|[? ?]]; discriminate.
  - rewrite done_created_eq. cbn [fst snd].
    set (row := from_physician hash salt username "password" p).
    destruct (getUser_created row t Hok) as [Hg _].
    pose proof (findOne_Some _ _ _ Hp) as [Hpe _].
    assert (Hemp : u_empId (createUser row t).1 = Some username)
      by (cbn; congruence).
    exists (createUser row t).1, (mkListedMember (inl p) "physician" now).
    rewrite (Hjoin _ "physician" Hemp eq_refl) by discriminate.
    cbn [fst snd status]. rewrite Hp.
    split; [reflexivity|]. split; [exact Hg|]. split; [reflexivity|].
    split; [|auto]. unfold get_members.
    rewrite (getChannelMembers_after_add now cid username "physician" db c ms
               Hc Hms Hlt).
    unfold listed. cbn [mem_userType mem_empId mem_joinedAt].
    rewrite decide_True by reflexivity. rewrite Hp. reflexivity.
  - rewrite done_created_eq. cbn [fst snd].
    set (row := from_nurse hash salt username "password" n).
    destruct (getUser_created row t Hok) as [Hg _].
    pose proof (findOne_Some _ _ _ Hn) as [Hnn _].
    assert (Hemp : u_empId (createUser row t).1 = Some username)
      by (cbn; congruence).
    exists (createUser row t).1, (mkListedMember (inr n) "nurse" now).
    rewrite (Hjoin _ "nurse" Hemp eq_refl) by discriminate.
    cbn [fst snd status]. rewrite Hp.
    split; [reflexivity|]. split; [exact Hg|]. split; [reflexivity|].
    split; [|split; [reflexivity|]; exists n; auto]. unfold get_members.
    rewrite (getChannelMembers_after_add now cid username "nurse" db c ms
               Hc Hms Hlt).
    unfold listed. cbn [mem_userType mem_empId mem_joinedAt].
    rewrite decide_False by discriminate.
    rewrite decide_True by reflexivity. rewrite Hn. reflexivity.
Qed.

Lemma staff_login_then_join_is_listed_witness :
  table_ok constructor
  ∧ getUserByUsername (Some "P100") constructor = None
  ∧ ∃ u lm,
      (verify plain_hash plain_compare "5f3a" "P100" "password" staff_db
         constructor).1
      = Authenticated u
      ∧ get_members (Some u) "65c1a2b3c4d5e6f708192a3b"
          (post_join 10 (Some u) "65c1a2b3c4d5e6f708192a3b" staff_db).2
        = mkResponse 200
            (MembersBody
               (getChannelMembers "65c1a2b3c4d5e6f708192a3b" staff_db
                  ++ [lm])).
Proof.
  assert (H1 : table_ok constructor).
  { split; [cbn; lia|]. split; [intros k u Hin; inversion Hin | constructor]. }
  assert (H2 : getUserByUsername (Some "P100") constructor = None)
    by reflexivity.
  assert (H3 : "P100" ≠ EmptyString) by discriminate.
  assert (H4 : is_Some (findOne (fun p => ph_empId p = "P100")
                          (physicians staff_db))
               ∨ is_Some (findOne (fun n => nu_empId n = "P100")
                            (nurses staff_db))).
  { left. vm_compute. eexists. reflexivity. }
  assert (H5 : getChannelById "65c1a2b3c4d5e6f708192a3b" staff_db
               = Some (mkChannel "65c1a2b3c4d5e6f708192a3b" (Some "CASE1") None 0
                         (Some []))) by (vm_compute; reflexivity).
  assert (H6 : ch_members
                 (mkChannel "65c1a2b3c4d5e6f708192a3b" (Some "CASE1") None 0
                    (Some [])) = Some []) by reflexivity.
  assert (H7 : Forall (fun m => mem_joinedAt m < 10) []) by constructor.
  split; [exact H1|]. split; [exact H2|].
  destruct (staff_login_then_join_is_listed plain_hash plain_compare "5f3a"
              "P100" 10 "65c1a2b3c4d5e6f708192a3b" staff_db constructor _ []
              H1 H2 H3 H4 H5 H6 H7) as (u & lm & Hv & _ & _ & Hlist & _).
  exists u, lm. split; [exact Hv | exact Hlist].
Defined.

Lemma findOne_by_key {A B : Type} `{!EqDecision B} (f : A -> B) (l : list A)
    (x : A) :
  NoDup (f <$> l) -> x ∈ l -> findOne (fun y => f y = f x) l = Some x.
Proof.
  induction l as [|y l IH]; intros Hnd Hin; [inversion Hin|].
  cbn in Hnd. apply NoDup_cons in Hnd as [Hy Hnd].
  rewrite findOne_cons. apply elem_of_cons in Hin as [->|Hin].
  - rewrite decide_True by reflexivity. reflexivity.
  - rewrite decide_False; [apply IH; assumption|].
    intros Heq. apply Hy. rewrite Heq. apply list_elem_of_fmap.
    exists x. split; [reflexivity | exact Hin].
Qed.

(** X26. [createChannel] gets or creates. While the database can be
    reached it returns a channel of the case, the first one stored if there
    is one and otherwise a new one with no members, appended to the
    collection; afterwards the channel is found by its case and by its key,
    and a second call returns the same channel and stores nothing. It
    never makes a second channel for a case: if no two channels shared a
    case before, none do after. *)
Theorem createChannel_gets_or_creates (now now' : Z)
    (fresh fresh' caseId : string) (db : Database) :
  reachable db = true ->
  NoDup (ch_id <$> channelsColl db) ->
  fresh ∉ ch_id <$> channelsColl db ->
  let r := createChannel now fresh caseId db in
  ∃ c,
    r.1 = Some c
    ∧ ch_caseId c = Some caseId
    ∧ getChannelByCaseId caseId r.2 = Some c
    ∧ getChannelById (ch_id c) r.2 = Some c
    ∧ createChannel now' fresh' caseId r.2 = (Some c, r.2)
    ∧ NoDup (ch_id <$> channelsColl r.2)
    ∧ match getChannelByCaseId caseId db with
      | Some c0 => c = c0 ∧ r.2 = db
      | None =>
          c = mkChannel fresh (Some caseId) None now (Some [])
          ∧ channelsColl r.2 = channelsColl db ++ [c]
      end
    ∧ (NoDup (omap ch_caseId (channelsColl db)) →
       NoDup (omap ch_caseId (channelsColl r.2))).
Proof.
  intros Hr Hnd Hfresh r. subst r. unfold createChannel. rewrite Hr.
  destruct (getChannelByCaseId caseId db) as [c0|] eqn:Hc0.
  - exists c0. cbn [fst snd]. rewrite Hr, Hc0.
    pose proof Hc0 as Hf. unfold getChannelByCaseId in Hf. rewrite Hr in Hf.
    apply findOne_Some in Hf as [Hcase Hin].
    split; [reflexivity|]. split; [exact Hcase|]. split; [reflexivity|].
    split.
    { unfold getChannelById. rewrite Hr.
      apply (findOne_by_key ch_id); assumption. }
    split; [reflexivity|]. split; [exact Hnd|]. split; [auto|]. auto.
  - set (c := mkChannel fresh (Some caseId) None now (Some [])).
    exists c. cbn [fst snd].
    pose proof Hc0 as Hf. unfold getChannelByCaseId in Hf. rewrite Hr in Hf.
    assert (Hg : getChannelByCaseId caseId
                   (set_channelsColl (fun l => l ++ [c]) db) = Some c).
    { unfold getChannelByCaseId. cbn [set_channelsColl reachable channelsColl].
      rewrite Hr, findOne_app_r by exact Hf.
      rewrite findOne_cons, decide_True by reflexivity. reflexivity. }
    assert (Hnd' : NoDup (ch_id <$> channelsColl
                            (set_channelsColl (fun l => l ++ [c]) db))).
    { cbn [set_channelsColl channelsColl]. rewrite fmap_app.
      apply NoDup_app. split; [exact Hnd|]. split; [|apply NoDup_singleton].
      intros x Hx Hx'. apply list_elem_of_singleton in Hx'. subst x.
      contradiction. }
    split; [reflexivity|]. split; [reflexivity|]. split; [exact Hg|].
    split.
    { unfold getChannelById. cbn [set_channelsColl reachable channelsColl].
      rewrite Hr. apply (findOne_by_key ch_id); [exact Hnd'|].
      apply elem_of_app. right. left. }
    split.
    { cbn [set_channelsColl reachable]. rewrite Hr, Hg. reflexivity. }
    split; [exact Hnd'|]. split; [auto|].
    intros Hcase. cbn [set_channelsColl channelsColl]. rewrite omap_app.
    apply NoDup_app. split; [exact Hcase|]. split; [|apply NoDup_singleton].
    intros x Hx Hx'. cbn in Hx'. apply list_elem_of_singleton in Hx'. subst x.
    apply list_elem_of_omap in Hx as (c1 & Hin & Hc1).
    apply findOne_None in Hf. rewrite Forall_forall in Hf.
    exact (Hf c1 Hin Hc1).
Qed.

Lemma createChannel_gets_or_creates_witness :
  reachable staff_db = true
  ∧ ("65c1a2b3c4d5e6f708192a3c" ∉ ch_id <$> channelsColl staff_db)
  ∧ ∃ c,
      (createChannel 10 "65c1a2b3c4d5e6f708192a3c" "CASE2" staff_db).1 = Some c
      ∧ createChannel 20 "65c1a2b3c4d5e6f708192a3d" "CASE2"
          (createChannel 10 "65c1a2b3c4d5e6f708192a3c" "CASE2" staff_db).2
        = (Some c,
           (createChannel 10 "65c1a2b3c4d5e6f708192a3c" "CASE2" staff_db).2).
Proof.
  assert (H1 : reachable staff_db = true) by reflexivity.
  assert (H2 : NoDup (ch_id <$> channelsColl staff_db))
    by (apply (bool_decide_unpack _); vm_compute; exact I).
  assert (H3 : "65c1a2b3c4d5e6f708192a3c" ∉ ch_id <$> channelsColl staff_db)
    by (apply (bool_decide_unpack _); vm_compute; exact I).
  split; [exact H1|]. split; [exact H3|].
  destruct (createChannel_gets_or_creates 10 20 "65c1a2b3c4d5e6f708192a3c"
              "65c1a2b3c4d5e6f708192a3d" "CASE2" staff_db H1 H2 H3)
    as (c & Hc & _ & _ & _ & Hagain & _).
  exists c. split; [exact Hc | exact Hagain].
Defined.

(** ** Channels made over HTTP and the socket handlers *)

Lemma updateOne_Forall {A : Type} (P Q : A -> Prop) `{!∀ x, Decision (P x)}
    (f : A -> A) (l : list A) :
  (∀ x, Q x → Q (f x)) -> Forall Q l -> Forall Q (updateOne P f l).
Proof.
  intros Hf. induction 1 as [|x l Hx Hl IH]; [constructor|].
  cbn [updateOne]. destruct (decide (P x)); constructor; auto.
Qed.

Lemma write_keeps_no_patientId (w : ChannelWrite) (db : Database) :
  Forall (fun c => ch_patientId c = None) (channelsColl db) ->
  Forall (fun c => ch_patientId c = None) (channelsColl (write w db)).
Proof.
  intros Hall. destruct w as [now fresh caseId|now cid e ty]; cbn [write].
  - unfold createChannel. destruct (reachable db); [|exact Hall].
    destruct (getChannelByCaseId caseId db); [exact Hall|].
    cbn [snd set_channelsColl channelsColl].
    apply Forall_app_2; [exact Hall|]. constructor; [reflexivity|constructor].
  - unfold addUserToChannel. destruct (reachable db); [|exact Hall].
    cbn [snd set_channelsColl channelsColl].
    apply updateOne_Forall; [|exact Hall]. intros x Hx. exact Hx.
Qed.

Lemma write_all_keeps_no_patientId (ws : list ChannelWrite) (db : Database) :
  Forall (fun c => ch_patientId c = None) (channelsColl db) ->
  Forall (fun c => ch_patientId c = None) (channelsColl (write_all ws db)).
Proof.
  revert db. induction ws as [|w ws IH]; intros db Hall; [exact Hall|].
  cbn [write_all foldl]. apply IH, write_keeps_no_patientId, Hall.
Qed.

(** X27. A channel made by [createChannel] has a [caseId] and no
    [patientId], and nothing [MemStorage] does gives it one, while the
    [statusUpdate] case looks for the channel with
    [getChannelByPatientId]. So in a database whose channels were all made
    by the server, a status update from a connection with a bound identity
    is handed to the store and reaches nobody: no frame is sent, however
    many connections have joined the patient's channel. *)
Theorem status_updates_miss_created_channels (calls : list ChannelWrite)
    (db0 : Database) (now : Z) (ws : nat) (s : Server)
    (patientId status location details : option string) :
  channelsColl db0 = [] ->
  channelDocs (storage s) = doc_of <$> channelsColl (write_all calls db0) ->
  registered s ws = true ->
  unidentified (socket_of s ws) = false ->
  JS.truthy_str patientId = true ->
  Store.getChannelByPatientId patientId (storage s) = None
  ∧ ∃ update saved,
      trace_of
        (step now
           (MessageEvent ws (InStatusUpdate patientId status location details))
           s)
      = [StoreStatus update saved]
      ∧ nsu_patientId update = patientId.
Proof.
  intros Hempty Hdocs Hreg Hid Hpid.
  assert (Hnone : Store.getChannelByPatientId patientId (storage s) = None).
  { unfold Store.getChannelByPatientId.
    destruct (available (storage s)); [|reflexivity].
    assert (Hf : list_find (fun c => chan_patientId c = patientId)
                   (channelDocs (storage s)) = None).
    { apply list_find_None. rewrite Hdocs. apply Forall_fmap.
      eapply Forall_impl.
      - apply write_all_keeps_no_patientId. rewrite Hempty. constructor.
      - intros c Hc Heq. cbn in Heq. rewrite Hc in Heq. subst patientId.
        discriminate. }
    rewrite Hf. reflexivity. }
  split; [exact Hnone|].
  rewrite step_handle_message by (exact Hreg || discriminate).
  cbn [handle_message]. unfold handle_statusUpdate. run_handler.
  rewrite Hid, Hpid. cbn.
  unfold Store.getChannelByPatientId in Hnone |- *.
  unfold Store.addStatusUpdate, set_storage. cbn.
  destruct (available (storage s)) eqn:Hav; cbn.
  - apply fmap_None in Hnone. rewrite Hnone. cbn.
    eexists _, _. split; reflexivity.
  - rewrite Hav. cbn. eexists _, _. split; reflexivity.
Qed.

Lemma status_updates_miss_created_channels_witness :
  registered created_server 0%nat = true
  ∧ members created_server (Some "65c1a2b3c4d5e6f708192a3b") = [0%nat; 1%nat]
  ∧ ∃ update saved,
      trace_of
        (step 7
           (MessageEvent 0%nat
              (InStatusUpdate (Some "64b7f0c2a1d3e4f5a6b7c8d9")
                 (Some "stable") None None))
           created_server)
      = [StoreStatus update saved].
Proof.
  assert (H1 : channelsColl (mkDatabase true [] [] []) = []) by reflexivity.
  assert (H2 : channelDocs (storage created_server)
               = doc_of <$> channelsColl
                   (write_all
                      [CreateChannel 1 "65c1a2b3c4d5e6f708192a3b" "CASE1"]
                      (mkDatabase true [] [] [])))
    by (vm_compute; reflexivity).
  assert (H3 : registered created_server 0%nat = true)
    by (vm_compute; reflexivity).
  assert (H4 : unidentified (socket_of created_server 0%nat) = false)
    by (vm_compute; reflexivity).
  assert (H5 : JS.truthy_str (Some "64b7f0c2a1d3e4f5a6b7c8d9") = true)
    by reflexivity.
  split; [exact H3|]. split; [vm_compute; reflexivity|].
  destruct (status_updates_miss_created_channels
              [CreateChannel 1 "65c1a2b3c4d5e6f708192a3b" "CASE1"]
              (mkDatabase true [] [] [])
              7 0%nat created_server (Some "64b7f0c2a1d3e4f5a6b7c8d9")
              (Some "stable") None None H1 H2 H3 H4 H5)
    as (_ & update & saved & Htrace & _).
  exists update, saved. exact Htrace.
Defined.
